(** * wiserheatingapi: a model of [wiserHub.py] and [request_mod.py]

    The hub facade is a Python class that keeps three cached JSON documents
    and a device-to-room dictionary, talks to the hub through a
    [requests.Session] subclass and raises typed exceptions.

    - Python values are the type [Json]; [None] is [JNull].
    - A number is an [int] of any size or a [float]; floats are binary64,
      as the kernel's are, and [*] and [/] round as Python's do.
    - [template.format(args)] is kept as the template with its arguments.
    - The state is the object's four attributes, with the requests handed
      to the session and the records handed to the logger; a method is a
      function from state to a result, returned or raised, and a state.
    - The hub is any function from the requests seen so far to an answer.
    - [refreshData] and [checkHubData] call each other: the model recurses
      on the call depth that is left. *)

From Stdlib Require Import ZArith QArith Qround Qabs List String Ascii Bool Lia Lqa.
From Stdlib Require Import PrimFloat FloatOps SpecFloat.
Import ListNotations.

Set Warnings "-register-all".

Local Open Scope string_scope.
Local Open Scope Z_scope.
Local Open Scope list_scope.

(** ** Python values *)

(** Values that travel through the facade: what [json.loads] produces and
    what the callers pass in.  Python's [None] is [JNull]. *)
Inductive Json : Type :=
| JNull
| JBool (b : bool)
| JInt (z : Z)
| JFloat (q : Q)
| JStr (s : string)
| JArr (items : list Json)
| JObj (fields : list (string * Json)).

Definition is_None (v : Json) : bool :=
  match v with JNull => true | _ => false end.

(** The numeric value of an int, a float or a bool ([bool] is a subclass of
    [int]); floats are taken as the exact decimal they denote. *)
Definition as_number (v : Json) : option Q :=
  match v with
  | JInt z => Some (inject_Z z)
  | JFloat q => Some q
  | JBool true => Some 1%Q
  | JBool false => Some 0%Q
  | _ => None
  end.

Fixpoint assoc (k : string) (kvs : list (string * Json)) : option Json :=
  match kvs with
  | [] => None
  | (k', v) :: rest => if String.eqb k' k then Some v else assoc k rest
  end.

(** Python's [==] on these values: numbers compare by value, strings and
    lists structurally, dicts key by key whatever the order. *)
Fixpoint py_eq (a b : Json) {struct a} : bool :=
  match a, b with
  | JNull, JNull => true
  | JStr s, JStr t => String.eqb s t
  | JArr xs, JArr ys =>
      (fix items (xs ys : list Json) {struct xs} : bool :=
         match xs, ys with
         | [], [] => true
         | x :: xs', y :: ys' => py_eq x y && items xs' ys'
         | _, _ => false
         end) xs ys
  | JObj kvs, JObj kvs' =>
      (Nat.eqb (List.length kvs) (List.length kvs')) &&
      (fix entries (l : list (string * Json)) {struct l} : bool :=
         match l with
         | [] => true
         | (k, v) :: l' =>
             match assoc k kvs' with
             | Some v' => py_eq v v' && entries l'
             | None => false
             end
         end) kvs
  | JBool true, _ =>
      match as_number b with Some q => Qeq_bool 1 q | None => false end
  | JBool false, _ =>
      match as_number b with Some q => Qeq_bool 0 q | None => false end
  | JInt z, _ =>
      match as_number b with Some q => Qeq_bool (inject_Z z) q | None => false end
  | JFloat p, _ =>
      match as_number b with Some q => Qeq_bool p q | None => false end
  | _, _ => false
  end.

(** [d.get(k)] on a dict. *)
Definition dict_get (fields : list (string * Json)) (k : string) : Json :=
  match assoc k fields with Some v => v | None => JNull end.

(** [d[k] = v] on a dict with string keys: an existing key keeps its place. *)
Fixpoint dict_set (k : string) (v : Json) (fields : list (string * Json))
  : list (string * Json) :=
  match fields with
  | [] => [(k, v)]
  | (k', v') :: rest =>
      if String.eqb k' k then (k', v) :: rest else (k', v') :: dict_set k v rest
  end.

(** The device-to-room dictionary is keyed by whatever the hub sends as a
    device id.  Lists and dicts are not hashable. *)
Definition Dict : Type := list (Json * Json).

Definition hashable (k : Json) : bool :=
  match k with JArr _ | JObj _ => false | _ => true end.

Fixpoint store (k v : Json) (d : Dict) : Dict :=
  match d with
  | [] => [(k, v)]
  | (k', v') :: rest =>
      if py_eq k' k then (k', v) :: rest else (k', v') :: store k v rest
  end.

Fixpoint find (k : Json) (d : Dict) : option Json :=
  match d with
  | [] => None
  | (k', v) :: rest => if py_eq k' k then Some v else find k rest
  end.

(** ** Numbers *)

(** A Python number as the facade meets it: an [int], of any size, or a
    [float], which is a binary64. *)
Inductive Number : Type :=
| Int (z : Z)
| Float (x : float).

(** What a number stands for. *)
Inductive Value : Type :=
| Finite (q : Q)
| Infinity (negative : bool)
| NaN.

Definition float_value (x : float) : Value :=
  match Prim2SF x with
  | S754_zero _ => Finite 0
  | S754_finite sg m e =>
      let n := if sg then Z.neg m else Z.pos m in
      Finite (if 0 <=? e then inject_Z (n * 2 ^ e) else Qmake n (Z.to_pos (2 ^ (- e))))
  | S754_infinity sg => Infinity sg
  | S754_nan => NaN
  end.

Definition value (n : Number) : Value :=
  match n with
  | Int z => Finite (inject_Z z)
  | Float x => float_value x
  end.

Definition Qlt_bool (x y : Q) : bool := negb (Qle_bool y x).

(** [a == b] and [a < b].  Python compares two floats, and an int with a
    float, by the numbers they stand for; NaN is not equal to anything,
    nor below or above anything. *)
Definition num_eq (a b : Number) : bool :=
  match value a, value b with
  | Finite p, Finite q => Qeq_bool p q
  | Infinity s, Infinity t => Bool.eqb s t
  | _, _ => false
  end.

Definition num_lt (a b : Number) : bool :=
  match value a, value b with
  | Finite p, Finite q => Qlt_bool p q
  | Infinity true, Finite _ => true
  | Finite _, Infinity false => true
  | Infinity true, Infinity false => true
  | _, _ => false
  end.

(** [a <= b] *)
Definition num_le (a b : Number) : bool := num_lt a b || num_eq a b.

(** The float nearest to [n / d], ties to even, infinite when [n / d] is
    out of the range of the floats: what [int / int] computes, what
    [float(n)] is for [d = 1], and what a decimal is read as. *)
Definition nearest (n : Z) (d : positive) : float :=
  match n with
  | Z0 => 0%float
  | Zpos p => SF2Prim (SFdiv prec emax (S754_finite false p 0) (S754_finite false d 0))
  | Zneg p => SF2Prim (SFdiv prec emax (S754_finite true p 0) (S754_finite false d 0))
  end.

(** ** Strings *)

Definition ascii_lower (c : ascii) : ascii :=
  let n := nat_of_ascii c in
  if (Nat.leb 65 n && Nat.leb n 90)%bool then ascii_of_nat (n + 32) else c.

(** [str.lower()] for the tests of the facade, which compare the result
    with a word of ASCII letters.  The capitals of ASCII are lowered; a
    character outside ASCII is left alone, where Python may lower it, but
    never to a letter of those words, so that the tests come out the same.
    Where the lowered string itself is shown, in a message, the model keeps
    it as [FLower]. *)
Fixpoint lower (s : string) : string :=
  match s with
  | EmptyString => EmptyString
  | String c s' => String (ascii_lower c) (lower s')
  end.

(** ** Messages, exceptions, requests *)

(** A response as the facade reads it.  It is one that does not ask, with
    a Retry-After header, to be sent again. *)
Record Response : Type := mkResponse {
  status_code : Z;
  text : string;
  (** what [.json()] (or [json.loads] of the content) yields; [None] when
      the body is not JSON *)
  json : option Json
}.

(** What [requests] can raise out of [Session.request]. *)
Inductive RequestsExn : Type :=
| HTTPError (r : Response)
| Timeout
| ConnectionError
| RetryError
| RequestException.

(** [template.format(args)] kept as the template and its arguments. *)
Inductive FmtArg : Type :=
| FVal (v : Json)
| FNum (n : Number)
(** [s.lower()] as an argument *)
| FLower (s : string)
| FMap (d : list (Json * Json))
| FExn (e : RequestsExn)
| FType (e : RequestsExn).

Record Fmt : Type := mkFmt { template : string; fargs : list FmtArg }.

Definition plain (s : string) : Fmt := mkFmt s [].

Inductive ExnArg : Type :=
| AMsg (m : Fmt)
| ACause (e : RequestsExn).

Inductive Exn : Type :=
| Requests (e : RequestsExn)
| WiserNotFound (m : Fmt)
| WiserRESTException (a : ExnArg)
| WiserHubDataNull (m : Fmt)
| WiserHubAuthenticationException (m : Fmt)
| WiserHubRequestException (m : Fmt)
| WiserHubTimeoutException (m : Fmt)
| WiserNoRoomsFound (m : Fmt)
| ValueError (m : Fmt)
| OverflowError (what : string)
| JSONDecodeError
| KeyError (k : Json)
| TypeError (what : string)
| AttributeError (what : string)
| UnboundLocalError (name : string)
| RecursionError.

Inductive Method : Type := GET | PATCH.

Record Request : Type := mkRequest {
  method : Method;
  url : Fmt;
  payload : option Json
}.

(** How one [Session.request] ends in the adapter, its retries included:
    with the last response that came back, or without one.  [Failed] is
    any failure of requests other than a time-out and a failed connection:
    too many redirects, retries used up on responses that asked to be sent
    again after a while, and so on. *)
Inductive Wire : Type :=
| Delivered (r : Response)
| TimedOut
| ConnectionFailed
| Failed.

(** The hub and the network: the answer to the latest request, given every
    request issued so far (oldest first, the latest one last). *)
Definition Hub : Type := list Request -> Wire.

Inductive Level : Type := DEBUG | INFO | WARNING | ERROR.

(** ** The object and its monad *)

Record State : Type := mkState {
  wiserHubData : Json;
  wiserNetworkData : Json;
  wiserScheduleData : Json;
  device2roomMap : Dict;
  (** requests handed to the session, oldest first *)
  sent : list Request;
  (** records handed to the logger, oldest first *)
  logged : list (Level * Fmt)
}.

(** [wiserHub.__init__] *)
Definition init : State :=
  mkState JNull JNull JNull [] [] [(INFO, mkFmt "WiserHub API Initialised : Version {}" [FVal (JStr "1.0.8.0")])].

Inductive Result (A : Type) : Type :=
| Return (a : A)
| Raise (e : Exn).
Arguments Return {A} a.
Arguments Raise {A} e.

Definition M (A : Type) : Type := State -> Result A * State.

Definition ret {A} (a : A) : M A := fun s => (Return a, s).
Definition raise {A} (e : Exn) : M A := fun s => (Raise e, s).
Definition bind {A B} (m : M A) (f : A -> M B) : M B :=
  fun s =>
    match m s with
    | (Return a, s') => f a s'
    | (Raise e, s') => (Raise e, s')
    end.

Declare Scope monad_scope.
Delimit Scope monad_scope with monad.
Notation "x <- m ;; k" := (bind m (fun x => k))
  (at level 100, m at next level, right associativity) : monad_scope.
Notation "m ;; k" := (bind m (fun _ => k))
  (at level 100, right associativity) : monad_scope.
Local Open Scope monad_scope.

Definition get_state : M State := fun s => (Return s, s).

(** A call that does not touch the object. *)
Definition lift {A} (r : Result A) : M A := fun s => (r, s).

Definition set_wiserHubData (v : Json) : M unit := fun s =>
  (Return tt, mkState v (wiserNetworkData s) (wiserScheduleData s)
                      (device2roomMap s) (sent s) (logged s)).
Definition set_wiserNetworkData (v : Json) : M unit := fun s =>
  (Return tt, mkState (wiserHubData s) v (wiserScheduleData s)
                      (device2roomMap s) (sent s) (logged s)).
Definition set_wiserScheduleData (v : Json) : M unit := fun s =>
  (Return tt, mkState (wiserHubData s) (wiserNetworkData s) v
                      (device2roomMap s) (sent s) (logged s)).
Definition set_device2roomMap (d : Dict) : M unit := fun s =>
  (Return tt, mkState (wiserHubData s) (wiserNetworkData s) (wiserScheduleData s)
                      d (sent s) (logged s)).

Definition _LOGGER (lvl : Level) (m : Fmt) : M unit := fun s =>
  (Return tt, mkState (wiserHubData s) (wiserNetworkData s) (wiserScheduleData s)
                      (device2roomMap s) (sent s) (logged s ++ [(lvl, m)])).

(** A [for] loop whose body can raise. *)
Fixpoint for_each {A} (l : list A) (body : A -> M unit) : M unit :=
  match l with
  | [] => ret tt
  | x :: rest => body x ;; for_each rest body
  end.

(** [v.get(k)]: only dicts have [get]. *)
Definition py_get (v : Json) (k : string) : M Json :=
  match v with
  | JObj fields => ret (dict_get fields k)
  | _ => raise (AttributeError "get")
  end.

(** [v[k]] with a string key. *)
Definition py_getitem (v : Json) (k : string) : M Json :=
  match v with
  | JObj fields =>
      match assoc k fields with
      | Some x => ret x
      | None => raise (KeyError (JStr k))
      end
  | _ => raise (TypeError "subscript")
  end.

(** [v[k] = x] with a string key. *)
Definition py_setitem (v : Json) (k : string) (x : Json) : M Json :=
  match v with
  | JObj fields => ret (JObj (dict_set k x fields))
  | _ => raise (TypeError "item assignment")
  end.

Definition chars (s : string) : list Json :=
  List.map (fun c => JStr (String c EmptyString)) (list_ascii_of_string s).

(** [for x in v]: lists give their items, dicts their keys, strings their
    characters; nothing else is iterable. *)
Definition py_iter (v : Json) : M (list Json) :=
  match v with
  | JArr items => ret items
  | JObj fields => ret (List.map (fun kv => JStr (fst kv)) fields)
  | JStr s => ret (chars s)
  | _ => raise (TypeError "not iterable")
  end.

(** ** Temperatures *)

Definition TEMP_MINIMUM : Number := Int 5.
Definition TEMP_MAXIMUM : Number := Int 30.
Definition TEMP_OFF : Number := Int (-20).

(** Truncation towards zero. *)
Definition py_int (x : Q) : Z := Z.quot (Qnum x) (Zpos (Qden x)).

(** Rounding to the nearest integer, ties to even. *)
Definition round_half_even (x : Q) : Z :=
  let f := Qfloor x in
  match Qcompare (x - inject_Z f) (1 # 2) with
  | Lt => f
  | Gt => f + 1
  | Eq => if Z.even f then f else f + 1
  end.

(** [a * b] for an int [b]: exact on an int; on a float, [b] becomes a
    float and the product is rounded to the nearest float. *)
Definition times (a : Number) (b : Z) : Number :=
  match a with
  | Int z => Int (z * b)
  | Float x => Float (PrimFloat.mul x (nearest b 1))
  end.

(** [a / b] for a positive int [b]: always a float.  Of two ints it is the
    float nearest to the quotient, and an error when that is out of
    range. *)
Definition truediv (a : Number) (b : positive) : Result float :=
  match a with
  | Int z =>
      match float_value (nearest z b) with
      | Infinity _ => Raise (OverflowError "integer division result too large for a float")
      | _ => Return (nearest z b)
      end
  | Float x => Return (PrimFloat.div x (nearest (Zpos b) 1))
  end.

(** [int(a)]: a float is cut at the point, and has to be finite. *)
Definition int_of (a : Number) : Result Z :=
  match a with
  | Int z => Return z
  | Float x =>
      match float_value x with
      | Finite q => Return (py_int q)
      | Infinity _ => Raise (OverflowError "cannot convert float infinity to integer")
      | NaN => Raise (ValueError (plain "cannot convert float NaN to integer"))
      end
  end.

(** [round(x, 1)] of a float: the float nearest to the decimal with one
    digit after the point that is nearest to [x], ties to even.  A result
    of zero has the sign of [x]; zeros, infinities and NaN come back as
    they are. *)
Definition py_round1 (x : float) : float :=
  match Prim2SF x, float_value x with
  | S754_finite sg _ _, Finite q =>
      let n := round_half_even (q * 10) in
      if n =? 0 then SF2Prim (S754_zero sg) else nearest n 10
  | _, _ => x
  end.

Definition _toWiserTemp (temp : Number) : Result Z :=
  int_of (times temp 10).

Definition _fromWiserTemp (temp : Number) : Result float :=
  match truediv temp 10 with
  | Return x => Return (py_round1 x)
  | Raise e => Raise e
  end.

Definition _checkTempRange (temp : Number) : bool :=
  if negb (num_eq temp TEMP_OFF)
     && (num_lt temp TEMP_MINIMUM || num_lt TEMP_MAXIMUM temp)
  then false
  else true.

(** ** Transport: [request_mod.CustomSession] *)

(** [Response.raise_for_status] of the requests library raises [HTTPError]
    for the client and server error codes, 400 to 599. *)
Definition raise_for_status (r : Response) : M unit :=
  if (400 <=? status_code r) && (status_code r <? 600)
  then raise (Requests (HTTPError r))
  else ret tt.

(** [Retry(total=3, status_forcelist=[500, 502, 503, 504])] is what the
    adapter of the session is given.  urllib3 sends a request again when
    its method is idempotent, as GET is and PATCH is not, and the status of
    the response is in the list; when the response to the last attempt is
    still one of these, it gives up. *)
Definition status_forcelist : list Z := [500; 502; 503; 504].

Definition retried (meth : Method) (r : Response) : bool :=
  match meth with
  | GET => existsb (Z.eqb (status_code r)) status_forcelist
  | PATCH => false
  end.

Definition record_request (req : Request) : M unit := fun s =>
  (Return tt, mkState (wiserHubData s) (wiserNetworkData s) (wiserScheduleData s)
                      (device2roomMap s) (sent s ++ [req]) (logged s)).

Section Facade.

Variable hub : Hub.

(** [CustomSession.request]: the request goes out through the adapter.
    When the adapter has given up on a status of its list, requests raises
    [RetryError]; any other response goes to the session's response hook,
    which calls [raise_for_status] on it, inside the call. *)
Definition request (meth : Method) (u : Fmt) (body : option Json) : M Response :=
  record_request (mkRequest meth u body) ;;
  s <- get_state ;;
  match hub (sent s) with
  | Delivered r =>
      if retried meth r then raise (Requests RetryError)
      else raise_for_status r ;; ret r
  | TimedOut => raise (Requests Timeout)
  | ConnectionFailed => raise (Requests ConnectionError)
  | Failed => raise (Requests RequestException)
  end.

Definition _http_get (u : Fmt) : M Response := request GET u None.
Definition _http_patch (u : Fmt) (data : Json) : M Response := request PATCH u (Some data).

(** ** Request layer *)

(** Reading a local name of the enclosing function. *)
Definition load_local {A} (name : string) (v : option A) : M A :=
  match v with
  | Some a => ret a
  | None => raise (UnboundLocalError name)
  end.

(** Python's [x or y] used as a condition, [y] an int. *)
Definition or_int (x : bool) (y : Z) : bool := x || negb (y =? 0).

(** The [except] clauses of [_makeGetRequest].  [resp] is the function's
    local of that name: [None] as long as it is unbound. *)
Definition get_handler (resp : option Response) (e : Exn) : M Response :=
  match e with
  | Requests (HTTPError r) =>
      let ex := HTTPError r in
      code <- (r <- load_local "resp" resp ;; ret (status_code r)) ;;
      if code =? 401 then
        raise (WiserHubAuthenticationException
                 (plain "Authentication error. Check secret key."))
      else
        code <- (r <- load_local "resp" resp ;; ret (status_code r)) ;;
        if code =? 404 then
          raise (WiserHubRequestException
                   (plain "Invalid request. Check URL endpoint."))
        else raise (WiserRESTException (ACause ex))
  | Requests Timeout | Requests ConnectionError =>
      _LOGGER DEBUG (plain "Connection timed out trying to update from Wiser Hub") ;;
      match e with
      | Requests ex =>
          raise (WiserHubTimeoutException
                   (mkFmt "The error is {} The Exception is {}" [FExn ex; FType ex]))
      | _ => raise e
      end
  | _ => raise e
  end.

Definition _makeGetRequest (u : Fmt) : M Response := fun s =>
  match _http_get u s with
  | (Return resp, s1) => (Return resp, s1)
  | (Raise e, s1) =>
      (* [resp = self._http.get(...)] raised: [resp] was never assigned *)
      get_handler None e s1
  end.

(** The [except] clauses of [_makePatchRequest]. *)
Definition patch_handler (resp : option Response) (e : Exn) : M Response :=
  match e with
  | Requests (HTTPError r) =>
      let ex := HTTPError r in
      code <- (r <- load_local "resp" resp ;; ret (status_code r)) ;;
      if code =? 401 then
        raise (WiserHubAuthenticationException
                 (plain "Authentication error. Check secret key."))
      else
        code <- (r <- load_local "resp" resp ;; ret (status_code r)) ;;
        if or_int (code =? 404) 405 then
          raise (WiserHubRequestException
                   (plain "Invalid request. Check URL endpoint and patch data."))
        else raise (WiserRESTException (ACause ex))
  | Requests Timeout | Requests ConnectionError =>
      _LOGGER DEBUG (plain "Connection timed out trying to send data to Wiser Hub") ;;
      match e with
      | Requests ex =>
          raise (WiserHubTimeoutException
                   (mkFmt "The error is {} The Exception is {}" [FExn ex; FType ex]))
      | _ => raise e
      end
  | _ => raise e
  end.

Definition _makePatchRequest (u : Fmt) (data : Json) : M Response := fun s =>
  match _http_patch u data s with
  | (Return resp, s1) => (Return resp, s1)
  | (Raise e, s1) => patch_handler None e s1
  end.

(** ** Cache and refresh *)

Definition resp_json (resp : Response) : M Json :=
  match json resp with
  | Some v => ret v
  | None => raise JSONDecodeError
  end.

Definition updateScheduleData : M Json :=
  resp <- _makeGetRequest (plain "schedules/") ;;
  v <- resp_json resp ;;
  set_wiserScheduleData v ;;
  ret v.

(** The bytes that are not printable ASCII are dropped before parsing;
    [json] stands for the document that results. *)
Definition updateNetworkData : M Json :=
  resp <- _makeGetRequest (plain "network/") ;;
  v <- resp_json resp ;;
  set_wiserNetworkData v ;;
  ret v.

Definition updateHubData : M Json :=
  resp <- _makeGetRequest (plain "domain/") ;;
  v <- resp_json resp ;;
  set_wiserHubData v ;;
  ret v.

(** [self.device2roomMap[k] = v] *)
Definition map_store (k v : Json) : M unit :=
  if hashable k then
    s <- get_state ;; set_device2roomMap (store k v (device2roomMap s))
  else raise (TypeError "unhashable").

Definition room_entry (room : Json) : M Json :=
  rid <- py_get room "id" ;;
  rname <- py_get room "Name" ;;
  ret (JObj [("roomId", rid); ("roomName", rname)]).

(** The body of [for room in self.getRooms()] in [refreshData]. *)
Definition index_room (room : Json) : M unit :=
  roomStatId <- py_get room "RoomStatId" ;;
  (if negb (is_None roomStatId) then
     entry <- room_entry room ;; map_store roomStatId entry
   else ret tt) ;;
  smartValves <- py_get room "SmartValveIds" ;;
  (if negb (is_None smartValves) then
     valves <- py_iter smartValves ;;
     for_each valves (fun valveId =>
       entry <- room_entry room ;; map_store valveId entry)
   else ret tt) ;;
  if is_None roomStatId && is_None smartValves then
    rname <- py_get room "Name" ;;
    _LOGGER WARNING
      (mkFmt "Room {} doesn't contain any smart valves or thermostats." [FVal rname])
  else ret tt.

(** [checkHubData], [refreshData] and [getRooms] call each other.  The
    methods that call [self.refreshData()] take it as an argument, and
    [refreshData] is defined by recursion on the call depth that is left:
    Python raises [RecursionError] when it is used up. *)
Definition checkHubData_ (refreshData : M Json) : M unit :=
  s <- get_state ;;
  (if is_None (wiserHubData s) then refreshData ;; ret tt else ret tt) ;;
  s <- get_state ;;
  if is_None (wiserHubData s) then
    raise (WiserHubDataNull (plain "Hub data null even after refresh, aborting request"))
  else ret tt.

Definition getRooms_ (refreshData : M Json) : M Json :=
  checkHubData_ refreshData ;;
  s <- get_state ;;
  py_get (wiserHubData s) "Room".

Fixpoint refreshData (depth : nat) : M Json :=
  match depth with
  | O => raise RecursionError
  | S depth' =>
      _LOGGER INFO (plain "Updating Wiser Hub Data") ;;
      s <- get_state ;;
      (if is_None (wiserScheduleData s) then updateScheduleData ;; ret tt else ret tt) ;;
      s <- get_state ;;
      (if is_None (wiserNetworkData s) then updateNetworkData ;; ret tt else ret tt) ;;
      updateHubData ;;
      s <- get_state ;;
      _LOGGER DEBUG (mkFmt "Wiser Hub Data received {} " [FVal (wiserHubData s)]) ;;
      rooms <- getRooms_ (refreshData depth') ;;
      (if negb (is_None rooms) then
         rooms <- getRooms_ (refreshData depth') ;;
         items <- py_iter rooms ;;
         for_each items index_room ;;
         s <- get_state ;;
         _LOGGER DEBUG (mkFmt " valve2roomMap{} " [FMap (device2roomMap s)])
       else _LOGGER WARNING (plain "Wiser found no rooms")) ;;
      (* tempData = self.wiserHubData; tempData['Schedule'] = ... changes the
         cached document itself *)
      s <- get_state ;;
      heating <- py_getitem (wiserScheduleData s) "Heating" ;;
      tempData <- py_setitem (wiserHubData s) "Schedule" heating ;;
      set_wiserHubData tempData ;;
      ret tempData
  end.

Definition checkHubData (depth : nat) : M unit := checkHubData_ (refreshData depth).

Definition getHubData (depth : nat) : M Json :=
  checkHubData depth ;;
  s <- get_state ;;
  ret (wiserHubData s).

Definition getRooms (depth : nat) : M Json := getRooms_ (refreshData depth).

(** [for x in items: if x.get(key) == wanted: return x] *)
Fixpoint first_with (key : string) (wanted : Json) (items : list Json) : M (option Json) :=
  match items with
  | [] => ret None
  | x :: rest =>
      v <- py_get x key ;;
      if py_eq v wanted then ret (Some x) else first_with key wanted rest
  end.

Definition getRoom (depth : nat) (roomId : Json) : M Json :=
  checkHubData depth ;;
  s <- get_state ;;
  rooms <- py_get (wiserHubData s) "Room" ;;
  if is_None rooms then
    _LOGGER WARNING (plain "getRoom called but no rooms found") ;;
    raise (WiserNoRoomsFound (plain "No rooms found in Wiser payload"))
  else
    items <- py_iter rooms ;;
    found <- first_with "id" roomId items ;;
    match found with
    | Some room => ret room
    | None => raise (WiserNotFound (mkFmt "Room {} not found" [FVal roomId]))
    end.

Definition getHeatingChannels (depth : nat) : M Json :=
  checkHubData depth ;;
  s <- get_state ;;
  py_get (wiserHubData s) "HeatingChannel".

Definition getDeviceRoom (depth : nat) (deviceId : Json) : M Json :=
  checkHubData depth ;;
  s <- get_state ;;
  _LOGGER DEBUG (mkFmt " getDeviceRoom called, valve2roomMap is {} "
                       [FMap (device2roomMap s)]) ;;
  (match device2roomMap s with
   | [] => refreshData depth ;; ret tt
   | _ :: _ => ret tt
   end) ;;
  s <- get_state ;;
  if hashable deviceId then
    match find deviceId (device2roomMap s) with
    | Some entry => ret entry
    | None => raise (KeyError deviceId)
    end
  else raise (TypeError "unhashable").

(** The loop of [getHeatingRelayStatus], [status] being the local
    [heatingRelayStatus]. *)
Fixpoint relay_loop (channels : list Json) (status : string) : M string :=
  match channels with
  | [] => ret status
  | heatingChannel :: rest =>
      v <- py_get heatingChannel "HeatingRelayState" ;;
      relay_loop rest (if py_eq v (JStr "On") then "On" else status)
  end.

Definition getHeatingRelayStatus (depth : nat) : M string :=
  (* self.checkHubData() is commented out in the source *)
  heatingChannels <- getHeatingChannels depth ;;
  channels <- py_iter heatingChannels ;;
  relay_loop channels "Off".

(** ** Room mode *)

(** A value of a document as an operand of [/]: an int, a bool, which is
    an int, or a float, the one nearest to the decimal of the document. *)
Definition to_number (v : Json) : M Number :=
  match v with
  | JInt z => ret (Int z)
  | JBool true => ret (Int 1)
  | JBool false => ret (Int 0)
  | JFloat q => ret (Float (nearest (Qnum q) (Qden q)))
  | _ => raise (TypeError "unsupported operand")
  end.

Definition room_url (roomId : Json) : Fmt := mkFmt "domain/Room/{}" [FVal roomId].

Definition cancelBoostPostData : Json :=
  JObj [("RequestOverride",
         JObj [("Type", JStr "None");
               ("DurationMinutes", JInt 0);
               ("SetPoint", JInt 0);
               ("Originator", JStr "App")])].

Definition manual_override (setPoint : Z) : Json :=
  JObj [("Mode", JStr "Manual");
        ("RequestOverride",
         JObj [("Type", JStr "Manual"); ("SetPoint", JInt setPoint)])].

Definition boost_override (boost_temp_time : Json) (setPoint : Z) : Json :=
  JObj [("RequestOverride",
         JObj [("Type", JStr "Manual");
               ("DurationMinutes", boost_temp_time);
               ("SetPoint", JInt setPoint);
               ("Originator", JStr "App")])].

(** The first [if]/[elif] chain of [setRoomMode]: the value of [patchData]. *)
Definition mode_patchData (depth : nat) (roomId : Json) (mode : string)
    (boost_temp : Number) (boost_temp_time : Json) : M Json :=
  if String.eqb (lower mode) "auto" then
    ret (JObj [("Mode", JStr "Auto")])
  else if String.eqb (lower mode) "boost" then
    if num_lt boost_temp TEMP_MINIMUM || num_lt TEMP_MAXIMUM boost_temp then
      raise (ValueError
               (mkFmt "Boost temperature is set to {}. Boost temperature can only be between {} and {}."
                      [FNum boost_temp; FNum TEMP_MINIMUM; FNum TEMP_MAXIMUM]))
    else
      _LOGGER DEBUG
        (mkFmt "Setting room {} to boost mode with temp of {} for {} mins"
               [FVal roomId; FNum boost_temp; FVal boost_temp_time]) ;;
      setPoint <- lift (_toWiserTemp boost_temp) ;;
      ret (boost_override boost_temp_time setPoint)
  else if String.eqb (lower mode) "manual" then
    room <- getRoom depth roomId ;;
    scheduled <- py_get room "ScheduledSetPoint" ;;
    scheduled <- to_number scheduled ;;
    setTemp <- lift (_fromWiserTemp scheduled) ;;
    let setTemp :=
      if num_le TEMP_MINIMUM (Float setTemp) then Float setTemp else TEMP_MINIMUM in
    setPoint <- lift (_toWiserTemp setTemp) ;;
    ret (manual_override setPoint)
  else if String.eqb (lower mode) "off" then
    setPoint <- lift (_toWiserTemp TEMP_OFF) ;;
    ret (manual_override setPoint)
  else
    raise (ValueError
             (mkFmt "Error setting setting room mode, received  {} but should be auto,boost,off or manual "
                    [FVal (JStr mode)])).

(** The second step of [setRoomMode]: "if not a boost operation cancel any
    current boost". *)
Definition cancel_current_boost (roomId : Json) (mode : string) : M unit :=
  if negb (String.eqb (lower mode) "boost") then
    response <- _http_patch (room_url roomId) cancelBoostPostData ;;
    if negb (status_code response =? 200) then
      _LOGGER ERROR (mkFmt "Cancelling boost resulted in {}"
                           [FVal (JInt (status_code response))]) ;;
      raise (WiserRESTException
               (AMsg (mkFmt "Error cancelling boost {} " [FVal (JStr mode)])))
    else ret tt
  else ret tt.

(** The last step: "Set new mode". *)
Definition set_new_mode (roomId : Json) (mode : string) (patchData : Json) : M unit :=
  response <- _http_patch (room_url roomId) patchData ;;
  if negb (status_code response =? 200) then
    _LOGGER ERROR (mkFmt "Set Room {} to Mode {} resulted in {}"
                         [FVal roomId; FVal (JStr mode); FVal (JInt (status_code response))]) ;;
    raise (WiserRESTException
             (AMsg (mkFmt "Error setting mode to {}, error {} "
                          [FVal (JStr mode); FVal (JStr (text response))])))
  else
    _LOGGER DEBUG (mkFmt "Set room mode, error {} ({})"
                         [FVal (JInt (status_code response)); FVal (JStr (text response))]).

Definition setRoomMode (depth : nat) (roomId : Json) (mode : string)
    (boost_temp : Number) (boost_temp_time : Json) : M unit :=
  _LOGGER DEBUG (mkFmt "Set Mode {} for a room {} " [FVal (JStr mode); FVal roomId]) ;;
  patchData <- mode_patchData depth roomId mode boost_temp boost_temp_time ;;
  cancel_current_boost roomId mode ;;
  set_new_mode roomId mode patchData.

(** ** Smart plugs *)

(** The loop of [getSmartPlugState]; [Some v] is [return v]. *)
Fixpoint plug_state_loop (smartPlugId : Json) (plugs : list Json) : M (option Json) :=
  match plugs with
  | [] => ret None
  | plug :: rest =>
      pid <- py_get plug "id" ;;
      if py_eq pid smartPlugId then
        output <- py_get plug "OutputState" ;;
        if is_None output then
          raise (WiserNotFound
                   (mkFmt "Unable to get State of smartPlug {}, is it offline?"
                          [FVal smartPlugId]))
        else
          scheduled <- py_get plug "ScheduledState" ;;
          ret (Some scheduled)
      else plug_state_loop smartPlugId rest
  end.

Definition getSmartPlugState (depth : nat) (smartPlugId : Json) : M Json :=
  checkHubData depth ;;
  data <- getHubData depth ;;
  plugs <- py_get data "SmartPlug" ;;
  returned <-
    (if negb (is_None plugs) then
       data <- getHubData depth ;;
       plugs <- py_get data "SmartPlug" ;;
       items <- py_iter plugs ;;
       plug_state_loop smartPlugId items
     else ret None) ;;
  match returned with
  | Some v => ret v
  | None => raise (WiserNotFound (mkFmt "Unable to find smartPlug {}" [FVal smartPlugId]))
  end.

(** ** More built-ins *)

(** The truth value of [v], as [if v] and [not v] take it. *)
Definition py_truthy (v : Json) : bool :=
  match v with
  | JNull => false
  | JBool b => b
  | JInt z => negb (z =? 0)
  | JFloat q => negb (Qeq_bool q 0)
  | JStr s => negb (String.eqb s "")
  | JArr items => match items with [] => false | _ :: _ => true end
  | JObj fields => match fields with [] => false | _ :: _ => true end
  end.

(** [IndexError] is not among the exceptions of [Exn]: a subscript, and
    the method that makes it, yield [IndexError] in the place of their
    value where Python raises it. *)
Inductive Subscript (A : Type) : Type :=
| Item (a : A)
| IndexError.
Arguments Item {A} a.
Arguments IndexError {A}.

(** [v[0]]: the first item of a list, the first character of a string; a
    dict of a JSON document has no key 0. *)
Definition py_item0 (v : Json) : M (Subscript Json) :=
  match v with
  | JArr (x :: _) => ret (Item x)
  | JArr [] => ret IndexError
  | JStr (String c _) => ret (Item (JStr (String c EmptyString)))
  | JStr EmptyString => ret IndexError
  | JObj _ => raise (KeyError (JInt 0))
  | _ => raise (TypeError "subscript")
  end.

(** [x in words] *)
Definition str_in (x : string) (words : list string) : bool :=
  existsb (String.eqb x) words.

Definition ascii_upper (c : ascii) : ascii :=
  let n := nat_of_ascii c in
  if (Nat.leb 97 n && Nat.leb n 122)%bool then ascii_of_nat (n - 32) else c.

Definition is_letter (c : ascii) : bool :=
  let n := nat_of_ascii c in
  ((Nat.leb 65 n && Nat.leb n 90) || (Nat.leb 97 n && Nat.leb n 122))%bool.

(** [str.title()] on the ASCII range, which is all that can produce one of
    the words tested for: a letter that follows a letter is lowered, any
    other letter is raised. *)
Fixpoint title_from (after_letter : bool) (s : string) : string :=
  match s with
  | EmptyString => EmptyString
  | String c s' =>
      String (if after_letter then ascii_lower c else ascii_upper c)
             (title_from (is_letter c) s')
  end.

Definition title (s : string) : string := title_from false s.

(** [try: body except: handler], the bare [except] that catches whatever
    is raised; what the body did to the object before it raised stays. *)
Definition try_except {A} (body handler : M A) : M A := fun s =>
  match body s with
  | (Return a, s1) => (Return a, s1)
  | (Raise _, s1) => handler s1
  end.

(** ** Other reads of the cache *)

Definition getSystem (depth : nat) : M Json :=
  checkHubData depth ;;
  s <- get_state ;;
  py_get (wiserHubData s) "System".

Definition getHotwater (depth : nat) : M Json :=
  checkHubData depth ;;
  try_except (s <- get_state ;; py_get (wiserHubData s) "HotWater")
             (ret JNull).

Definition getDevices (depth : nat) : M Json :=
  checkHubData depth ;;
  s <- get_state ;;
  py_get (wiserHubData s) "Device".

Definition getDevice (depth : nat) (deviceId : Json) : M Json :=
  checkHubData depth ;;
  s <- get_state ;;
  devices <- py_get (wiserHubData s) "Device" ;;
  if is_None devices then
    _LOGGER WARNING (plain "getRoom called but no rooms found") ;;
    raise (WiserNoRoomsFound (plain "getRoom called but no rooms found"))
  else
    s <- get_state ;;
    devices <- py_get (wiserHubData s) "Device" ;;
    items <- py_iter devices ;;
    found <- first_with "id" deviceId items ;;
    match found with
    | Some device => ret device
    | None => raise (WiserNotFound (mkFmt "Device {} not found " [FVal deviceId]))
    end.

Definition getWiserHubName (depth : nat) : M Json :=
  try_except
    (s <- get_state ;;
     station <- py_get (wiserNetworkData s) "Station" ;;
     py_get station "MdnsHostname")
    (device <- getDevice depth (JInt 0) ;;
     py_get device "ModelIdentifier").

Definition getMACAddress : M Json :=
  try_except
    (s <- get_state ;;
     station <- py_get (wiserNetworkData s) "Station" ;;
     py_get station "MacAddress")
    (ret (JStr "NO_MAC_FOUND")).

Definition getHotwaterRelayStatus (depth : nat) : M (Subscript Json) :=
  checkHubData depth ;;
  s <- get_state ;;
  hotWater <- py_get (wiserHubData s) "HotWater" ;;
  if negb (py_truthy hotWater) then ret (Item (JBool false))
  else
    s <- get_state ;;
    hotWater <- py_get (wiserHubData s) "HotWater" ;;
    first <- py_item0 hotWater ;;
    match first with
    | Item heater =>
        state <- py_get heater "WaterHeatingState" ;;
        ret (Item state)
    | IndexError => ret IndexError
    end.

Definition getRoomStatData (depth : nat) (deviceId : Json) : M Json :=
  checkHubData depth ;;
  s <- get_state ;;
  roomStats <- py_getitem (wiserHubData s) "RoomStat" ;;
  if is_None roomStats then
    _LOGGER WARNING (plain "getRoomStatData called but no RoomStats found") ;;
    raise (WiserNotFound (mkFmt "deviceID {} not found " [FVal deviceId]))
  else
    s <- get_state ;;
    roomStats <- py_getitem (wiserHubData s) "RoomStat" ;;
    items <- py_iter roomStats ;;
    found <- first_with "id" deviceId items ;;
    match found with
    | Some roomStat => ret roomStat
    | None =>
        raise (WiserNotFound
                 (mkFmt "getRoomStatData for deviceID {} not found due" [FVal deviceId]))
    end.

Definition getRoomSchedule (depth : nat) (roomId : Json) : M Json :=
  checkHubData depth ;;
  room <- getRoom depth roomId ;;
  if is_None room then
    raise (WiserNotFound (mkFmt "getRoomSchedule for room {} not found " [FVal roomId]))
  else
    room <- getRoom depth roomId ;;
    scheduleId <- py_get room "ScheduleId" ;;
    if negb (is_None scheduleId) then
      s <- get_state ;;
      schedules <- py_get (wiserHubData s) "Schedule" ;;
      items <- py_iter schedules ;;
      found <- first_with "id" scheduleId items ;;
      match found with
      | Some schedule => ret schedule
      | None =>
          raise (WiserNotFound
                   (mkFmt "getRoomSchedule for room {} not found " [FVal roomId]))
      end
    else
      raise (WiserNotFound (mkFmt "getRoomSchedule for room {} not found " [FVal roomId])).

Definition getSmartPlugs (depth : nat) : M Json :=
  checkHubData depth ;;
  data <- getHubData depth ;;
  py_get data "SmartPlug".

Definition getSmartPlug (depth : nat) (smartPlugId : Json) : M Json :=
  checkHubData depth ;;
  data <- getHubData depth ;;
  plugs <- py_get data "SmartPlug" ;;
  returned <-
    (if negb (is_None plugs) then
       data <- getHubData depth ;;
       plugs <- py_get data "SmartPlug" ;;
       items <- py_iter plugs ;;
       first_with "id" smartPlugId items
     else ret None) ;;
  match returned with
  | Some plug => ret plug
  | None => raise (WiserNotFound (mkFmt "Unable to find smartPlug {}" [FVal smartPlugId]))
  end.

(** The loop of [getSmartPlugMode]; [Some v] is [return v]. *)
Fixpoint plug_mode_loop (smartPlugId : Json) (plugs : list Json) : M (option Json) :=
  match plugs with
  | [] => ret None
  | plug :: rest =>
      pid <- py_get plug "id" ;;
      if py_eq pid smartPlugId then
        mode <- py_get plug "Mode" ;;
        ret (Some mode)
      else plug_mode_loop smartPlugId rest
  end.

Definition getSmartPlugMode (depth : nat) (smartPlugId : Json) : M Json :=
  checkHubData depth ;;
  data <- getHubData depth ;;
  plugs <- py_get data "SmartPlug" ;;
  returned <-
    (if negb (is_None plugs) then
       data <- getHubData depth ;;
       plugs <- py_get data "SmartPlug" ;;
       items <- py_iter plugs ;;
       plug_mode_loop smartPlugId items
     else ret None) ;;
  match returned with
  | Some v => ret v
  | None => raise (WiserNotFound (mkFmt "Unable to find smartPlug {}" [FVal smartPlugId]))
  end.

(** ** Other writes to the hub

    These methods hand their PATCH to the session themselves, without
    [_makePatchRequest]. *)

Definition DHWOnTemp : Z := 1100.
Definition DHWOffTemp : Z := -200.

Definition modeMapping : list (string * Json) :=
  [("on", JObj [("RequestOverride",
                 JObj [("Type", JStr "Manual"); ("SetPoint", JInt DHWOnTemp)])]);
   ("off", JObj [("RequestOverride",
                  JObj [("Type", JStr "Manual"); ("SetPoint", JInt DHWOffTemp)])]);
   ("auto", JObj [("RequestOverride",
                   JObj [("Type", JStr "None"); ("Mode", JStr "Auto")])])].

Definition hotwater_url (DHWId : Json) : Fmt := mkFmt "HotWater/{}/" [FVal DHWId].

(** The message of the [ValueError] is built with [%] and shows
    [mode.lower()], whatever letters [mode] has.  Past the test [_mode] is
    one of the three words.  The debug record has the URL, itself
    formatted, as its second argument: the template here is the one that
    gives the same text from the two values. *)
Definition setHotwaterMode (depth : nat) (mode : string) : M (Subscript bool) :=
  let _mode := lower mode in
  if negb (str_in _mode ["on"; "off"; "auto"]) then
    raise (ValueError
             (mkFmt "Hot Water can be either 'on', 'off' or 'auto' - not '%s'"
                    [FLower mode]))
  else
    s <- get_state ;;
    (if is_None (wiserHubData s) then refreshData depth ;; ret tt else ret tt) ;;
    s <- get_state ;;
    hotWater <- py_get (wiserHubData s) "HotWater" ;;
    first <- py_item0 hotWater ;;
    match first with
    | IndexError => ret IndexError
    | Item heater =>
        DHWId <- py_get heater "id" ;;
        _LOGGER DEBUG (mkFmt "Sending Patch Data: {}, to URL [HotWater/{}/]"
                             [FVal (dict_get modeMapping _mode); FVal DHWId]) ;;
        response <- _http_patch (hotwater_url DHWId) (dict_get modeMapping _mode) ;;
        if negb (status_code response =? 200) then
          _LOGGER DEBUG (mkFmt "Set DHW Response code = {}"
                               [FVal (JInt (status_code response))]) ;;
          raise (WiserRESTException
                   (AMsg (mkFmt "Error setting hot water mode to {}, error {} {}"
                                [FVal (JStr _mode); FVal (JInt (status_code response));
                                 FVal (JStr (text response))])))
        else ret (Item true)
    end.

(** [mode] is [False] when the caller leaves it out. *)
Definition setSystemSwitch (switch : string) (mode : Json) : M unit :=
  let patchData := JObj [(switch, mode)] in
  _LOGGER DEBUG (mkFmt "patchdata {} " [FVal patchData]) ;;
  response <- _http_patch (plain "System") patchData ;;
  if negb (status_code response =? 200) then
    _LOGGER DEBUG (mkFmt "Set {} Response code = {}"
                         [FVal (JStr switch); FVal (JInt (status_code response))]) ;;
    raise (WiserRESTException
             (AMsg (mkFmt "Error setting {} , error {} {}"
                          [FVal (JStr switch); FVal (JInt (status_code response));
                           FVal (JStr (text response))])))
  else ret tt.

Definition schedule_url (scheduleId : Json) : Fmt :=
  mkFmt "schedules/Heating/{}" [FVal scheduleId].

Definition setRoomSchedule (depth : nat) (roomId scheduleData : Json) : M unit :=
  room <- getRoom depth roomId ;;
  scheduleId <- py_get room "ScheduleId" ;;
  if negb (is_None scheduleId) then
    let patchData := scheduleData in
    response <- _http_patch (schedule_url scheduleId) patchData ;;
    if negb (status_code response =? 200) then
      _LOGGER DEBUG (mkFmt "Set Schedule Response code = {}"
                           [FVal (JInt (status_code response))]) ;;
      raise (WiserRESTException
               (AMsg (mkFmt "Error setting schedule for room {} , error {} {}"
                            [FVal roomId; FVal (JInt (status_code response));
                             FVal (JStr (text response))])))
    else ret tt
  else raise (WiserNotFound (plain "No schedule found that matches roomId")).

(** A temperature argument that can be [None]. *)
Definition temperature_arg (temperature : option Number) : FmtArg :=
  match temperature with
  | Some t => FNum t
  | None => FVal JNull
  end.

(** [temperature * 10] needs a number. *)
Definition temperature_number (temperature : option Number) : M Number :=
  match temperature with
  | Some t => ret t
  | None => raise (TypeError "unsupported operand")
  end.

(** [temperature] is 10 when the caller leaves it out. *)
Definition setHomeAwayMode (mode : string) (temperature : option Number) : M unit :=
  _LOGGER INFO (mkFmt "Setting Home/Away mode to : {} {} C"
                      [FVal (JStr mode); temperature_arg temperature]) ;;
  if negb (str_in mode ["HOME"; "AWAY"]) then
    raise (ValueError (plain "setAwayHome can only be HOME or AWAY"))
  else
    (if String.eqb mode "AWAY" then
       match temperature with
       | None =>
           raise (ValueError (plain "setAwayHome set to AWAY but not temperature set"))
       | Some t =>
           if negb (_checkTempRange t) then
             raise (ValueError
                      (mkFmt "setAwayHome temperature can only be between {} and {} or {}(Off)"
                             [FNum TEMP_MINIMUM; FNum TEMP_MAXIMUM; FNum TEMP_OFF]))
           else ret tt
       end
     else ret tt) ;;
    _LOGGER INFO (mkFmt "Setting Home/Away : {}" [FVal (JStr mode)]) ;;
    patchData <-
      (if String.eqb mode "AWAY" then
         t <- temperature_number temperature ;;
         setPoint <- lift (_toWiserTemp t) ;;
         ret (JObj [("type", JInt 2); ("setPoint", JInt setPoint)])
       else ret (JObj [("type", JInt 0); ("setPoint", JInt 0)])) ;;
    _LOGGER DEBUG (mkFmt "patchdata {} " [FVal patchData]) ;;
    response <- _http_patch (plain "System/RequestOverride") patchData ;;
    if negb (status_code response =? 200) then
      _LOGGER DEBUG (mkFmt "Set Home/Away Response code = {}"
                           [FVal (JInt (status_code response))]) ;;
      raise (ValueError
               (mkFmt "Error setting Home/Away , error {} {}"
                      [FVal (JInt (status_code response)); FVal (JStr (text response))]))
    else ret tt.

Definition temperature_override (setPoint : Z) : Json :=
  JObj [("RequestOverride",
         JObj [("Type", JStr "Manual"); ("SetPoint", JInt setPoint)])].

Definition setRoomTemperature (roomId : Json) (temperature : Number) : M unit :=
  _LOGGER INFO (mkFmt "Set Room {} Temperature to = {} " [FVal roomId; FNum temperature]) ;;
  if negb (_checkTempRange temperature) then
    raise (ValueError
             (mkFmt "SetRoomTemperature : value of temperature must be between {} and {} OR {} (off)"
                    [FNum TEMP_MINIMUM; FNum TEMP_MAXIMUM; FNum TEMP_OFF]))
  else
    setPoint <- lift (_toWiserTemp temperature) ;;
    let patchData := temperature_override setPoint in
    response <- _http_patch (room_url roomId) patchData ;;
    if negb (status_code response =? 200) then
      _LOGGER ERROR (mkFmt "Set Room {} Temperature to = {} resulted in {}"
                           [FVal roomId; FNum temperature;
                            FVal (JInt (status_code response))]) ;;
      raise (WiserRESTException
               (AMsg (mkFmt "Error setting temperature, error {} "
                            [FVal (JStr (text response))])))
    else
      _LOGGER DEBUG (mkFmt "Set room Temp, error {} ({})"
                           [FVal (JInt (status_code response));
                            FVal (JStr (text response))]).

Definition plug_url (smartPlugId : Json) : Fmt :=
  mkFmt "domain/SmartPlug/{}" [FVal smartPlugId].

(** What [setSmartPlugState] and [setSmartPlugMode] do with the response,
    in the same words. *)
Definition plug_response (smartPlugId : Json) (response : Response) : M unit :=
  if negb (status_code response =? 200) then
    if status_code response =? 404 then
      _LOGGER DEBUG (plain "Set smart plug not found error ") ;;
      raise (WiserNotFound
               (mkFmt "Set smart plug {} not found error" [FVal smartPlugId]))
    else
      _LOGGER DEBUG (mkFmt "Set smart plug error {} Response code = {}"
                           [FVal (JStr (text response));
                            FVal (JInt (status_code response))]) ;;
      raise (WiserRESTException
               (AMsg (mkFmt "Error setting smartplug mode, msg {} , error {}"
                            [FVal (JInt (status_code response));
                             FVal (JStr (text response))])))
  else ret tt.

(** [smartPlugState] is a string or [None]. *)
Definition setSmartPlugState (smartPlugId : Json) (smartPlugState : option string)
  : M unit :=
  match smartPlugState with
  | None =>
      _LOGGER ERROR (plain "SmartPlug State is None, must be either On or Off") ;;
      raise (ValueError (plain "SmartPlug State is None, must be either On or Off"))
  | Some state =>
      if negb (str_in (title state) ["On"; "Off"]) then
        _LOGGER ERROR (plain "SmartPlug State must be either On or Off") ;;
        raise (ValueError (plain "SmartPlug State must be either On or Off"))
      else
        let patchData := JObj [("RequestOutput", JStr (title state))] in
        _LOGGER DEBUG (mkFmt "Setting smartplug status patchdata {} " [FVal patchData]) ;;
        response <- _http_patch (plug_url smartPlugId) patchData ;;
        plug_response smartPlugId response
  end.

Definition setSmartPlugMode (smartPlugId : Json) (smartPlugMode : string) : M unit :=
  if negb (str_in (title smartPlugMode) ["Auto"; "Manual"]) then
    _LOGGER ERROR (plain "SmartPlug Mode must be either Auto or Manual") ;;
    raise (ValueError (plain "SmartPlug Mode must be either Auto or Manual"))
  else
    let patchData := JObj [("Mode", JStr (title smartPlugMode))] in
    _LOGGER DEBUG (mkFmt "Setting smartplug status patchdata {} " [FVal patchData]) ;;
    response <- _http_patch (plug_url smartPlugId) patchData ;;
    plug_response smartPlugId response.

End Facade.

Arguments Item {A} a.
Arguments IndexError {A}.


(** * Vocabulary of the statements *)

Definition is_get (r : Request) : Prop := method r = GET.

Definition get_request (u : string) : Request := mkRequest GET (plain u) None.

Definition patch_request (roomId data : Json) : Request :=
  mkRequest PATCH (room_url roomId) (Some data).

Definition cancel_request (roomId : Json) : Request :=
  patch_request roomId cancelBoostPostData.


(** The request went through: a response came back, the hook let it pass
    and the caller's test on 200 as well. *)
Definition accepted (w : Wire) : bool :=
  match w with
  | Delivered r => status_code r =? 200
  | _ => false
  end.

(** What a run added to the requests and to the log. *)
Definition issued (s s' : State) : list Request :=
  skipn (List.length (sent s)) (sent s').

Definition recorded (s s' : State) : list (Level * Fmt) :=
  skipn (List.length (logged s)) (logged s').


Definition refresh_started : Level * Fmt := (INFO, plain "Updating Wiser Hub Data").

Definition is_refresh_started (r : Level * Fmt) : bool :=
  match r with
  | (INFO, m) => String.eqb (template m) "Updating Wiser Hub Data"
  | _ => false
  end.

(** [s'] comes from [s] by issuing requests that satisfy [P] and by
    logging. *)
Definition extends (P : Request -> Prop) (s s' : State) : Prop :=
  (exists new, sent s' = sent s ++ new /\ Forall P new)
  /\ (exists records, logged s' = logged s ++ records).

(** Running [m] from [s] keeps [I] and issues only requests in [P]. *)
Definition holds (I : State -> Prop) (P : Request -> Prop) {A} (m : M A) (s : State)
  : Prop :=
  I s -> I (snd (m s)) /\ extends P s (snd (m s)).

(** What [I] and [P] must satisfy to be carried through the reads of the
    facade: these change the object in five ways only. *)
Class Frame (I : State -> Prop) (P : Request -> Prop) : Prop := {
  frame_io : forall s new records,
    I s ->
    I (mkState (wiserHubData s) (wiserNetworkData s) (wiserScheduleData s)
               (device2roomMap s) (sent s ++ new) (logged s ++ records));
  frame_hub : forall s v, I s -> I (snd (set_wiserHubData v s));
  frame_map : forall s k v,
    I s -> I (snd (set_device2roomMap (store k v (device2roomMap s)) s));
  frame_schedule : forall s v,
    I s -> is_None (wiserScheduleData s) = true ->
    I (snd (set_wiserScheduleData v s)) /\ P (get_request "schedules/");
  frame_network : forall s v,
    I s -> is_None (wiserNetworkData s) = true ->
    I (snd (set_wiserNetworkData v s)) /\ P (get_request "network/");
  frame_domain : P (get_request "domain/")
}.

(** The two caches that [refreshData] fills only when they are unset can
    be tracked or not: with both flags off, [allowed] says no more than
    "a GET". *)
Definition cached (keep_schedule keep_network : bool) (s : State) : Prop :=
  (keep_schedule = true -> is_None (wiserScheduleData s) = false)
  /\ (keep_network = true -> is_None (wiserNetworkData s) = false).

Definition allowed (keep_schedule keep_network : bool) (r : Request) : Prop :=
  method r = GET
  /\ (keep_schedule = true -> url r <> plain "schedules/")
  /\ (keep_network = true -> url r <> plain "network/").

(** The device index has an entry for [k]. *)
Definition indexed (k : Json) (s : State) : Prop :=
  exists v, find k (device2roomMap s) = Some v.

Definition anything (r : Request) : Prop := True.

(** The two requests that can come before the domain document's. *)
Definition before_domain (r : Request) : Prop :=
  r = get_request "schedules/" \/ r = get_request "network/".


(** A heating channel, given by its fields, reports its relay "On". *)
Definition relay_on (channel : list (string * Json)) : bool :=
  py_eq (dict_get channel "HeatingRelayState") (JStr "On").

(** An object of a list, given by its fields, has another id than [wanted]. *)
Definition other_id (wanted : Json) (item : list (string * Json)) : bool :=
  negb (py_eq (dict_get item "id") wanted).



(** The caches and the requests, which the loop over the rooms does not
    touch. *)
Definition off_index (s : State) : Json * Json * Json * list Request :=
  (wiserHubData s, wiserNetworkData s, wiserScheduleData s, sent s).

(** The numbers that [_checkTempRange] is meant to accept. *)
Definition off_or_in_range (q : Q) : Prop :=
  (q == -20 \/ (5 <= q /\ q <= 30))%Q.




(** ** Scenarios *)

Definition answering (code : Z) : Hub :=
  fun _ => Delivered (mkResponse code "" None).

Definition unreachable : Hub := fun _ => TimedOut.

Definition ok (doc : Json) : Wire := Delivered (mkResponse 200 "" (Some doc)).

(** The rooms of the device-index example. *)
Definition rooms3 : Json :=
  JArr [JObj [("id", JInt 1); ("RoomStatId", JStr "A")];
        JObj [("id", JInt 2); ("SmartValveIds", JArr [JStr "B"; JStr "C"])];
        JObj [("id", JInt 3)]].

Definition index3 : Dict :=
  [(JStr "A", JObj [("roomId", JInt 1); ("roomName", JNull)]);
   (JStr "B", JObj [("roomId", JInt 2); ("roomName", JNull)]);
   (JStr "C", JObj [("roomId", JInt 2); ("roomName", JNull)])].



Definition last_template (reqs : list Request) : string :=
  match List.rev reqs with
  | r :: _ => template (url r)
  | [] => ""
  end.

Definition count_domain_gets (reqs : list Request) : nat :=
  List.length (List.filter (fun r => String.eqb (template (url r)) "domain/") reqs).

(** A hub whose domain document is [first] on the first fetch and [later]
    from then on. *)
Definition serving (first later : Json) : Hub := fun reqs =>
  if String.eqb (last_template reqs) "schedules/" then ok (JObj [("Heating", JArr [])])
  else if String.eqb (last_template reqs) "network/" then ok (JObj [])
  else if String.eqb (last_template reqs) "domain/" then
    if Nat.leb (count_domain_gets reqs) 1 then ok first else ok later
  else ok JNull.




(** An object whose caches are filled, with an empty index. *)
Definition loaded (domain : Json) : State :=
  mkState domain (JObj []) (JObj [("Heating", JArr [])]) [] [] [].

Definition one_channel_on : Json :=
  JObj [("HeatingChannel", JArr [JObj [("HeatingRelayState", JStr "On")]])].


(** One room, scheduled at 3 degrees. *)
Definition one_room : Json :=
  JObj [("Room", JArr [JObj [("id", JInt 1); ("ScheduledSetPoint", JInt 30)]])].

Definition two_plugs : Json :=
  JObj [("SmartPlug",
         JArr [JObj [("id", JInt 7); ("OutputState", JStr "On");
                     ("ScheduledState", JStr "Off")];
               JObj [("id", JInt 8); ("ScheduledState", JStr "On")]])].

(** A loaded object whose index has the entries of the example. *)
Definition indexed3 : State :=
  mkState (JObj [("Room", rooms3)]) (JObj []) (JObj [("Heating", JArr [])])
          index3 [] [].
(** ** Vocabulary of the further properties *)

(** The three documents a refresh can fetch. *)
Definition fetches (r : Request) : Prop :=
  r = get_request "schedules/" \/ r = get_request "network/"
  \/ r = get_request "domain/".

Definition always (s : State) : Prop := True.

(** [s'] is [s] with more log records, if any: nothing was sent, and the
    caches and the index are the same. *)
Definition only_logged (s s' : State) : Prop :=
  wiserHubData s' = wiserHubData s
  /\ wiserNetworkData s' = wiserNetworkData s
  /\ wiserScheduleData s' = wiserScheduleData s
  /\ device2roomMap s' = device2roomMap s
  /\ sent s' = sent s
  /\ exists records, logged s' = logged s ++ records.

(** Running [m] on a populated domain cache only logs. *)
Definition offline {A} (m : M A) : Prop :=
  forall s, wiserHubData s <> JNull -> only_logged s (snd (m s)).

(** A look-up that returns has found, in the list the cache holds under
    [key], an object with the wanted id. *)
Definition found_in (key : string) (wanted x : Json) (s' : State) : Prop :=
  exists fields items item,
    wiserHubData s' = JObj fields
    /\ dict_get fields key = JArr items
    /\ In x items
    /\ x = JObj item
    /\ py_eq (dict_get item "id") wanted = true.

(** The state of the plug that [getSmartPlugState] reports. *)
Definition scheduled_state (smartPlugId plug : Json) : M Json :=
  output <- py_get plug "OutputState" ;;
  if is_None output then
    raise (WiserNotFound
             (mkFmt "Unable to get State of smartPlug {}, is it offline?"
                    [FVal smartPlugId]))
  else py_get plug "ScheduledState".

(** The end of the smart plug reads: the loop returned, or it fell through. *)
Definition found_or_raise (smartPlugId : Json) (returned : option Json) : M Json :=
  match returned with
  | Some v => ret v
  | None => raise (WiserNotFound (mkFmt "Unable to find smartPlug {}" [FVal smartPlugId]))
  end.

(** A home with one room on schedule 5, and the two schedules the hub has. *)
Definition scheduled_room : list (string * Json) :=
  [("id", JInt 1); ("ScheduleId", JInt 5)].

Definition schedule5 : list (string * Json) :=
  [("id", JInt 5); ("Monday", JArr [])].

Definition scheduled_home : Json :=
  JObj [("Room", JArr [JObj scheduled_room]);
        ("Schedule", JArr [JObj [("id", JInt 4)]; JObj schedule5])].

(** What the session hands back for one PATCH, from what the adapter got:
    the response, or the exception of requests. *)
Definition transport (w : Wire) : Result Response :=
  match w with
  | Delivered r =>
      if (400 <=? status_code r) && (status_code r <? 600)
      then Raise (Requests (HTTPError r))
      else Return r
  | TimedOut => Raise (Requests Timeout)
  | ConnectionFailed => Raise (Requests ConnectionError)
  | Failed => Raise (Requests RequestException)
  end.

(** The same for a GET, which the adapter sends again on the statuses of
    its list until it gives up. *)
Definition fetched (w : Wire) : Result Response :=
  match w with
  | Delivered r =>
      if existsb (Z.eqb (status_code r)) status_forcelist
      then Raise (Requests RetryError)
      else transport w
  | _ => transport w
  end.

(** How a method that tests the response for 200 ends: with the exception
    of requests if there is one, with its own exception [refused r] for a
    response [r] of another status, and normally on 200. *)
Definition answer (w : Wire) (refused : Response -> Exn) : Result unit :=
  match transport w with
  | Raise e => Raise e
  | Return r => if status_code r =? 200 then Return tt else Raise (refused r)
  end.

(** [s'] is [s] after handing [reqs] to the session, with more log
    records, if any: the caches and the index are the same. *)
Definition sent_only (reqs : list Request) (s s' : State) : Prop :=
  wiserHubData s' = wiserHubData s
  /\ wiserNetworkData s' = wiserNetworkData s
  /\ wiserScheduleData s' = wiserScheduleData s
  /\ device2roomMap s' = device2roomMap s
  /\ sent s' = sent s ++ reqs
  /\ exists records, logged s' = logged s ++ records.

(** A hub that answers every request with [r]. *)
Definition replying (r : Response) : Hub := fun _ => Delivered r.

Definition patch (u : Fmt) (data : Json) : Request := mkRequest PATCH u (Some data).

Definition home_override : Json := JObj [("type", JInt 0); ("setPoint", JInt 0)].

Definition away_override (setPoint : Z) : Json :=
  JObj [("type", JInt 2); ("setPoint", JInt setPoint)].

(** The set points that the range check lets through, in hub units. *)
Definition valid_setpoint (z : Z) : Prop := z = -200 \/ 50 <= z <= 300.

(** What the smart plug setters raise on a response that is neither 200
    nor 404. *)
Definition plug_refused (r : Response) : Exn :=
  WiserRESTException
    (AMsg (mkFmt "Error setting smartplug mode, msg {} , error {}"
                 [FVal (JInt (status_code r)); FVal (JStr (text r))])).

(** The result is not the exception [WiserNotFound]. *)
Definition not_WiserNotFound {A} (r : Result A) : Prop :=
  match r with
  | Raise (WiserNotFound _) => False
  | _ => True
  end.

(** The device index answers for [k] without a request: [getDeviceRoom]
    returns an entry, whatever call depth is left. *)
Definition known_device (hub : Hub) (k : Json) (s : State) : Prop :=
  exists entry, forall depth,
    fst (getDeviceRoom hub depth k s) = Return entry
    /\ sent (snd (getDeviceRoom hub depth k s)) = sent s.

(** A home with a thermostat in one room and two valves in another. *)
Definition two_rooms : Json :=
  JObj [("Room",
         JArr [JObj [("id", JInt 1); ("Name", JStr "Hall"); ("RoomStatId", JInt 11)];
               JObj [("id", JInt 2); ("Name", JStr "Bath");
                     ("SmartValveIds", JArr [JInt 21; JInt 22])]])].

(** A key that is in the index, and that a dict can have. *)
Definition stored (k : Json) (s : State) : Prop :=
  hashable k = true /\ indexed k s.

(** What comes out of the two request wrappers for each answer of the
    adapter, and what they log; [lost] is the exception of requests for a
    connection that timed out or failed. *)
Definition timeout_message (lost : RequestsExn) : Fmt :=
  mkFmt "The error is {} The Exception is {}" [FExn lost; FType lost].

Definition wrapped (meth : Method) (w : Wire) : Result Response :=
  match w with
  | Delivered r =>
      if retried meth r then Raise (Requests RetryError)
      else if (400 <=? status_code r) && (status_code r <? 600)
      then Raise (UnboundLocalError "resp")
      else Return r
  | TimedOut => Raise (WiserHubTimeoutException (timeout_message Timeout))
  | ConnectionFailed => Raise (WiserHubTimeoutException (timeout_message ConnectionError))
  | Failed => Raise (Requests RequestException)
  end.

Definition wrapped_log (what : string) (w : Wire) : list (Level * Fmt) :=
  match w with
  | TimedOut | ConnectionFailed => [(DEBUG, plain what)]
  | _ => []
  end.

(** The Station of the network document, when the document is an object
    that has an object there. *)
Definition station (s : State) : option (list (string * Json)) :=
  match wiserNetworkData s with
  | JObj network =>
      match dict_get network "Station" with
      | JObj fields => Some fields
      | _ => None
      end
  | _ => None
  end.

(** A home whose controller is device 0. *)
Definition one_device : Json :=
  JObj [("Device", JArr [JObj [("id", JInt 0); ("ModelIdentifier", JStr "WT714R1S0902")]])].

(** What [for x in v] goes through, for a value that can be iterated. *)
Definition items_of (v : Json) : list Json :=
  match v with
  | JArr items => items
  | JObj fields => List.map (fun kv => JStr (fst kv)) fields
  | JStr s => chars s
  | _ => []
  end.

(** The keys under which [refreshData] stores a room: its RoomStatId, then
    its SmartValveIds. *)
Definition keys_of (room : list (string * Json)) : list Json :=
  (if is_None (dict_get room "RoomStatId") then [] else [dict_get room "RoomStatId"])
  ++ (if is_None (dict_get room "SmartValveIds") then []
      else items_of (dict_get room "SmartValveIds")).

(** The room stores an entry under a key equal to [k]. *)
Definition claims (room : list (string * Json)) (k : Json) : bool :=
  existsb (fun k' => py_eq k' k) (keys_of room).

(** The last room of the list that claims [k]. *)
Fixpoint owner (rooms : list (list (string * Json))) (k : Json)
  : option (list (string * Json)) :=
  match rooms with
  | [] => None
  | room :: rest =>
      match owner rest k with
      | Some later => Some later
      | None => if claims room k then Some room else None
      end
  end.

(** The entry that [refreshData] stores for a device of the room. *)
Definition entry_of (room : list (string * Json)) : Json :=
  JObj [("roomId", dict_get room "id"); ("roomName", dict_get room "Name")].

(** Two rooms that both list valve 21. *)
Definition shared_valve : Json :=
  JObj [("Room",
         JArr [JObj [("id", JInt 1); ("Name", JStr "Hall");
                     ("SmartValveIds", JArr [JInt 21])];
               JObj [("id", JInt 2); ("Name", JStr "Bath");
                     ("SmartValveIds", JArr [JInt 21; JInt 22])]])].


(** * Properties *)

(** ** Temperatures *)

Lemma Qlt_bool_iff (x y : Q) : Qlt_bool x y = true <-> (x < y)%Q.
Proof.
  unfold Qlt_bool. rewrite negb_true_iff.
  split.
  - intros H. apply Qnot_le_lt. intros L. apply Qle_bool_iff in L. congruence.
  - intros H. destruct (Qle_bool y x) eqn:E; [| reflexivity].
    apply Qle_bool_iff in E. lra.
Qed.

(** The range check on a number that is finite. *)
Lemma checkTempRange_finite (t : Number) (q : Q) :
  value t = Finite q -> (_checkTempRange t = true <-> off_or_in_range q).
Proof.
  intros V. unfold _checkTempRange, num_eq, num_lt, off_or_in_range.
  rewrite V. cbn [value TEMP_OFF TEMP_MINIMUM TEMP_MAXIMUM].
  change (inject_Z (-20)) with (-20)%Q. change (inject_Z 5) with 5%Q.
  change (inject_Z 30) with 30%Q.
  destruct (Qeq_bool q (-20)) eqn:E; cbn [negb andb].
  - apply Qeq_bool_iff in E. split; [intros _; left; exact E | reflexivity].
  - assert (N : ~ (q == -20)%Q) by (intros H; apply Qeq_bool_iff in H; congruence).
    destruct (Qlt_bool q 5) eqn:L; cbn [orb].
    + apply Qlt_bool_iff in L.
      split; [discriminate | intros [H | [H _]]; [contradiction | lra]].
    + assert (L' : (5 <= q)%Q).
      { apply Qnot_lt_le. intros H. apply Qlt_bool_iff in H. congruence. }
      destruct (Qlt_bool 30 q) eqn:U.
      * apply Qlt_bool_iff in U.
        split; [discriminate | intros [H | [_ H]]; [contradiction | lra]].
      * assert (U' : (q <= 30)%Q).
        { apply Qnot_lt_le. intros H. apply Qlt_bool_iff in H. congruence. }
        split; [intros _; right; split; assumption | reflexivity].
Qed.

Lemma checkTempRange_iff (t : Number) :
  _checkTempRange t = true <->
  match value t with
  | Finite q => off_or_in_range q
  | Infinity _ => False
  | NaN => True
  end.
Proof.
  destruct (value t) as [q | sg |] eqn:V.
  - apply checkTempRange_finite. exact V.
  - unfold _checkTempRange, num_eq, num_lt. rewrite V.
    cbn [value TEMP_OFF TEMP_MINIMUM TEMP_MAXIMUM].
    destruct sg; cbn; split; (discriminate || contradiction).
  - unfold _checkTempRange, num_eq, num_lt. rewrite V.
    cbn. split; reflexivity || intros; exact I.
Qed.








(** ** Request layer *)

Lemma request_delivered (hub : Hub) meth u body s r :
  hub (sent s ++ [mkRequest meth u body]) = Delivered r ->
  request hub meth u body s =
  (if retried meth r then Raise (Requests RetryError)
   else if (400 <=? status_code r) && (status_code r <? 600)
   then Raise (Requests (HTTPError r)) else Return r,
   mkState (wiserHubData s) (wiserNetworkData s) (wiserScheduleData s)
           (device2roomMap s) (sent s ++ [mkRequest meth u body]) (logged s)).
Proof.
  intros H. unfold request, bind, record_request, get_state. cbn.
  rewrite H. destruct (retried meth r); [reflexivity |].
  unfold raise_for_status, bind.
  destruct ((400 <=? status_code r) && (status_code r <? 600)); reflexivity.
Qed.

Lemma error_status (r : Response) :
  400 <= status_code r < 600 ->
  (400 <=? status_code r) && (status_code r <? 600) = true.
Proof.
  intros B. apply andb_true_intro. split; [apply Z.leb_le | apply Z.ltb_lt]; lia.
Qed.

(** Whenever the hook raises, the handler of [_makeGetRequest] reads a
    local that was never bound. *)
Lemma makeGetRequest_http_error (hub : Hub) u s r :
  hub (sent s ++ [mkRequest GET u None]) = Delivered r ->
  400 <= status_code r < 600 ->
  retried GET r = false ->
  fst (_makeGetRequest hub u s) = Raise (UnboundLocalError "resp").
Proof.
  intros H B N. unfold _makeGetRequest, _http_get.
  rewrite (request_delivered _ _ _ _ _ _ H), N, (error_status r B).
  reflexivity.
Qed.

Lemma makePatchRequest_http_error (hub : Hub) u data s r :
  hub (sent s ++ [mkRequest PATCH u (Some data)]) = Delivered r ->
  400 <= status_code r < 600 ->
  fst (_makePatchRequest hub u data s) = Raise (UnboundLocalError "resp").
Proof.
  intros H B. unfold _makePatchRequest, _http_patch.
  rewrite (request_delivered _ _ _ _ _ _ H), (error_status r B).
  reflexivity.
Qed.

(** A GET that the adapter gave up on does not reach the hook: the
    exception of requests is none that [_makeGetRequest] catches. *)
Lemma makeGetRequest_retry_error (hub : Hub) u s r :
  hub (sent s ++ [mkRequest GET u None]) = Delivered r ->
  retried GET r = true ->
  fst (_makeGetRequest hub u s) = Raise (Requests RetryError).
Proof.
  intros H Y. unfold _makeGetRequest, _http_get.
  rewrite (request_delivered _ _ _ _ _ _ H), Y. reflexivity.
Qed.

(** What the handlers would do with [resp] bound to the response of the
    error: the GET handler sorts 401, 404 and the rest; in the PATCH
    handler the test [== 404 or 405] is true whatever the status, so that
    nothing reaches its last branch. *)
Lemma get_handler_bound r s :
  fst (get_handler (Some r) (Requests (HTTPError r)) s) =
  Raise (if status_code r =? 401 then
           WiserHubAuthenticationException
             (plain "Authentication error. Check secret key.")
         else if status_code r =? 404 then
           WiserHubRequestException (plain "Invalid request. Check URL endpoint.")
         else WiserRESTException (ACause (HTTPError r))).
Proof.
  unfold get_handler, bind, load_local, ret, raise. cbn.
  destruct (status_code r =? 401); [reflexivity |].
  destruct (status_code r =? 404); reflexivity.
Qed.

Lemma patch_handler_bound r s :
  fst (patch_handler (Some r) (Requests (HTTPError r)) s) =
  Raise (if status_code r =? 401 then
           WiserHubAuthenticationException
             (plain "Authentication error. Check secret key.")
         else
           WiserHubRequestException
             (plain "Invalid request. Check URL endpoint and patch data.")).
Proof.
  unfold patch_handler, bind, load_local, ret, raise, or_int. cbn.
  destruct (status_code r =? 401); [reflexivity |].
  rewrite orb_true_r. reflexivity.
Qed.

(** The part of the classification that does work: no answer at all. *)
Lemma makeGetRequest_timeout (hub : Hub) u s :
  hub (sent s ++ [mkRequest GET u None]) = TimedOut
  \/ hub (sent s ++ [mkRequest GET u None]) = ConnectionFailed ->
  exists m, fst (_makeGetRequest hub u s) = Raise (WiserHubTimeoutException m).
Proof.
  intros [H | H]; unfold _makeGetRequest, get_handler, _http_get, request, bind,
    record_request, get_state; cbn; rewrite H; cbn; eexists; reflexivity.
Qed.

(** C1.  A GET answered 401 does not raise the authentication error, and a
    PATCH answered 404 or 405 does not raise the request error, nor does a
    GET answered 403 or a PATCH answered 500 raise the REST error: in each
    case the hook raises inside the call that should bind [resp], and the
    handler fails on the unbound local.  A GET that is still answered 500
    when the adapter gives up does not raise the REST error either:
    requests raises [RetryError], which no clause catches.  Only the
    time-out is translated as described. *)
Theorem request_layer_http_errors_unbound :
  fst (_makeGetRequest (answering 401) (plain "domain/") init)
    = Raise (UnboundLocalError "resp")
  /\ fst (_makePatchRequest (answering 404) (plain "System") JNull init)
    = Raise (UnboundLocalError "resp")
  /\ fst (_makePatchRequest (answering 405) (plain "System") JNull init)
    = Raise (UnboundLocalError "resp")
  /\ fst (_makeGetRequest (answering 403) (plain "domain/") init)
    = Raise (UnboundLocalError "resp")
  /\ fst (_makePatchRequest (answering 500) (plain "System") JNull init)
    = Raise (UnboundLocalError "resp")
  /\ fst (_makeGetRequest (answering 500) (plain "domain/") init)
    = Raise (Requests RetryError)
  /\ fst (_makeGetRequest unreachable (plain "domain/") init)
    = Raise (WiserHubTimeoutException
               (mkFmt "The error is {} The Exception is {}" [FExn Timeout; FType Timeout])).
Proof. repeat split; reflexivity. Qed.

(** ** What a run can do to the requests and to the log *)


Lemma extends_refl P s : extends P s s.
Proof.
  split; [exists [] | exists []]; rewrite app_nil_r; auto.
Qed.

Lemma extends_same P s s' :
  sent s' = sent s -> logged s' = logged s -> extends P s s'.
Proof.
  intros E L. split; [exists [] | exists []]; rewrite app_nil_r; auto.
Qed.

Lemma extends_trans P s1 s2 s3 :
  extends P s1 s2 -> extends P s2 s3 -> extends P s1 s3.
Proof.
  intros [[n1 [E1 F1]] [r1 L1]] [[n2 [E2 F2]] [r2 L2]]. split.
  - exists (n1 ++ n2). rewrite E2, E1, app_assoc. split; [reflexivity |].
    apply Forall_app. split; assumption.
  - exists (r1 ++ r2). rewrite L2, L1, app_assoc. reflexivity.
Qed.

Lemma extends_weaken (P P' : Request -> Prop) s s' :
  (forall r, P r -> P' r) -> extends P s s' -> extends P' s s'.
Proof.
  intros W [[n [E F]] L]. split; [| exact L].
  exists n. split; [exact E |]. eapply Forall_impl; eauto.
Qed.

Lemma issued_app s s' new : sent s' = sent s ++ new -> issued s s' = new.
Proof.
  intros E. unfold issued. rewrite E.
  rewrite skipn_app, skipn_all, Nat.sub_diag. reflexivity.
Qed.

Lemma recorded_app s s' records :
  logged s' = logged s ++ records -> recorded s s' = records.
Proof.
  intros E. unfold recorded. rewrite E.
  rewrite skipn_app, skipn_all, Nat.sub_diag. reflexivity.
Qed.

Lemma bind_return {A B} (m : M A) (f : A -> M B) s a s' :
  m s = (Return a, s') -> bind m f s = f a s'.
Proof. intros E. unfold bind. rewrite E. reflexivity. Qed.

Lemma bind_raise {A B} (m : M A) (f : A -> M B) s e s' :
  m s = (Raise e, s') -> bind m f s = (Raise e, s').
Proof. intros E. unfold bind. rewrite E. reflexivity. Qed.

Section Rules.

Context {I : State -> Prop} {P : Request -> Prop} {F : Frame I P}.

Lemma holds_ret {A} (a : A) s : holds I P (ret a) s.
Proof. intros C. split; [exact C | apply extends_refl]. Qed.

Lemma holds_raise {A} e s : holds I P (@raise A e) s.
Proof. intros C. split; [exact C | apply extends_refl]. Qed.

Lemma holds_bind {A B} (m : M A) (f : A -> M B) s :
  holds I P m s -> (forall a s', holds I P (f a) s') -> holds I P (bind m f) s.
Proof.
  intros Hm Hf C. destruct (Hm C) as [C1 E1].
  unfold bind. destruct (m s) as [[a | e] s1] eqn:R; cbn [snd] in *.
  - destruct (Hf a s1 C1) as [C2 E2]. split; [exact C2 |].
    eapply extends_trans; eauto.
  - split; assumption.
Qed.

Lemma holds_get_state {B} (f : State -> M B) s :
  holds I P (f s) s -> holds I P (bind get_state f) s.
Proof. intros H. exact H. Qed.

Lemma holds_log lvl m s : holds I P (_LOGGER lvl m) s.
Proof.
  intros C. split.
  - pose proof (frame_io s [] [(lvl, m)] C) as K.
    rewrite app_nil_r in K. exact K.
  - split; cbn.
    + exists []. rewrite app_nil_r. auto.
    + eexists. reflexivity.
Qed.

Lemma holds_set_wiserHubData v s : holds I P (set_wiserHubData v) s.
Proof.
  intros C. split; [apply frame_hub; exact C | apply extends_same; reflexivity].
Qed.

Lemma holds_py_get v k s : holds I P (py_get v k) s.
Proof. destruct v; first [apply holds_ret | apply holds_raise]. Qed.

Lemma holds_py_iter v s : holds I P (py_iter v) s.
Proof. destruct v; first [apply holds_ret | apply holds_raise]. Qed.

Lemma holds_py_getitem v k s : holds I P (py_getitem v k) s.
Proof.
  destruct v; try apply holds_raise. cbn.
  destruct (assoc k fields); [apply holds_ret | apply holds_raise].
Qed.

Lemma holds_py_setitem v k x s : holds I P (py_setitem v k x) s.
Proof. destruct v; first [apply holds_ret | apply holds_raise]. Qed.

Lemma holds_to_number v s : holds I P (to_number v) s.
Proof.
  unfold to_number.
  destruct v as [| [|] | | | | |]; first [apply holds_ret | apply holds_raise].
Qed.

Lemma holds_lift {A} (r : Result A) s : holds I P (lift r) s.
Proof. intros C. split; [exact C | apply extends_refl]. Qed.

Lemma holds_resp_json r s : holds I P (resp_json r) s.
Proof.
  unfold resp_json. destruct (json r); [apply holds_ret | apply holds_raise].
Qed.

Lemma holds_for_each {A} (l : list A) (body : A -> M unit) :
  (forall x s, holds I P (body x) s) -> forall s, holds I P (for_each l body) s.
Proof.
  intros Hb. induction l as [| x l IH]; intros s; cbn [for_each].
  - apply holds_ret.
  - apply holds_bind; [apply Hb | intros _ s'; apply IH].
Qed.

Lemma holds_map_store k v s : holds I P (map_store k v) s.
Proof.
  unfold map_store. destruct (hashable k); [| apply holds_raise].
  apply holds_get_state. intros C.
  split; [apply frame_map; exact C | apply extends_same; reflexivity].
Qed.

End Rules.

Create HintDb frames.

#[export] Hint Resolve holds_log holds_set_wiserHubData holds_map_store
  holds_py_get holds_py_iter holds_py_getitem holds_py_setitem holds_to_number
  holds_lift holds_resp_json : frames.

(** One step of a proof that a computation [holds]: the monad's own
    operations by their rules, the methods of the facade by the lemmas
    collected in [frames]. *)
Ltac frame_step :=
  lazymatch goal with
  | |- holds _ _ (bind get_state _) _ => apply holds_get_state
  | |- holds _ _ (bind _ _) _ => apply holds_bind; [| intros ? ?]
  | |- holds _ _ (ret _) _ => apply holds_ret
  | |- holds _ _ (raise _) _ => apply holds_raise
  | |- holds _ _ (if ?b then _ else _) _ => destruct b eqn:?
  | |- holds _ _ (match ?x with _ => _ end) _ => destruct x eqn:?
  end.

Ltac frame := repeat first [frame_step | solve [auto with frames]].

(** A GET leaves the caches alone and adds one request. *)
Lemma makeGetRequest_state hub u s :
  exists records,
    snd (_makeGetRequest hub u s) =
    mkState (wiserHubData s) (wiserNetworkData s) (wiserScheduleData s)
            (device2roomMap s) (sent s ++ [mkRequest GET u None])
            (logged s ++ records).
Proof.
  unfold _makeGetRequest, get_handler, _http_get, request, bind, record_request,
    get_state.
  cbn [sent snd fst].
  destruct (hub (sent s ++ [mkRequest GET u None])) as [r | | |]; cbn [fst snd].
  - destruct (retried GET r); [exists []; rewrite app_nil_r; reflexivity |].
    unfold raise_for_status.
    destruct ((400 <=? status_code r) && (status_code r <? 600)); cbn;
      exists []; rewrite app_nil_r; reflexivity.
  - eexists; reflexivity.
  - eexists; reflexivity.
  - exists []; rewrite app_nil_r; reflexivity.
Qed.

Section Frames.

Variable hub : Hub.
Context {I : State -> Prop} {P : Request -> Prop} {F : Frame I P}.

Lemma holds_makeGetRequest u s :
  P (mkRequest GET u None) -> holds I P (_makeGetRequest hub u) s.
Proof.
  intros Hu C. destruct (makeGetRequest_state hub u s) as [records E].
  rewrite E. split; [apply frame_io; exact C |]. split; cbn.
  - eexists. split; [reflexivity |]. constructor; [exact Hu | constructor].
  - eexists. reflexivity.
Qed.

Lemma holds_updateHubData s : holds I P (updateHubData hub) s.
Proof.
  unfold updateHubData. frame.
  apply holds_makeGetRequest. apply frame_domain.
Qed.

Lemma holds_updateScheduleData s :
  is_None (wiserScheduleData s) = true -> holds I P (updateScheduleData hub) s.
Proof.
  intros N C. unfold updateScheduleData.
  destruct (makeGetRequest_state hub (plain "schedules/") s) as [records E].
  destruct (frame_schedule s JNull C N) as [_ Pr].
  assert (X : extends P s (snd (_makeGetRequest hub (plain "schedules/") s))).
  { rewrite E. split; cbn.
    - eexists. split; [reflexivity |]. constructor; [exact Pr | constructor].
    - eexists. reflexivity. }
  unfold bind.
  destruct (_makeGetRequest hub (plain "schedules/") s) as [[resp | e] t];
    cbn [snd] in *; subst t.
  - unfold resp_json. destruct (json resp) as [v |]; cbn [snd ret raise].
    + split.
      * refine (proj1 (frame_schedule _ v (frame_io s _ _ C) N)).
      * eapply extends_trans; [exact X | apply extends_same; reflexivity].
    + split; [apply frame_io; exact C | exact X].
  - split; [apply frame_io; exact C | exact X].
Qed.

Lemma holds_updateNetworkData s :
  is_None (wiserNetworkData s) = true -> holds I P (updateNetworkData hub) s.
Proof.
  intros N C. unfold updateNetworkData.
  destruct (makeGetRequest_state hub (plain "network/") s) as [records E].
  destruct (frame_network s JNull C N) as [_ Pr].
  assert (X : extends P s (snd (_makeGetRequest hub (plain "network/") s))).
  { rewrite E. split; cbn.
    - eexists. split; [reflexivity |]. constructor; [exact Pr | constructor].
    - eexists. reflexivity. }
  unfold bind.
  destruct (_makeGetRequest hub (plain "network/") s) as [[resp | e] t];
    cbn [snd] in *; subst t.
  - unfold resp_json. destruct (json resp) as [v |]; cbn [snd ret raise].
    + split.
      * refine (proj1 (frame_network _ v (frame_io s _ _ C) N)).
      * eapply extends_trans; [exact X | apply extends_same; reflexivity].
    + split; [apply frame_io; exact C | exact X].
  - split; [apply frame_io; exact C | exact X].
Qed.

Lemma holds_room_entry room s : holds I P (room_entry room) s.
Proof. unfold room_entry. frame. Qed.

Lemma holds_index_room room s : holds I P (index_room room) s.
Proof.
  unfold index_room. frame; try apply holds_room_entry.
  all: apply holds_for_each; intros; frame; try apply holds_room_entry.
Qed.

Lemma holds_checkHubData_ (refresh : M Json) :
  (forall s, holds I P refresh s) -> forall s, holds I P (checkHubData_ refresh) s.
Proof. intros Hr s. unfold checkHubData_. frame. Qed.

Lemma holds_getRooms_ (refresh : M Json) :
  (forall s, holds I P refresh s) -> forall s, holds I P (getRooms_ refresh) s.
Proof.
  intros Hr s. unfold getRooms_. frame. apply holds_checkHubData_, Hr.
Qed.

Lemma holds_refreshData depth : forall s, holds I P (refreshData hub depth) s.
Proof.
  induction depth as [| depth IH]; intros s; cbn [refreshData].
  - apply holds_raise.
  - frame;
      try (apply holds_getRooms_, IH);
      try apply holds_updateHubData;
      try (apply holds_updateScheduleData; assumption);
      try (apply holds_updateNetworkData; assumption).
    apply holds_for_each. intros. apply holds_index_room.
Qed.

Lemma holds_checkHubData depth s : holds I P (checkHubData hub depth) s.
Proof. apply holds_checkHubData_, holds_refreshData. Qed.

Lemma holds_relay_loop channels : forall status s,
  holds I P (relay_loop channels status) s.
Proof.
  induction channels as [| ch rest IH]; intros status s; cbn [relay_loop].
  - apply holds_ret.
  - frame.
Qed.

Lemma holds_first_with key wanted items : forall s,
  holds I P (first_with key wanted items) s.
Proof.
  induction items as [| x rest IH]; intros s; cbn [first_with]; frame.
Qed.

Lemma holds_getRoom depth roomId s : holds I P (getRoom hub depth roomId) s.
Proof. unfold getRoom. frame; try apply holds_checkHubData.
  apply holds_first_with. Qed.

Lemma holds_getHeatingChannels depth s : holds I P (getHeatingChannels hub depth) s.
Proof. unfold getHeatingChannels. frame. apply holds_checkHubData. Qed.

Lemma holds_mode_patchData depth roomId mode bt btt s :
  holds I P (mode_patchData hub depth roomId mode bt btt) s.
Proof. unfold mode_patchData. frame. apply holds_getRoom. Qed.

End Frames.

#[export] Hint Resolve holds_updateHubData holds_room_entry
  holds_index_room holds_for_each holds_checkHubData_ holds_getRooms_
  holds_refreshData holds_checkHubData holds_updateScheduleData
  holds_updateNetworkData holds_relay_loop holds_first_with holds_getRoom
  holds_getHeatingChannels holds_mode_patchData : frames.

(** The instances: the tracked caches with the requests they rule out,
    and the entries of the device index. *)
#[export] Instance frame_cached ks kn : Frame (cached ks kn) (allowed ks kn).
Proof.
  split.
  - intros s new records C. exact C.
  - intros s v C. exact C.
  - intros s k v C. exact C.
  - intros s v [C1 C2] N. split.
    + split; [| exact C2]. intros K. rewrite (C1 K) in N. discriminate.
    + repeat split; try discriminate.
      intros K. rewrite (C1 K) in N. discriminate.
  - intros s v [C1 C2] N. split.
    + split; [exact C1 |]. intros K. rewrite (C2 K) in N. discriminate.
    + repeat split; try discriminate.
      intros K. rewrite (C2 K) in N. discriminate.
  - repeat split; discriminate.
Qed.

Lemma find_store k k' v d :
  (exists x, find k d = Some x) -> exists x, find k (store k' v d) = Some x.
Proof.
  induction d as [| [k0 v0] rest IH]; cbn; intros [x H]; [discriminate |].
  destruct (py_eq k0 k') eqn:E'; cbn.
  - destruct (py_eq k0 k); eauto.
  - destruct (py_eq k0 k); eauto.
Qed.

#[export] Instance frame_indexed k : Frame (indexed k) anything.
Proof.
  split; try (intros; assumption); try exact Logic.I.
  - intros s k' v C. apply find_store. exact C.
  - intros s v C _. split; [exact C | exact Logic.I].
  - intros s v C _. split; [exact C | exact Logic.I].
Qed.

#[export] Hint Resolve frame_cached frame_indexed : frames.

(** Reading without tracking anything: only GETs go out. *)
Abbreviation reading := (holds (cached false false) (allowed false false)).

Lemma reading_set_wiserScheduleData v s : reading (set_wiserScheduleData v) s.
Proof.
  intros _. split; [split; discriminate | apply extends_same; reflexivity].
Qed.

Lemma reading_set_wiserNetworkData v s : reading (set_wiserNetworkData v) s.
Proof.
  intros _. split; [split; discriminate | apply extends_same; reflexivity].
Qed.

#[export] Hint Resolve reading_set_wiserScheduleData reading_set_wiserNetworkData
  : frames.

Lemma is_None_true v : is_None v = true <-> v = JNull.
Proof. destruct v; cbn; split; intros; congruence. Qed.

Lemma allowed_get r : allowed false false r <-> is_get r.
Proof.
  unfold allowed, is_get. split; [intros [H _]; exact H |].
  intros H. repeat split; [exact H | discriminate | discriminate].
Qed.

(** A run that [holds] without tracking anything issued GETs only. *)
Lemma run_extends {A} (m : M A) s r s' :
  reading m s -> m s = (r, s') -> extends is_get s s'.
Proof.
  intros H R. destruct H as [_ E].
  - split; discriminate.
  - rewrite R in E. cbn [snd] in E.
    eapply extends_weaken; [| exact E]. intros q. apply allowed_get.
Qed.

Lemma in_issued P s s' r :
  extends P s s' -> In r (issued s s') -> P r.
Proof.
  intros [[new [E F]] _] H. rewrite (issued_app _ _ _ E) in H.
  rewrite Forall_forall in F. auto.
Qed.

Lemma bind_inv {A B} (m : M A) (f : A -> M B) s b s' :
  bind m f s = (Return b, s') ->
  exists a s1, m s = (Return a, s1) /\ f a s1 = (Return b, s').
Proof.
  unfold bind. destruct (m s) as [[a | e] s1]; intros H; [eauto | discriminate].
Qed.

Lemma bind_get_state {B} (f : State -> M B) s : bind get_state f s = f s s.
Proof. reflexivity. Qed.

Lemma bind_ret {A B} (a : A) (f : A -> M B) s : bind (ret a) f s = f a s.
Proof. reflexivity. Qed.

Lemma bind_log {B} lvl m (f : unit -> M B) s :
  bind (_LOGGER lvl m) f s = f tt (snd (_LOGGER lvl m s)).
Proof. reflexivity. Qed.

Lemma bind_lift {A B} (a : A) (f : A -> M B) s :
  bind (lift (Return a)) f s = f a s.
Proof. reflexivity. Qed.

Lemma bind_set_wiserHubData {B} v (f : unit -> M B) s :
  bind (set_wiserHubData v) f s = f tt (snd (set_wiserHubData v s)).
Proof. reflexivity. Qed.

(** Walking through a run that returned: [step H] splits the first bind of
    [H : (m ;; k) s = (Return b, s')]; what the monad's own operations did
    is computed, for anything else the requests and the log are known to
    extend. *)
Ltac note_extends R :=
  lazymatch type of R with
  | ?m ?s = (_, ?s') =>
      let E := fresh "E" in
      assert (E : extends is_get s s')
        by (eapply run_extends; [| exact R]; frame)
  end.

Ltac step H :=
  first
    [ rewrite bind_get_state in H
    | rewrite bind_ret in H
    | rewrite bind_log in H
    | rewrite bind_set_wiserHubData in H
    | let a := fresh "a" in
      let s1 := fresh "s" in
      let R := fresh "R" in
      apply bind_inv in H; destruct H as (a & s1 & R & H); note_extends R ].

Lemma bind_assoc {A B C} (m : M A) (f : A -> M B) (g : B -> M C) s :
  bind (bind m f) g s = bind m (fun a => bind (f a) g) s.
Proof. unfold bind. destruct (m s) as [[a | e] s1]; reflexivity. Qed.

(** Running the monad's own operations at the head of the goal. *)
Ltac forward :=
  repeat (cbv beta;
          first [ rewrite bind_assoc | rewrite bind_get_state
                | rewrite bind_ret | rewrite bind_log | rewrite bind_lift ]).

(** What follows a run extends it. *)
Lemma bind_extends {A B} (m : M A) (f : A -> M B) s :
  (forall a s1, reading (f a) s1) ->
  extends is_get (snd (m s)) (snd (bind m f s)).
Proof.
  intros Hf. unfold bind. destruct (m s) as [[a | e] s1]; cbn [snd].
  - eapply run_extends; [apply Hf | apply surjective_pairing].
  - apply extends_refl.
Qed.

Lemma issued_cons s s1 s' first rest :
  issued s s1 = first :: rest -> extends is_get s s1 -> extends is_get s1 s' ->
  exists rest', issued s s' = first :: rest'.
Proof.
  intros H [[n1 [E1 _]] _] [[n2 [E2 _]] _].
  rewrite (issued_app _ _ _ E1) in H. subst n1.
  exists (rest ++ n2). apply issued_app. rewrite E2, E1.
  rewrite <- app_assoc. reflexivity.
Qed.

Lemma recorded_cons s s1 s' first rest :
  recorded s s1 = first :: rest -> extends is_get s s1 -> extends is_get s1 s' ->
  exists rest', recorded s s' = first :: rest'.
Proof.
  intros H [_ [r1 E1]] [_ [r2 E2]].
  rewrite (recorded_app _ _ _ E1) in H. subst r1.
  exists (rest ++ r2). apply recorded_app. rewrite E2, E1.
  rewrite <- app_assoc. reflexivity.
Qed.


(** ** Refresh *)

Lemma extends_log P lvl m s : extends P s (snd (_LOGGER lvl m s)).
Proof.
  split; cbn.
  - exists []. rewrite app_nil_r. auto.
  - eexists. reflexivity.
Qed.


Lemma assoc_dict_set k v fields : assoc k (dict_set k v fields) = Some v.
Proof.
  induction fields as [| [k' v'] rest IH]; cbn.
  - rewrite String.eqb_refl. reflexivity.
  - destruct (String.eqb k' k) eqn:E; cbn; rewrite E; auto.
Qed.

Lemma py_getitem_inv v k s x s' :
  py_getitem v k s = (Return x, s') ->
  exists fields, v = JObj fields /\ assoc k fields = Some x /\ s' = s.
Proof.
  destruct v; cbn; try discriminate.
  destruct (assoc k fields) eqn:E; cbn; [| discriminate].
  intros H. injection H as <- <-. eauto.
Qed.

Lemma py_setitem_inv v k x s y s' :
  py_setitem v k x s = (Return y, s') ->
  exists fields, v = JObj fields /\ y = JObj (dict_set k x fields) /\ s' = s.
Proof.
  destruct v; cbn; try discriminate.
  intros H. injection H as <- <-. eauto.
Qed.

(** The first request of a run that starts with a GET. *)
Lemma first_request {B} hub u (k : Response -> M B) s :
  (forall a s1, reading (k a) s1) ->
  exists rest,
    issued s (snd (bind (_makeGetRequest hub u) k s)) = mkRequest GET u None :: rest.
Proof.
  intros Hk. destruct (makeGetRequest_state hub u s) as [records E].
  unfold bind. destruct (_makeGetRequest hub u s) as [[a | e] s1]; cbn [snd] in *.
  - destruct (Hk a s1) as [_ [[new [En _]] _]]; [split; discriminate |].
    exists new. apply issued_app. rewrite En, E. cbn [sent].
    rewrite <- app_assoc. reflexivity.
  - exists []. apply issued_app. rewrite E. reflexivity.
Qed.

Lemma updateHubData_sent hub s r s' :
  updateHubData hub s = (r, s') -> sent s' = sent s ++ [get_request "domain/"].
Proof.
  unfold updateHubData, bind.
  destruct (makeGetRequest_state hub (plain "domain/") s) as [records E].
  destruct (_makeGetRequest hub (plain "domain/") s) as [[resp | e] t];
    cbn [snd] in E; subst t.
  - unfold resp_json. destruct (json resp); cbn; intros H;
      injection H as _ <-; reflexivity.
  - intros H. injection H as _ <-. reflexivity.
Qed.

Lemma refreshData_returned hub d s data s' :
  refreshData hub (S d) s = (Return data, s') ->
  In (get_request "domain/") (issued s s')
  /\ exists fields schedules heating,
       wiserHubData s' = JObj fields /\ data = JObj fields
       /\ wiserScheduleData s' = JObj schedules
       /\ assoc "Heating" schedules = Some heating
       /\ assoc "Schedule" fields = Some heating.
Proof.
  intros H. cbn [refreshData] in H.
  do 12 step H.
  apply py_getitem_inv in R4. destruct R4 as (schedules & Hs & Hh & ->).
  step H.
  apply py_setitem_inv in R4. destruct R4 as (fields & Hf & -> & ->).
  step H. cbv [ret] in H. injection H as <- <-.
  split.
  - pose proof (updateHubData_sent _ _ _ _ R1) as S12.
    assert (Pre : extends is_get s s1).
    { eapply extends_trans; [apply extends_log |].
      eapply extends_trans; [exact E | exact E0]. }
    assert (Post : extends is_get s2 s4).
    { eapply extends_trans; [apply extends_log |].
      eapply extends_trans; [exact E2 | exact E3]. }
    destruct Pre as [[n1 [P1 _]] _]. destruct Post as [[n2 [P2 _]] _].
    rewrite (issued_app s _ (n1 ++ get_request "domain/" :: n2)).
    + apply in_or_app. right. left. reflexivity.
    + cbn [snd set_wiserHubData sent]. rewrite P2, S12, P1.
      rewrite <- !app_assoc. reflexivity.
  - eexists _, schedules, _.
    cbn [snd set_wiserHubData wiserHubData wiserScheduleData].
    repeat split; try eassumption. apply assoc_dict_set.
Qed.

Lemma refreshData_first_schedule hub d s :
  wiserScheduleData s = JNull ->
  exists rest,
    issued s (snd (refreshData hub (S d) s)) = get_request "schedules/" :: rest.
Proof.
  intros N. cbn [refreshData].
  rewrite bind_log, bind_get_state.
  cbn [snd _LOGGER wiserScheduleData]. rewrite N. cbn [is_None].
  rewrite bind_assoc. unfold updateScheduleData at 1. rewrite !bind_assoc.
  match goal with
  | |- context [bind (_makeGetRequest hub ?u) ?k ?st] =>
      assert (Hk : forall a s1, reading (k a) s1) by (intros; frame);
      destruct (first_request hub u k st Hk) as [rest E]
  end.
  exists rest. exact E.
Qed.

Lemma refreshData_first_network hub d s :
  wiserScheduleData s <> JNull -> wiserNetworkData s = JNull ->
  exists rest,
    issued s (snd (refreshData hub (S d) s)) = get_request "network/" :: rest.
Proof.
  intros S0 N. cbn [refreshData].
  rewrite bind_log, bind_get_state.
  cbn [snd _LOGGER wiserScheduleData].
  destruct (is_None (wiserScheduleData s)) eqn:Z;
    [apply is_None_true in Z; contradiction |].
  rewrite bind_ret, bind_get_state.
  cbn [wiserNetworkData]. rewrite N. cbn [is_None].
  rewrite bind_assoc. unfold updateNetworkData at 1. rewrite !bind_assoc.
  match goal with
  | |- context [bind (_makeGetRequest hub ?u) ?k ?st] =>
      assert (Hk : forall a s1, reading (k a) s1) by (intros; frame);
      destruct (first_request hub u k st Hk) as [rest E]
  end.
  exists rest. exact E.
Qed.

Lemma refreshData_first_domain hub d s :
  wiserScheduleData s <> JNull -> wiserNetworkData s <> JNull ->
  exists rest,
    issued s (snd (refreshData hub (S d) s)) = get_request "domain/" :: rest.
Proof.
  intros S0 N0. cbn [refreshData].
  rewrite bind_log, bind_get_state.
  cbn [snd _LOGGER wiserScheduleData].
  destruct (is_None (wiserScheduleData s)) eqn:Z;
    [apply is_None_true in Z; contradiction |].
  rewrite bind_ret, bind_get_state.
  cbn [wiserNetworkData].
  destruct (is_None (wiserNetworkData s)) eqn:Z';
    [apply is_None_true in Z'; contradiction |].
  rewrite bind_ret.
  unfold updateHubData at 1. rewrite !bind_assoc.
  match goal with
  | |- context [bind (_makeGetRequest hub ?u) ?k ?st] =>
      assert (Hk : forall a s1, reading (k a) s1) by (intros; frame);
      destruct (first_request hub u k st Hk) as [rest E]
  end.
  exists rest. exact E.
Qed.








Lemma py_get_inv v k x s s' :
  py_get v k s = (Return x, s') ->
  s' = s /\ exists fields, v = JObj fields /\ x = dict_get fields k.
Proof.
  destruct v; cbn; intros H; try discriminate.
  injection H as <- <-. eauto.
Qed.

Lemma py_iter_inv v items s s' :
  py_iter v s = (Return items, s') ->
  s' = s
  /\ (v = JArr items
      \/ (exists fields, v = JObj fields
                         /\ items = List.map (fun kv => JStr (fst kv)) fields)
      \/ exists str, v = JStr str /\ items = chars str).
Proof.
  destruct v; cbn; intros H; try discriminate; injection H as <- <-; eauto 6.
Qed.

Lemma dict_get_dict_set_other k k' v fields :
  String.eqb k' k = false -> dict_get (dict_set k' v fields) k = dict_get fields k.
Proof.
  intros N. unfold dict_get.
  induction fields as [| [k0 v0] rest IH]; cbn.
  - rewrite N. reflexivity.
  - destruct (String.eqb k0 k') eqn:E; cbn.
    + apply String.eqb_eq in E. subst k0. rewrite N. reflexivity.
    + destruct (String.eqb k0 k); [reflexivity | exact IH].
Qed.


Lemma getRooms_returned refresh s rooms s' :
  getRooms_ refresh s = (Return rooms, s') ->
  exists fields, wiserHubData s' = JObj fields /\ rooms = dict_get fields "Room".
Proof.
  unfold getRooms_. intros H.
  apply bind_inv in H. destruct H as ([] & s1 & _ & H).
  rewrite bind_get_state in H. apply py_get_inv in H.
  destruct H as (-> & fields & D & ->). eauto.
Qed.

Lemma getRooms_populated refresh s fields :
  wiserHubData s = JObj fields ->
  getRooms_ refresh s = (Return (dict_get fields "Room"), s).
Proof.
  intros H. unfold getRooms_, checkHubData_, bind, get_state, ret, py_get.
  rewrite H. cbn [is_None]. rewrite H. cbn [is_None]. rewrite H. reflexivity.
Qed.

(** The guard in front of [getRooms] either finds the cache populated and
    does nothing, or finds it empty and runs the refresh it is given. *)
Lemma getRooms_guarded refresh s rooms s' :
  getRooms_ refresh s = (Return rooms, s') ->
  (wiserHubData s <> JNull /\ s' = s)
  \/ (wiserHubData s = JNull /\ exists data, refresh s = (Return data, s')).
Proof.
  unfold getRooms_, checkHubData_. intros H.
  apply bind_inv in H. destruct H as ([] & s1 & G & H).
  rewrite bind_get_state in H. apply py_get_inv in H. destruct H as [-> _].
  rewrite bind_get_state in G.
  apply bind_inv in G. destruct G as ([] & s2 & G & T).
  rewrite bind_get_state in T.
  destruct (is_None (wiserHubData s2)); [discriminate |].
  injection T as <-.
  destruct (is_None (wiserHubData s)) eqn:N.
  - right. split; [apply is_None_true; exact N |].
    apply bind_inv in G. destruct G as (data & s3 & R & G).
    injection G as <-. eauto.
  - left. split; [intros E; rewrite E in N; discriminate |].
    injection G as <-. reflexivity.
Qed.

(** What the loop over the rooms leaves alone: whatever depends neither
    on the index nor on the log. *)
Section Kept.

Context {X : Type} (part : State -> X).
Hypothesis part_map : forall d s, part (snd (set_device2roomMap d s)) = part s.
Hypothesis part_log : forall lvl m s, part (snd (_LOGGER lvl m s)) = part s.

Lemma bind_keeps {A B} (m : M A) (f : A -> M B) s :
  part (snd (m s)) = part s ->
  (forall a s1, part (snd (f a s1)) = part s1) ->
  part (snd (bind m f s)) = part s.
Proof.
  intros Hm Hf. unfold bind. destruct (m s) as [[a | e] s1]; cbn [snd] in *.
  - rewrite Hf. exact Hm.
  - exact Hm.
Qed.

Lemma py_get_keeps v k s : part (snd (py_get v k s)) = part s.
Proof. destruct v; reflexivity. Qed.

Lemma room_entry_keeps room s : part (snd (room_entry room s)) = part s.
Proof.
  unfold room_entry.
  apply bind_keeps; [apply py_get_keeps | intros rid s1].
  apply bind_keeps; [apply py_get_keeps | reflexivity].
Qed.

Lemma map_store_keeps k v s : part (snd (map_store k v s)) = part s.
Proof.
  unfold map_store. destruct (hashable k); [| reflexivity].
  rewrite bind_get_state. apply part_map.
Qed.

Lemma for_each_keeps {A} (l : list A) (body : A -> M unit) :
  (forall x s, part (snd (body x s)) = part s) ->
  forall s, part (snd (for_each l body s)) = part s.
Proof.
  intros Hb. induction l as [| x rest IH]; intros s; cbn [for_each]; [reflexivity |].
  apply bind_keeps; [apply Hb | intros _ s1; apply IH].
Qed.

Lemma index_room_keeps room s : part (snd (index_room room s)) = part s.
Proof.
  assert (Store : forall k t,
            part (snd (bind (room_entry room) (fun entry => map_store k entry) t))
            = part t).
  { intros k t. apply bind_keeps; [apply room_entry_keeps |].
    intros entry s1. apply map_store_keeps. }
  unfold index_room.
  apply bind_keeps; [apply py_get_keeps | intros stat s1].
  apply bind_keeps.
  { destruct (negb (is_None stat)); [apply Store | reflexivity]. }
  intros _ s2.
  apply bind_keeps; [apply py_get_keeps | intros valves s3].
  apply bind_keeps.
  { destruct (negb (is_None valves)); [| reflexivity].
    apply bind_keeps; [destruct valves; reflexivity | intros items s4].
    apply for_each_keeps. intros v t. apply Store. }
  intros _ s4.
  destruct (is_None stat && is_None valves); [| reflexivity].
  apply bind_keeps; [apply py_get_keeps | intros rname s5; apply part_log].
Qed.

End Kept.

Lemma rooms_loop_keeps items s sF :
  for_each items index_room s = (Return tt, sF) ->
  wiserHubData sF = wiserHubData s
  /\ wiserScheduleData sF = wiserScheduleData s
  /\ sent sF = sent s.
Proof.
  intros R.
  assert (K : off_index sF = off_index s).
  { replace sF with (snd (for_each items index_room s)) by (rewrite R; reflexivity).
    apply for_each_keeps; try reflexivity.
    intros x t. apply index_room_keeps; reflexivity. }
  unfold off_index in K. injection K as K1 K2 K3 K4. auto.
Qed.

(** A request wrapper that returns has had a response that passed the
    hook, and has left no record. *)
Lemma makeGetRequest_returned hub u s r s' :
  _makeGetRequest hub u s = (Return r, s') ->
  hub (sent s ++ [mkRequest GET u None]) = Delivered r
  /\ s' = mkState (wiserHubData s) (wiserNetworkData s) (wiserScheduleData s)
                  (device2roomMap s) (sent s ++ [mkRequest GET u None]) (logged s).
Proof.
  unfold _makeGetRequest, get_handler, _http_get, request, bind, record_request,
    get_state.
  cbn [sent snd fst].
  destruct (hub (sent s ++ [mkRequest GET u None])) as [r0 | | |]; cbn [fst snd];
    try discriminate.
  destruct (retried GET r0); [discriminate |].
  unfold raise_for_status.
  destruct ((400 <=? status_code r0) && (status_code r0 <? 600)); cbn;
    [discriminate |].
  intros H. injection H as <- <-. auto.
Qed.

(** An update that returns has stored the document of the response. *)
Lemma updateHubData_returned hub s v s' :
  updateHubData hub s = (Return v, s') ->
  exists r,
    hub (sent s') = Delivered r /\ json r = Some v
    /\ s' = mkState v (wiserNetworkData s) (wiserScheduleData s) (device2roomMap s)
                    (sent s ++ [get_request "domain/"]) (logged s).
Proof.
  unfold updateHubData. intros H.
  apply bind_inv in H. destruct H as (r & s1 & G & H).
  apply makeGetRequest_returned in G. destruct G as [G ->].
  apply bind_inv in H. destruct H as (v' & s2 & J & H).
  unfold resp_json in J. destruct (json r) as [w |] eqn:Jr; [| discriminate].
  injection J as -> <-.
  cbv [bind set_wiserHubData ret] in H.
  injection H as <- <-. exists r. cbn [sent]. auto.
Qed.

Lemma updateScheduleData_returned hub s v s' :
  updateScheduleData hub s = (Return v, s') ->
  s' = mkState (wiserHubData s) (wiserNetworkData s) v (device2roomMap s)
               (sent s ++ [get_request "schedules/"]) (logged s).
Proof.
  unfold updateScheduleData. intros H.
  apply bind_inv in H. destruct H as (r & s1 & G & H).
  apply makeGetRequest_returned in G. destruct G as [G ->].
  apply bind_inv in H. destruct H as (v' & s2 & J & H).
  unfold resp_json in J. destruct (json r) as [w |] eqn:Jr; [| discriminate].
  injection J as -> <-.
  cbv [bind set_wiserScheduleData ret] in H.
  injection H as <- <-. reflexivity.
Qed.

Lemma updateNetworkData_returned hub s v s' :
  updateNetworkData hub s = (Return v, s') ->
  s' = mkState (wiserHubData s) v (wiserScheduleData s) (device2roomMap s)
               (sent s ++ [get_request "network/"]) (logged s).
Proof.
  unfold updateNetworkData. intros H.
  apply bind_inv in H. destruct H as (r & s1 & G & H).
  apply makeGetRequest_returned in G. destruct G as [G ->].
  apply bind_inv in H. destruct H as (v' & s2 & J & H).
  unfold resp_json in J. destruct (json r) as [w |] eqn:Jr; [| discriminate].
  injection J as -> <-.
  cbv [bind set_wiserNetworkData ret] in H.
  injection H as <- <-. reflexivity.
Qed.

(** The two fetches that can come first, when they return. *)
Lemma schedules_if_unset hub s s1 :
  (if is_None (wiserScheduleData s) then updateScheduleData hub ;; ret tt else ret tt) s
  = (Return tt, s1) ->
  exists pre,
    sent s1 = sent s ++ pre /\ Forall before_domain pre
    /\ device2roomMap s1 = device2roomMap s /\ logged s1 = logged s.
Proof.
  destruct (is_None (wiserScheduleData s)).
  - intros H. apply bind_inv in H. destruct H as (v & t & U & H).
    injection H as <-. apply updateScheduleData_returned in U. subst t.
    exists [get_request "schedules/"]. cbn.
    repeat split. constructor; [left; reflexivity | constructor].
  - intros H. injection H as <-. exists []. rewrite app_nil_r. auto.
Qed.

Lemma network_if_unset hub s s1 :
  (if is_None (wiserNetworkData s) then updateNetworkData hub ;; ret tt else ret tt) s
  = (Return tt, s1) ->
  exists pre,
    sent s1 = sent s ++ pre /\ Forall before_domain pre
    /\ device2roomMap s1 = device2roomMap s /\ logged s1 = logged s.
Proof.
  destruct (is_None (wiserNetworkData s)).
  - intros H. apply bind_inv in H. destruct H as (v & t & U & H).
    injection H as <-. apply updateNetworkData_returned in U. subst t.
    exists [get_request "network/"]. cbn.
    repeat split. constructor; [right; reflexivity | constructor].
  - intros H. injection H as <-. exists []. rewrite app_nil_r. auto.
Qed.

(** The course of a refresh that returns.  At [s3] the domain document
    [doc] has been fetched, after the schedules and the network data if
    they were missing, and is in the cache.  At [s4] the cache is known to
    be populated: at once, or after the refresh that the guard of
    [getRooms] starts when [doc] is [None].  From there the rooms of the
    cache are indexed, which sends nothing, and the heating schedules are
    put into the cached document. *)
Lemma refreshData_anatomy hub d s data s' :
  refreshData hub (S d) s = (Return data, s') ->
  exists s3 s4 r doc fields schedules heating,
    (exists pre, sent s3 = sent s ++ pre ++ [get_request "domain/"]
                 /\ Forall before_domain pre)
    /\ hub (sent s3) = Delivered r /\ json r = Some doc /\ wiserHubData s3 = doc
    /\ device2roomMap s3 = device2roomMap s
    /\ logged s3 = logged s ++ [refresh_started;
                                (DEBUG, mkFmt "Wiser Hub Data received {} " [FVal doc])]
    /\ ((doc <> JNull /\ s4 = s3)
        \/ (doc = JNull /\ exists data', refreshData hub d s3 = (Return data', s4)))
    /\ wiserHubData s4 = JObj fields
    /\ sent s' = sent s4
    /\ wiserScheduleData s4 = JObj schedules
    /\ wiserScheduleData s' = JObj schedules
    /\ assoc "Heating" schedules = Some heating
    /\ data = JObj (dict_set "Schedule" heating fields)
    /\ wiserHubData s' = data
    /\ (forall items, dict_get fields "Room" = JArr items ->
          exists sF, for_each items index_room s4 = (Return tt, sF)
                     /\ device2roomMap s' = device2roomMap sF
                     /\ exists m, logged s' = logged sF ++ [(DEBUG, m)]).
Proof.
  intros H. cbn [refreshData] in H.
  rewrite bind_log, bind_get_state in H.
  apply bind_inv in H. destruct H as ([] & s1 & U1 & H).
  apply schedules_if_unset in U1. destruct U1 as (pre1 & S1 & F1 & M1 & L1).
  rewrite bind_get_state in H.
  apply bind_inv in H. destruct H as ([] & s2 & U2 & H).
  apply network_if_unset in U2. destruct U2 as (pre2 & S2 & F2 & M2 & L2).
  apply bind_inv in H. destruct H as (doc & s3 & U3 & H).
  apply updateHubData_returned in U3. destruct U3 as (r & Hr & Jr & E3).
  rewrite bind_get_state, bind_log in H.
  apply bind_inv in H. destruct H as (rooms1 & s4 & G1 & H).
  destruct (getRooms_returned _ _ _ _ G1) as (fields4 & D4 & ->).
  apply getRooms_guarded in G1.
  apply bind_inv in H. destruct H as ([] & s5 & Loop & H).
  rewrite bind_get_state in H.
  apply bind_inv in H. destruct H as (heating & s6 & G & H).
  apply py_getitem_inv in G. destruct G as (schedules & Hs & Hh & ->).
  apply bind_inv in H. destruct H as (tempData & s6 & G & H).
  apply py_setitem_inv in G. destruct G as (fields5 & D5 & -> & ->).
  rewrite bind_set_wiserHubData in H. injection H as <- <-.
  (* what the loop kept *)
  assert (K : wiserHubData s5 = wiserHubData s4
              /\ wiserScheduleData s5 = wiserScheduleData s4
              /\ sent s5 = sent s4
              /\ forall items, dict_get fields4 "Room" = JArr items ->
                   exists sF, for_each items index_room s4 = (Return tt, sF)
                              /\ device2roomMap s5 = device2roomMap sF
                              /\ exists m, logged s5 = logged sF ++ [(DEBUG, m)]).
  { destruct (is_None (dict_get fields4 "Room")) eqn:Z; cbn [negb] in Loop.
    - injection Loop as <-. cbn [snd _LOGGER].
      repeat split. intros items Hi. rewrite Hi in Z. discriminate.
    - apply bind_inv in Loop. destruct Loop as (rooms2 & sR & Gr & Loop).
      rewrite (getRooms_populated _ _ _ D4) in Gr. injection Gr as <- <-.
      apply bind_inv in Loop. destruct Loop as (items' & sI & It & Loop).
      pose proof (proj1 (py_iter_inv _ _ _ _ It)) as ->.
      apply bind_inv in Loop. destruct Loop as ([] & sF & Fe & Loop).
      rewrite bind_get_state in Loop. injection Loop as <-.
      destruct (rooms_loop_keeps _ _ _ Fe) as (K1 & K2 & K3).
      cbn [snd _LOGGER wiserHubData wiserScheduleData sent device2roomMap logged].
      repeat split; try assumption.
      intros items Hi. rewrite Hi in It. cbn [py_iter] in It. injection It as <-.
      exists sF. repeat split; [exact Fe |]. eexists. reflexivity. }
  destruct K as (K1 & K2 & K3 & K4).
  rewrite K1, D4 in D5. injection D5 as <-.
  rewrite K2 in Hs.
  set (s3' := snd (_LOGGER DEBUG (mkFmt "Wiser Hub Data received {} "
                                        [FVal (wiserHubData s3)]) s3)) in *.
  exists s3', s4, r, doc, fields4, schedules, heating.
  subst s3' s3.
  cbn [snd _LOGGER sent wiserHubData wiserScheduleData device2roomMap logged] in *.
  repeat match goal with |- _ /\ _ => split end; try assumption; try reflexivity.
  - exists (pre1 ++ pre2). split.
    + rewrite S2, S1, <- !app_assoc. reflexivity.
    + apply Forall_app. split; assumption.
  - rewrite M2, M1. reflexivity.
  - rewrite L2, L1. cbn [snd _LOGGER logged]. rewrite <- app_assoc.
    reflexivity.
  - rewrite K2. exact Hs.
Qed.


(** A refresh against a hub that serves its three documents returns, and
    the document it returns carries the heating schedules. *)
Example refreshData_runs :
  fst (refreshData (serving (JObj [("Schedule", JStr "old")]) JNull) 2 init)
  = Return (JObj [("Schedule", JArr [])]).
Proof. vm_compute. reflexivity. Qed.




(** ** The guard *)

Lemma checkHubData_populated hub depth s :
  wiserHubData s <> JNull -> checkHubData hub depth s = (Return tt, s).
Proof.
  intros P. unfold checkHubData, checkHubData_.
  rewrite bind_get_state.
  destruct (is_None (wiserHubData s)) eqn:N;
    [apply is_None_true in N; contradiction |].
  rewrite bind_ret, bind_get_state, N. reflexivity.
Qed.

Lemma checkHubData_empty hub depth s :
  wiserHubData s = JNull ->
  checkHubData hub depth s =
  match refreshData hub depth s with
  | (Return _, s') =>
      if is_None (wiserHubData s')
      then (Raise (WiserHubDataNull
                     (plain "Hub data null even after refresh, aborting request")), s')
      else (Return tt, s')
  | (Raise e, s') => (Raise e, s')
  end.
Proof.
  intros N. unfold checkHubData, checkHubData_.
  rewrite bind_get_state, N. cbn [is_None].
  rewrite !bind_assoc. unfold bind at 1.
  destruct (refreshData hub depth s) as [[data | e] s']; [| reflexivity].
  rewrite bind_ret, bind_get_state.
  destruct (is_None (wiserHubData s')); reflexivity.
Qed.

(** A refresh that returns has filled the domain cache. *)
Lemma refreshData_fills hub depth s data s' :
  refreshData hub depth s = (Return data, s') -> wiserHubData s' <> JNull.
Proof.
  destruct depth as [| d]; [discriminate |].
  intros H. destruct (refreshData_returned _ _ _ _ _ H) as [_ (f & _ & _ & E & _)].
  rewrite E. discriminate.
Qed.

(** With a hub whose first domain document is null, one call of
    [checkHubData] starts two refreshes: [refreshData] reaches the guard
    again through [getRooms].  With a hub that only ever serves null the
    calls nest until the call depth is used up. *)
Lemma checkHubData_null_document :
  List.length
    (List.filter is_refresh_started
       (recorded init (snd (checkHubData (serving JNull (JObj [])) 3 init))))
  = 2%nat
  /\ fst (checkHubData (serving JNull JNull) 5 init) = Raise RecursionError.
Proof. split; vm_compute; reflexivity. Qed.

(** C5, as stated, fails.  With the hub unreachable the domain cache is
    empty before and after the refresh attempt, and the error is the
    refresh's time-out, not [WiserHubDataNull]. *)
Lemma checkHubData_refresh_failure_is_not_data_null :
  wiserHubData init = JNull
  /\ wiserHubData (snd (checkHubData unreachable 3 init)) = JNull
  /\ fst (checkHubData unreachable 3 init)
     = Raise (WiserHubTimeoutException
                (mkFmt "The error is {} The Exception is {}"
                       [FExn Timeout; FType Timeout])).
Proof. repeat split; vm_compute; reflexivity. Qed.

(** C5, amended.  With the domain cache populated [checkHubData] returns
    at once and changes nothing: no refresh.  With the cache empty it calls
    [refreshData] once, from the same state: if that call raises, the
    exception is passed on as it is; if it returns, [WiserHubDataNull] is
    raised exactly when the cache is still empty. *)
Theorem checkHubData_refreshes (hub : Hub) (depth : nat) (s : State) :
  (wiserHubData s <> JNull -> checkHubData hub depth s = (Return tt, s))
  /\ (wiserHubData s = JNull ->
      checkHubData hub depth s =
      match refreshData hub depth s with
      | (Return _, s') =>
          if is_None (wiserHubData s')
          then (Raise (WiserHubDataNull
                         (plain "Hub data null even after refresh, aborting request")),
                s')
          else (Return tt, s')
      | (Raise e, s') => (Raise e, s')
      end).
Proof.
  split.
  - apply checkHubData_populated.
  - apply checkHubData_empty.
Qed.

Lemma checkHubData_refreshes_witness :
  checkHubData unreachable 3 (loaded one_room) = (Return tt, loaded one_room)
  /\ checkHubData unreachable 3 init
     = (Raise (WiserHubTimeoutException
                 (mkFmt "The error is {} The Exception is {}"
                        [FExn Timeout; FType Timeout])),
        snd (refreshData unreachable 3 init)).
Proof.
  split.
  - apply (proj1 (checkHubData_refreshes unreachable 3 (loaded one_room))).
    discriminate.
  - rewrite (proj2 (checkHubData_refreshes unreachable 3 init) eq_refl).
    vm_compute. reflexivity.
Defined.

(** ** The device index *)

Lemma py_eq_numbers a b qa qb :
  as_number a = Some qa -> as_number b = Some qb -> py_eq a b = Qeq_bool qa qb.
Proof.
  intros A B. destruct a as [| [] | z | q | | |]; try discriminate;
    cbn in A; injection A as <-; cbn [py_eq]; rewrite B; reflexivity.
Qed.

Lemma py_eq_number_other a b qa :
  as_number a = Some qa -> as_number b = None -> py_eq a b = false.
Proof.
  intros A B. destruct a as [| [] | z | q | | |]; try discriminate;
    cbn [py_eq]; rewrite B; reflexivity.
Qed.

Lemma py_eq_other_number a b qb :
  as_number a = None -> as_number b = Some qb -> py_eq a b = false.
Proof.
  intros A B. destruct a as [| [] | z | q | | |]; try discriminate;
    destruct b as [| [] | z' | q' | | |]; try discriminate; reflexivity.
Qed.

Lemma Qeq_bool_sym p q : Qeq_bool p q = Qeq_bool q p.
Proof.
  destruct (Qeq_bool p q) eqn:E.
  - apply Qeq_bool_iff in E. symmetry. apply Qeq_bool_iff. symmetry. exact E.
  - destruct (Qeq_bool q p) eqn:E'; [| reflexivity].
    apply Qeq_bool_iff in E'. symmetry in E'. apply Qeq_bool_iff in E'. congruence.
Qed.

Lemma Qeq_bool_trans p q r : Qeq_bool p q = true -> Qeq_bool p r = Qeq_bool q r.
Proof.
  intros E. apply Qeq_bool_iff in E.
  destruct (Qeq_bool q r) eqn:F.
  - apply Qeq_bool_iff in F. apply Qeq_bool_iff. rewrite E. exact F.
  - destruct (Qeq_bool p r) eqn:G; [| reflexivity].
    apply Qeq_bool_iff in G. rewrite E in G. apply Qeq_bool_iff in G. congruence.
Qed.

(** On the values a dict can have as keys, [==] is symmetric, and equal
    keys are equal to the same keys. *)
Lemma py_eq_sym a b : hashable a = true -> hashable b = true -> py_eq a b = py_eq b a.
Proof.
  intros Ha Hb.
  destruct (as_number a) as [qa |] eqn:A; destruct (as_number b) as [qb |] eqn:B.
  - rewrite (py_eq_numbers _ _ _ _ A B), (py_eq_numbers _ _ _ _ B A).
    apply Qeq_bool_sym.
  - rewrite (py_eq_number_other _ _ _ A B), (py_eq_other_number _ _ _ B A). reflexivity.
  - rewrite (py_eq_other_number _ _ _ A B), (py_eq_number_other _ _ _ B A). reflexivity.
  - destruct a as [| [] | | | sa | |]; try discriminate;
      destruct b as [| [] | | | sb | |]; try discriminate; try reflexivity.
    cbn. apply String.eqb_sym.
Qed.

Lemma py_eq_same a b c :
  py_eq a b = true -> hashable b = true -> py_eq a c = py_eq b c.
Proof.
  intros E Hb.
  destruct (as_number b) as [qb |] eqn:B.
  - destruct (as_number a) as [qa |] eqn:A.
    + rewrite (py_eq_numbers _ _ _ _ A B) in E.
      destruct (as_number c) as [qc |] eqn:C.
      * rewrite (py_eq_numbers _ _ _ _ A C), (py_eq_numbers _ _ _ _ B C).
        apply Qeq_bool_trans. exact E.
      * rewrite (py_eq_number_other _ _ _ A C), (py_eq_number_other _ _ _ B C).
        reflexivity.
    + rewrite (py_eq_other_number _ _ _ A B) in E. discriminate.
  - destruct b as [| [] | | | sb | |]; try discriminate.
    + destruct a as [| [] | | | | |]; try discriminate. reflexivity.
    + destruct a as [| [] | | | sa | |]; try discriminate.
      cbn in E. apply String.eqb_eq in E. subst sa. reflexivity.
Qed.

Lemma find_store_eq k k' v d :
  hashable k = true -> hashable k' = true ->
  find k (store k' v d) = if py_eq k' k then Some v else find k d.
Proof.
  intros Hk Hk'. induction d as [| [k0 v0] rest IH]; cbn [store find].
  - reflexivity.
  - destruct (py_eq k0 k') eqn:E; cbn [find].
    + rewrite (py_eq_same _ _ k E Hk').
      destruct (py_eq k' k); reflexivity.
    + rewrite IH. destruct (py_eq k0 k) eqn:F; [| reflexivity].
      destruct (py_eq k' k) eqn:G; [| reflexivity].
      exfalso. rewrite (py_eq_same _ _ k' F Hk) in E.
      rewrite (py_eq_sym _ _ Hk Hk') in E. congruence.
Qed.

Lemma py_iter_items_of v items s s' :
  py_iter v s = (Return items, s') -> items = items_of v /\ s' = s.
Proof.
  destruct v; cbn; intros H; try discriminate; injection H as <- <-; auto.
Qed.

Lemma map_store_find k' v s s' :
  map_store k' v s = (Return tt, s') ->
  forall k, hashable k = true ->
    find k (device2roomMap s') = if py_eq k' k then Some v else find k (device2roomMap s).
Proof.
  unfold map_store. destruct (hashable k') eqn:H; [| discriminate].
  rewrite bind_get_state. intros R k Hk. injection R as <-.
  cbn. apply find_store_eq; assumption.
Qed.

Lemma room_entry_object room s : room_entry (JObj room) s = (Return (entry_of room), s).
Proof. reflexivity. Qed.

Lemma valves_find room valves : forall s s',
  for_each valves
    (fun valveId => entry <- room_entry (JObj room) ;; map_store valveId entry) s
  = (Return tt, s') ->
  forall k, hashable k = true ->
    find k (device2roomMap s')
    = if existsb (fun k' => py_eq k' k) valves then Some (entry_of room)
      else find k (device2roomMap s).
Proof.
  induction valves as [| x rest IH]; intros s s' R k Hk; cbn [for_each existsb] in *.
  - injection R as <-. reflexivity.
  - apply bind_inv in R. destruct R as ([] & s1 & R1 & R).
    rewrite (bind_return _ _ _ _ _ (room_entry_object room s)) in R1.
    rewrite (IH _ _ R k Hk), (map_store_find _ _ _ _ R1 k Hk).
    destruct (py_eq x k), (existsb (fun k' => py_eq k' k) rest); reflexivity.
Qed.

(** What indexing one room does to the index. *)
Lemma index_room_find room s s' :
  index_room (JObj room) s = (Return tt, s') ->
  forall k, hashable k = true ->
    find k (device2roomMap s')
    = if claims room k then Some (entry_of room) else find k (device2roomMap s).
Proof.
  unfold index_room, claims, keys_of. cbn [py_get]. rewrite bind_ret. intros R k Hk.
  apply bind_inv in R. destruct R as ([] & s1 & R1 & R).
  rewrite bind_ret in R.
  apply bind_inv in R. destruct R as ([] & s2 & R2 & R).
  assert (M : device2roomMap s' = device2roomMap s2).
  { destruct (is_None (dict_get room "RoomStatId") && is_None (dict_get room "SmartValveIds"));
      [| injection R as <-; reflexivity].
    rewrite bind_ret in R. injection R as <-. reflexivity. }
  rewrite M, existsb_app.
  assert (F1 : find k (device2roomMap s1)
               = if existsb (fun k' => py_eq k' k)
                      (if is_None (dict_get room "RoomStatId") then []
                       else [dict_get room "RoomStatId"])
                 then Some (entry_of room) else find k (device2roomMap s)).
  { destruct (is_None (dict_get room "RoomStatId")); cbn [negb existsb] in *.
    - injection R1 as <-. reflexivity.
    - rewrite (bind_return _ _ _ _ _ (room_entry_object room s)) in R1.
      rewrite (map_store_find _ _ _ _ R1 k Hk), orb_false_r. reflexivity. }
  assert (F2 : find k (device2roomMap s2)
               = if existsb (fun k' => py_eq k' k)
                      (if is_None (dict_get room "SmartValveIds") then []
                       else items_of (dict_get room "SmartValveIds"))
                 then Some (entry_of room) else find k (device2roomMap s1)).
  { destruct (is_None (dict_get room "SmartValveIds")); cbn [negb existsb] in *.
    - injection R2 as <-. reflexivity.
    - apply bind_inv in R2. destruct R2 as (items & s3 & It & R2).
      destruct (py_iter_items_of _ _ _ _ It) as [-> ->].
      apply (valves_find _ _ _ _ R2 k Hk). }
  rewrite F2, F1.
  destruct (existsb _ (if is_None (dict_get room "RoomStatId") then _ else _)),
           (existsb _ (if is_None (dict_get room "SmartValveIds") then _ else _));
    reflexivity.
Qed.

(** What indexing the rooms, first to last, does to the index. *)
Lemma rooms_find rooms : forall s s',
  for_each (List.map JObj rooms) index_room s = (Return tt, s') ->
  forall k, hashable k = true ->
    find k (device2roomMap s')
    = match owner rooms k with
      | Some room => Some (entry_of room)
      | None => find k (device2roomMap s)
      end.
Proof.
  induction rooms as [| room rest IH]; intros s s' R k Hk;
    cbn [List.map for_each owner] in *.
  - injection R as <-. reflexivity.
  - apply bind_inv in R. destruct R as ([] & s1 & R1 & R).
    rewrite (IH _ _ R k Hk), (index_room_find _ _ _ R1 k Hk).
    destruct (owner rest k); [reflexivity |].
    destruct (claims room k); reflexivity.
Qed.










(** ** The heating relay *)

Lemma relay_loop_dicts chans status s :
  relay_loop (List.map JObj chans) status s =
  (Return (if existsb relay_on chans then "On" else status), s).
Proof.
  revert status.
  induction chans as [| ch rest IH]; intros status; cbn [relay_loop List.map existsb].
  - reflexivity.
  - unfold bind, py_get, ret. rewrite IH. unfold relay_on at 2.
    destruct (py_eq (dict_get ch "HeatingRelayState") (JStr "On")); cbn [orb].
    + destruct (existsb relay_on rest); reflexivity.
    + reflexivity.
Qed.

Lemma getHeatingRelayStatus_populated hub depth s fields chans :
  wiserHubData s = JObj fields ->
  dict_get fields "HeatingChannel" = JArr (List.map JObj chans) ->
  getHeatingRelayStatus hub depth s =
  (Return (if existsb relay_on chans then "On" else "Off"), s).
Proof.
  intros H C. unfold getHeatingRelayStatus, getHeatingChannels.
  rewrite !bind_assoc.
  rewrite (bind_return _ _ _ _ _ (checkHubData_populated hub depth s
             ltac:(rewrite H; discriminate))).
  forward. rewrite H. cbn [py_get]. forward. rewrite C.
  cbn [py_iter]. forward. apply relay_loop_dicts.
Qed.

(** A refresh logs that it starts and issues at least one request. *)
Lemma refreshData_starts hub depth s :
  let s' := snd (refreshData hub (S depth) s) in
  (exists first rest, issued s s' = first :: rest)
  /\ (exists records, recorded s s' = refresh_started :: records).
Proof.
  cbv zeta. split.
  - destruct (is_None (wiserScheduleData s)) eqn:Zs.
    + apply is_None_true in Zs.
      destruct (refreshData_first_schedule hub depth s Zs) as [rest E]. eauto.
    + assert (Ns : wiserScheduleData s <> JNull)
        by (intros K; rewrite K in Zs; discriminate).
      destruct (is_None (wiserNetworkData s)) eqn:Zn.
      * apply is_None_true in Zn.
        destruct (refreshData_first_network hub depth s Ns Zn) as [rest E]. eauto.
      * assert (Nn : wiserNetworkData s <> JNull)
          by (intros K; rewrite K in Zn; discriminate).
        destruct (refreshData_first_domain hub depth s Ns Nn) as [rest E]. eauto.
  - cbn [refreshData].
    match goal with
    | |- context [bind (_LOGGER ?l ?m) ?k s] =>
        assert (Hk : forall a s1, reading (k a) s1) by (intros; frame);
        pose proof (bind_extends (_LOGGER l m) k s Hk) as [_ [records E]]
    end.
    exists records. apply recorded_app. rewrite E. cbn [snd _LOGGER logged].
    rewrite <- app_assoc. reflexivity.
Qed.

Lemma getHeatingRelayStatus_empty hub depth s :
  wiserHubData s = JNull ->
  let s' := snd (getHeatingRelayStatus hub (S depth) s) in
  (exists first rest, issued s s' = first :: rest)
  /\ (exists records, recorded s s' = refresh_started :: records).
Proof.
  intros N. cbv zeta.
  unfold getHeatingRelayStatus, getHeatingChannels, checkHubData, checkHubData_.
  forward. rewrite N. cbn [is_None]. forward.
  match goal with
  | |- context [bind (refreshData hub (S depth)) ?k s] =>
      assert (Hk : forall a s1, reading (k a) s1) by (intros; frame);
      pose proof (bind_extends (refreshData hub (S depth)) k s Hk) as E
  end.
  assert (E0 : extends is_get s (snd (refreshData hub (S depth) s))).
  { eapply run_extends; [| apply surjective_pairing]. frame. }
  destruct (refreshData_starts hub depth s) as [(first & rest & Hi) (records & Hr)].
  split.
  - destruct (issued_cons _ _ _ _ _ Hi E0 E) as [rest' X]. eauto.
  - destruct (recorded_cons _ _ _ _ _ Hr E0 E) as [rest' X]. eauto.
Qed.

(** C7, as stated, fails: with an empty cache the call does force a
    refresh; here it fetches the three documents before answering. *)
Lemma getHeatingRelayStatus_forces_refresh :
  wiserHubData init = JNull
  /\ getHeatingRelayStatus (serving one_channel_on JNull) 2 init
     = (Return "On",
        snd (getHeatingRelayStatus (serving one_channel_on JNull) 2 init))
  /\ issued init (snd (getHeatingRelayStatus (serving one_channel_on JNull) 2 init))
     = [get_request "schedules/"; get_request "network/"; get_request "domain/"].
Proof. repeat split; vm_compute; reflexivity. Qed.

(** C7, amended.  On a populated cache whose heating channels are a list
    of objects, [getHeatingRelayStatus] answers "On" if one of them has
    HeatingRelayState "On" and "Off" otherwise, and leaves the object as it
    is.  It reads the channels through [getHeatingChannels], which runs the
    guard: on an empty cache a refresh starts and requests go out. *)
Theorem getHeatingRelayStatus_reads_through_guard (hub : Hub) (depth : nat) (s : State) :
  (forall fields chans,
      wiserHubData s = JObj fields ->
      dict_get fields "HeatingChannel" = JArr (List.map JObj chans) ->
      getHeatingRelayStatus hub depth s =
      (Return (if existsb relay_on chans then "On" else "Off"), s))
  /\ (wiserHubData s = JNull ->
      let s' := snd (getHeatingRelayStatus hub (S depth) s) in
      (exists first rest, issued s s' = first :: rest)
      /\ (exists records, recorded s s' = refresh_started :: records)).
Proof.
  split.
  - intros fields chans. apply getHeatingRelayStatus_populated.
  - apply getHeatingRelayStatus_empty.
Qed.

Lemma getHeatingRelayStatus_reads_through_guard_witness :
  getHeatingRelayStatus unreachable 0 (loaded one_channel_on)
  = (Return "On", loaded one_channel_on)
  /\ exists records,
       recorded init (snd (getHeatingRelayStatus unreachable 1 init))
       = refresh_started :: records.
Proof.
  split.
  - apply (proj1 (getHeatingRelayStatus_reads_through_guard unreachable 0
                    (loaded one_channel_on))
             [("HeatingChannel", JArr [JObj [("HeatingRelayState", JStr "On")]])]
             [[("HeatingRelayState", JStr "On")]]);
      reflexivity.
  - apply (proj2 (getHeatingRelayStatus_reads_through_guard unreachable 0 init)).
    reflexivity.
Defined.

(** ** Room mode *)

Lemma first_with_found wanted before item after s :
  forallb (other_id wanted) before = true ->
  py_eq (dict_get item "id") wanted = true ->
  first_with "id" wanted (List.map JObj before ++ JObj item :: after) s =
  (Return (Some (JObj item)), s).
Proof.
  intros Hb Hi. induction before as [| p rest IH]; cbn [List.map app first_with].
  - cbn [py_get]. forward. rewrite Hi. reflexivity.
  - cbn [forallb] in Hb. apply andb_true_iff in Hb. destruct Hb as [Hp Hb].
    unfold other_id in Hp. apply negb_true_iff in Hp.
    cbn [py_get]. forward. rewrite Hp. apply IH. exact Hb.
Qed.

Lemma getRoom_found hub depth roomId s fields before room after :
  wiserHubData s = JObj fields ->
  dict_get fields "Room" = JArr (List.map JObj before ++ JObj room :: after) ->
  forallb (other_id roomId) before = true ->
  py_eq (dict_get room "id") roomId = true ->
  getRoom hub depth roomId s = (Return (JObj room), s).
Proof.
  intros Hd Hr Hb Hi.
  assert (Hn : wiserHubData s <> JNull) by (rewrite Hd; discriminate).
  unfold getRoom.
  rewrite (bind_return _ _ _ _ _ (checkHubData_populated hub depth s Hn)).
  forward. rewrite Hd. cbn [py_get]. forward. rewrite Hr. cbn [is_None py_iter].
  forward. rewrite (bind_return _ _ _ _ _ (first_with_found _ _ _ _ _ Hb Hi)).
  reflexivity.
Qed.





Lemma request_state hub meth u body s :
  snd (request hub meth u body s) =
  mkState (wiserHubData s) (wiserNetworkData s) (wiserScheduleData s)
          (device2roomMap s) (sent s ++ [mkRequest meth u body]) (logged s).
Proof.
  unfold request, bind, record_request, get_state. cbn [sent snd fst].
  destruct (hub (sent s ++ [mkRequest meth u body])) as [r | | |]; cbn [fst snd];
    try reflexivity.
  destruct (retried meth r); [reflexivity |].
  unfold raise_for_status.
  destruct ((400 <=? status_code r) && (status_code r <? 600)); reflexivity.
Qed.

Lemma not_retried_200 meth r : status_code r = 200 -> retried meth r = false.
Proof. intros E. destruct meth; cbn; [rewrite E |]; reflexivity. Qed.

Lemma request_accepted hub meth u body s :
  accepted (hub (sent s ++ [mkRequest meth u body])) = true ->
  exists r, status_code r = 200
            /\ fst (request hub meth u body s) = Return r.
Proof.
  unfold accepted. destruct (hub (sent s ++ [mkRequest meth u body])) as [r | | |] eqn:H;
    try discriminate.
  intros A. apply Z.eqb_eq in A. exists r. split; [exact A |].
  rewrite (request_delivered _ _ _ _ _ _ H), (not_retried_200 meth r A), A. reflexivity.
Qed.



Lemma cancel_current_boost_sent hub roomId mode s :
  lower mode <> "boost" ->
  sent (snd (cancel_current_boost hub roomId mode s))
  = sent s ++ [cancel_request roomId].
Proof.
  intros Hm. unfold cancel_current_boost.
  destruct (String.eqb (lower mode) "boost") eqn:B;
    [apply String.eqb_eq in B; contradiction |].
  cbn [negb]. unfold bind, _http_patch.
  pose proof (request_state hub PATCH (room_url roomId) (Some cancelBoostPostData) s) as Q.
  destruct (request hub PATCH (room_url roomId) (Some cancelBoostPostData) s)
    as [[resp | e] t]; cbn [snd] in Q; subst t; [| reflexivity].
  destruct (negb (status_code resp =? 200)); reflexivity.
Qed.

Lemma cancel_current_boost_accepted hub roomId mode s :
  lower mode <> "boost" ->
  accepted (hub (sent s ++ [cancel_request roomId])) = true ->
  fst (cancel_current_boost hub roomId mode s) = Return tt.
Proof.
  intros Hm Ha. unfold cancel_current_boost.
  destruct (String.eqb (lower mode) "boost") eqn:B;
    [apply String.eqb_eq in B; contradiction |].
  cbn [negb]. unfold bind, _http_patch.
  destruct (request_accepted hub PATCH (room_url roomId) (Some cancelBoostPostData) s Ha)
    as (r & H200 & Rq).
  destruct (request hub PATCH (room_url roomId) (Some cancelBoostPostData) s)
    as [x t]; cbn [fst] in Rq; subst x.
  rewrite H200. reflexivity.
Qed.


Lemma cancel_current_boost_skipped hub roomId mode s :
  lower mode = "boost" -> cancel_current_boost hub roomId mode s = (Return tt, s).
Proof. intros Hm. unfold cancel_current_boost. rewrite Hm. reflexivity. Qed.

Lemma set_new_mode_sent hub roomId mode data s :
  sent (snd (set_new_mode hub roomId mode data s))
  = sent s ++ [patch_request roomId data].
Proof.
  unfold set_new_mode, bind, _http_patch.
  pose proof (request_state hub PATCH (room_url roomId) (Some data) s) as Q.
  destruct (request hub PATCH (room_url roomId) (Some data) s)
    as [[resp | e] t]; cbn [snd] in Q; subst t; [| reflexivity].
  destruct (negb (status_code resp =? 200)); reflexivity.
Qed.


Lemma first_patch_unique gets gets' (x : Request) rest rest' :
  Forall is_get gets -> Forall is_get gets' -> ~ is_get x ->
  gets ++ x :: rest = gets' ++ x :: rest' -> gets = gets' /\ rest = rest'.
Proof.
  intros F. revert gets'. induction F as [| g gets Hg F IH]; intros gets' F' Nx E.
  - destruct F' as [| g' gets' Hg' F']; cbn in E.
    + injection E as ->. auto.
    + injection E as <- _. contradiction.
  - destruct F' as [| g' gets' Hg' F']; cbn in E.
    + injection E as -> _. contradiction.
    + injection E as <- E. destruct (IH gets' F' Nx E) as [-> ->]. auto.
Qed.

Lemma cancel_is_not_get roomId : ~ is_get (cancel_request roomId).
Proof. unfold is_get. cbn. discriminate. Qed.







(** ** Smart plugs *)

Lemma plug_state_loop_found smartPlugId before plug after s :
  forallb (other_id smartPlugId) before = true ->
  py_eq (dict_get plug "id") smartPlugId = true ->
  plug_state_loop smartPlugId (List.map JObj before ++ JObj plug :: after) s =
  (if is_None (dict_get plug "OutputState")
   then Raise (WiserNotFound
                 (mkFmt "Unable to get State of smartPlug {}, is it offline?"
                        [FVal smartPlugId]))
   else Return (Some (dict_get plug "ScheduledState")),
   s).
Proof.
  intros Hb Hp. induction before as [| p rest IH]; cbn [List.map app plug_state_loop].
  - cbn [py_get]. forward. rewrite Hp. cbn [py_get]. forward.
    destruct (is_None (dict_get plug "OutputState")); reflexivity.
  - cbn [forallb] in Hb. apply andb_true_iff in Hb. destruct Hb as [Hp0 Hb].
    unfold other_id in Hp0. apply negb_true_iff in Hp0.
    cbn [py_get]. forward. rewrite Hp0. apply IH. exact Hb.
Qed.

Lemma getHubData_populated hub depth s :
  wiserHubData s <> JNull -> getHubData hub depth s = (Return (wiserHubData s), s).
Proof.
  intros H. unfold getHubData.
  rewrite (bind_return _ _ _ _ _ (checkHubData_populated hub depth s H)).
  reflexivity.
Qed.

(** C9.  When the first smart plug with the wanted id has an OutputState,
    [getSmartPlugState] returns that plug's ScheduledState; when its
    OutputState is null, it raises [WiserNotFound] with the plug id in the
    message.  The object is left as it is. *)
Theorem getSmartPlugState_scheduled hub depth smartPlugId s fields before plug after :
  wiserHubData s = JObj fields ->
  dict_get fields "SmartPlug" = JArr (List.map JObj before ++ JObj plug :: after) ->
  forallb (other_id smartPlugId) before = true ->
  py_eq (dict_get plug "id") smartPlugId = true ->
  getSmartPlugState hub depth smartPlugId s =
  (if is_None (dict_get plug "OutputState")
   then Raise (WiserNotFound
                 (mkFmt "Unable to get State of smartPlug {}, is it offline?"
                        [FVal smartPlugId]))
   else Return (dict_get plug "ScheduledState"),
   s).
Proof.
  intros Hd Hp Hb Hi.
  assert (Hn : wiserHubData s <> JNull) by (rewrite Hd; discriminate).
  unfold getSmartPlugState.
  rewrite (bind_return _ _ _ _ _ (checkHubData_populated hub depth s Hn)).
  rewrite (bind_return _ _ _ _ _ (getHubData_populated hub depth s Hn)).
  rewrite Hd. cbn [py_get]. forward. rewrite Hp. cbn [is_None negb].
  forward.
  rewrite (bind_return _ _ _ _ _ (getHubData_populated hub depth s Hn)).
  rewrite Hd. cbn [py_get]. forward. rewrite Hp. cbn [py_iter]. forward.
  unfold bind. rewrite (plug_state_loop_found _ _ _ _ _ Hb Hi).
  destruct (is_None (dict_get plug "OutputState")); reflexivity.
Qed.

Lemma getSmartPlugState_scheduled_witness :
  getSmartPlugState unreachable 0 (JInt 7) (loaded two_plugs)
  = (Return (JStr "Off"), loaded two_plugs)
  /\ getSmartPlugState unreachable 0 (JInt 8) (loaded two_plugs)
     = (Raise (WiserNotFound
                 (mkFmt "Unable to get State of smartPlug {}, is it offline?"
                        [FVal (JInt 8)])),
        loaded two_plugs).
Proof.
  split.
  - apply (getSmartPlugState_scheduled unreachable 0 (JInt 7) (loaded two_plugs)
             [("SmartPlug",
               JArr [JObj [("id", JInt 7); ("OutputState", JStr "On");
                           ("ScheduledState", JStr "Off")];
                     JObj [("id", JInt 8); ("ScheduledState", JStr "On")]])]
             []
             [("id", JInt 7); ("OutputState", JStr "On"); ("ScheduledState", JStr "Off")]
             [JObj [("id", JInt 8); ("ScheduledState", JStr "On")]]);
      reflexivity.
  - apply (getSmartPlugState_scheduled unreachable 0 (JInt 8) (loaded two_plugs)
             [("SmartPlug",
               JArr [JObj [("id", JInt 7); ("OutputState", JStr "On");
                           ("ScheduledState", JStr "Off")];
                     JObj [("id", JInt 8); ("ScheduledState", JStr "On")]])]
             [[("id", JInt 7); ("OutputState", JStr "On"); ("ScheduledState", JStr "Off")]]
             [("id", JInt 8); ("ScheduledState", JStr "On")]
             []);
      reflexivity.
Defined.

(** ** Device rooms *)

(** C10.  Once the cache is loaded and the index has entries, asking for a
    device id that the index does not have raises [KeyError] with that id;
    no request is made. *)
Theorem getDeviceRoom_absent_raises_KeyError hub depth deviceId s :
  wiserHubData s <> JNull ->
  device2roomMap s <> [] ->
  hashable deviceId = true ->
  find deviceId (device2roomMap s) = None ->
  fst (getDeviceRoom hub depth deviceId s) = Raise (KeyError deviceId)
  /\ issued s (snd (getDeviceRoom hub depth deviceId s)) = [].
Proof.
  intros Hd Hm Hh Hf. unfold getDeviceRoom.
  rewrite (bind_return _ _ _ _ _ (checkHubData_populated hub depth s Hd)).
  forward. cbn [snd _LOGGER device2roomMap].
  destruct (device2roomMap s) as [| e rest] eqn:E; [contradiction |].
  forward. cbn [device2roomMap]. rewrite Hh, Hf.
  split; [reflexivity |]. apply issued_app. cbn. rewrite app_nil_r. reflexivity.
Qed.

(** What [getDeviceRoom] returns is always an entry of the index. *)
Lemma getDeviceRoom_returns_entry hub depth deviceId s v :
  fst (getDeviceRoom hub depth deviceId s) = Return v ->
  find deviceId (device2roomMap (snd (getDeviceRoom hub depth deviceId s))) = Some v.
Proof.
  intros H.
  assert (R : getDeviceRoom hub depth deviceId s
              = (Return v, snd (getDeviceRoom hub depth deviceId s)))
    by (rewrite <- H; apply surjective_pairing).
  revert R. generalize (snd (getDeviceRoom hub depth deviceId s)) as s'.
  clear H. intros s' R. unfold getDeviceRoom in R.
  do 4 step R. rewrite bind_get_state in R.
  destruct (hashable deviceId); [| discriminate].
  destruct (find deviceId (device2roomMap s1)) eqn:Fd; [| discriminate].
  cbv [ret] in R. injection R as <- <-. exact Fd.
Qed.

Lemma getDeviceRoom_absent_raises_KeyError_witness :
  fst (getDeviceRoom unreachable 0 (JStr "Q") indexed3) = Raise (KeyError (JStr "Q"))
  /\ issued indexed3 (snd (getDeviceRoom unreachable 0 (JStr "Q") indexed3)) = [].
Proof.
  apply (getDeviceRoom_absent_raises_KeyError unreachable 0 (JStr "Q") indexed3);
    first [reflexivity | discriminate].
Defined.
(** * Further properties *)

(** ** Transport *)

Lemma request_outcome hub u body s :
  request hub PATCH u body s =
  (transport (hub (sent s ++ [mkRequest PATCH u body])),
   mkState (wiserHubData s) (wiserNetworkData s) (wiserScheduleData s)
           (device2roomMap s) (sent s ++ [mkRequest PATCH u body]) (logged s)).
Proof.
  unfold request, bind, record_request, get_state, transport. cbn.
  destruct (hub (sent s ++ [mkRequest PATCH u body])) as [r | | |]; cbn;
    try reflexivity.
  unfold raise_for_status.
  destruct ((400 <=? status_code r) && (status_code r <? 600)); reflexivity.
Qed.

Lemma fetch_outcome hub u body s :
  request hub GET u body s =
  (fetched (hub (sent s ++ [mkRequest GET u body])),
   mkState (wiserHubData s) (wiserNetworkData s) (wiserScheduleData s)
           (device2roomMap s) (sent s ++ [mkRequest GET u body]) (logged s)).
Proof.
  unfold request, bind, record_request, get_state, fetched, transport.
  cbn [sent snd fst retried].
  destruct (hub (sent s ++ [mkRequest GET u body])) as [r | | |]; cbn [fst snd];
    try reflexivity.
  destruct (existsb (Z.eqb (status_code r)) status_forcelist); [reflexivity |].
  unfold raise_for_status.
  destruct ((400 <=? status_code r) && (status_code r <? 600)); reflexivity.
Qed.

(** X1.  [_makeGetRequest] and [_makePatchRequest] hand exactly one
    request to the session and leave the caches and the index alone.  They
    return the response when its status is outside 400 to 599.  They turn
    a time-out and a failed connection into [WiserHubTimeoutException],
    which names the cause, after one debug record, the only record they
    ever log.  They let any other exception of requests through, among
    them the [RetryError] of a GET that is still answered 500, 502, 503 or
    504 when the adapter gives up.  On every other status from 400 to 599,
    which for a PATCH is every status from 400 to 599, their handler fails
    on its unbound local.  They never raise the [HTTPError], [Timeout] or
    [ConnectionError] of requests itself. *)
Theorem request_wrappers_outcomes (hub : Hub) (u : Fmt) (data : Json) (s : State) :
  let after req records :=
    mkState (wiserHubData s) (wiserNetworkData s) (wiserScheduleData s)
            (device2roomMap s) (sent s ++ [req]) (logged s ++ records) in
  let get := mkRequest GET u None in
  _makeGetRequest hub u s
  = (wrapped GET (hub (sent s ++ [get])),
     after get (wrapped_log "Connection timed out trying to update from Wiser Hub"
                            (hub (sent s ++ [get]))))
  /\ _makePatchRequest hub u data s
     = (wrapped PATCH (hub (sent s ++ [patch u data])),
        after (patch u data)
              (wrapped_log "Connection timed out trying to send data to Wiser Hub"
                           (hub (sent s ++ [patch u data])))).
Proof.
  cbv zeta. unfold _makeGetRequest, _makePatchRequest, _http_get, _http_patch, patch.
  rewrite request_outcome, fetch_outcome.
  unfold fetched, transport, wrapped, wrapped_log, retried. split.
  - destruct (hub (sent s ++ [mkRequest GET u None])) as [r | | |];
      try destruct (existsb (Z.eqb (status_code r)) status_forcelist);
      try destruct ((400 <=? status_code r) && (status_code r <? 600));
      cbn; rewrite ?app_nil_r; reflexivity.
  - destruct (hub (sent s ++ [mkRequest PATCH u (Some data)])) as [r | | |];
      try destruct ((400 <=? status_code r) && (status_code r <? 600));
      cbn; rewrite ?app_nil_r; reflexivity.
Qed.

(** ** The three updates *)

Ltac update_cases hub s u :=
  unfold bind, _makeGetRequest, _http_get; rewrite fetch_outcome;
  unfold fetched, transport;
  destruct (hub (sent s ++ [mkRequest GET (plain u) None])) as [r | | |];
  [ destruct (existsb (Z.eqb (status_code r)) status_forcelist);
    [| destruct ((400 <=? status_code r) && (status_code r <? 600));
       [| unfold resp_json; destruct (json r) ] ]
  | | | ];
  repeat split.

(** X2.  [updateScheduleData], [updateNetworkData] and [updateHubData]
    send one GET each, of schedules/, network/ and domain/.  An update that
    returns has put the document it returns into its cache, be it [None];
    an update that raises, because the request failed or the body is not
    JSON, leaves its cache as it was.  The two other caches and the device
    index are never touched. *)
Theorem updates_are_all_or_nothing (hub : Hub) (s : State) :
  let schedules := updateScheduleData hub s in
  let network := updateNetworkData hub s in
  let domain := updateHubData hub s in
  let unless_raised (r : Result Json) (before : Json) :=
    match r with Return v => v | Raise _ => before end in
  (sent (snd schedules) = sent s ++ [get_request "schedules/"]
   /\ wiserScheduleData (snd schedules)
      = unless_raised (fst schedules) (wiserScheduleData s)
   /\ wiserNetworkData (snd schedules) = wiserNetworkData s
   /\ wiserHubData (snd schedules) = wiserHubData s
   /\ device2roomMap (snd schedules) = device2roomMap s)
  /\ (sent (snd network) = sent s ++ [get_request "network/"]
      /\ wiserNetworkData (snd network)
         = unless_raised (fst network) (wiserNetworkData s)
      /\ wiserScheduleData (snd network) = wiserScheduleData s
      /\ wiserHubData (snd network) = wiserHubData s
      /\ device2roomMap (snd network) = device2roomMap s)
  /\ (sent (snd domain) = sent s ++ [get_request "domain/"]
      /\ wiserHubData (snd domain) = unless_raised (fst domain) (wiserHubData s)
      /\ wiserScheduleData (snd domain) = wiserScheduleData s
      /\ wiserNetworkData (snd domain) = wiserNetworkData s
      /\ device2roomMap (snd domain) = device2roomMap s).
Proof.
  cbv zeta. split; [| split].
  - unfold updateScheduleData. update_cases hub s "schedules/".
  - unfold updateNetworkData. update_cases hub s "network/".
  - unfold updateHubData. update_cases hub s "domain/".
Qed.

(** ** What the other reads can do *)

Section MoreFrames.

Variable hub : Hub.
Context {I : State -> Prop} {P : Request -> Prop} {F : Frame I P}.

Lemma holds_try_except {A} (body handler : M A) s :
  holds I P body s -> (forall s', holds I P handler s') ->
  holds I P (try_except body handler) s.
Proof.
  intros Hb Hh C. destruct (Hb C) as [C1 E1].
  unfold try_except. destruct (body s) as [[a | e] s1]; cbn [snd] in *.
  - split; assumption.
  - destruct (Hh s1 C1) as [C2 E2]. split; [exact C2 |].
    eapply extends_trans; eauto.
Qed.

Lemma holds_py_item0 v s : holds I P (py_item0 v) s.
Proof.
  destruct v as [| | | | str | [| x l] |]; cbn [py_item0];
    try destruct str; first [apply holds_ret | apply holds_raise].
Qed.

Lemma holds_getHubData depth s : holds I P (getHubData hub depth) s.
Proof. unfold getHubData. frame. Qed.

Lemma holds_getSystem depth s : holds I P (getSystem hub depth) s.
Proof. unfold getSystem. frame. Qed.

Lemma holds_getHotwater depth s : holds I P (getHotwater hub depth) s.
Proof.
  unfold getHotwater. frame. apply holds_try_except; intros; frame.
Qed.

Lemma holds_getDevices depth s : holds I P (getDevices hub depth) s.
Proof. unfold getDevices. frame. Qed.

Lemma holds_getDevice depth deviceId s : holds I P (getDevice hub depth deviceId) s.
Proof. unfold getDevice. frame. Qed.

Lemma holds_getWiserHubName depth s : holds I P (getWiserHubName hub depth) s.
Proof.
  unfold getWiserHubName. apply holds_try_except; intros; frame.
  apply holds_getDevice.
Qed.

Lemma holds_getMACAddress s : holds I P getMACAddress s.
Proof. unfold getMACAddress. apply holds_try_except; intros; frame. Qed.

Lemma holds_getHotwaterRelayStatus depth s :
  holds I P (getHotwaterRelayStatus hub depth) s.
Proof. unfold getHotwaterRelayStatus. frame. apply holds_py_item0. Qed.

Lemma holds_getRoomStatData depth deviceId s :
  holds I P (getRoomStatData hub depth deviceId) s.
Proof. unfold getRoomStatData. frame. Qed.

Lemma holds_getRoomSchedule depth roomId s :
  holds I P (getRoomSchedule hub depth roomId) s.
Proof. unfold getRoomSchedule. frame. Qed.

Lemma holds_getSmartPlugs depth s : holds I P (getSmartPlugs hub depth) s.
Proof. unfold getSmartPlugs. frame. apply holds_getHubData. Qed.

Lemma holds_getSmartPlug depth smartPlugId s :
  holds I P (getSmartPlug hub depth smartPlugId) s.
Proof. unfold getSmartPlug. frame; apply holds_getHubData. Qed.

Lemma holds_plug_mode_loop smartPlugId plugs : forall s,
  holds I P (plug_mode_loop smartPlugId plugs) s.
Proof.
  induction plugs as [| p rest IH]; intros s; cbn [plug_mode_loop]; frame.
Qed.

Lemma holds_plug_state_loop smartPlugId plugs : forall s,
  holds I P (plug_state_loop smartPlugId plugs) s.
Proof.
  induction plugs as [| p rest IH]; intros s; cbn [plug_state_loop]; frame.
Qed.

Lemma holds_getSmartPlugMode depth smartPlugId s :
  holds I P (getSmartPlugMode hub depth smartPlugId) s.
Proof.
  unfold getSmartPlugMode. frame; try apply holds_getHubData.
  apply holds_plug_mode_loop.
Qed.

Lemma holds_getSmartPlugState depth smartPlugId s :
  holds I P (getSmartPlugState hub depth smartPlugId) s.
Proof.
  unfold getSmartPlugState. frame; try apply holds_getHubData.
  apply holds_plug_state_loop.
Qed.

Lemma holds_getDeviceRoom depth deviceId s :
  holds I P (getDeviceRoom hub depth deviceId) s.
Proof. unfold getDeviceRoom. frame. Qed.

Lemma holds_getHeatingRelayStatus depth s :
  holds I P (getHeatingRelayStatus hub depth) s.
Proof. unfold getHeatingRelayStatus. frame. Qed.

End MoreFrames.

#[export] Instance frame_fetches : Frame always fetches.
Proof.
  split; try (intros; exact Logic.I).
  - intros s v _ _. split; [exact Logic.I | left; reflexivity].
  - intros s v _ _. split; [exact Logic.I | right; left; reflexivity].
  - right; right; reflexivity.
Qed.

Lemma run_fetches {A} (m : M A) s :
  holds always fetches m s -> extends fetches s (snd (m s)).
Proof. intros H. apply H. exact Logic.I. Qed.

(** X3.  Whatever the hub answers and whatever the object holds, a read
    method hands nothing to the session but GETs of schedules/, network/
    and domain/: reading never writes to the hub. *)
Theorem reads_only_fetch (hub : Hub) (depth : nat) (id : Json) (s : State) :
  extends fetches s (snd (getHubData hub depth s))
  /\ extends fetches s (snd (getRooms hub depth s))
  /\ extends fetches s (snd (getRoom hub depth id s))
  /\ extends fetches s (snd (getSystem hub depth s))
  /\ extends fetches s (snd (getHotwater hub depth s))
  /\ extends fetches s (snd (getHeatingChannels hub depth s))
  /\ extends fetches s (snd (getDevices hub depth s))
  /\ extends fetches s (snd (getDevice hub depth id s))
  /\ extends fetches s (snd (getDeviceRoom hub depth id s))
  /\ extends fetches s (snd (getHeatingRelayStatus hub depth s))
  /\ extends fetches s (snd (getHotwaterRelayStatus hub depth s))
  /\ extends fetches s (snd (getRoomStatData hub depth id s))
  /\ extends fetches s (snd (getRoomSchedule hub depth id s))
  /\ extends fetches s (snd (getSmartPlugs hub depth s))
  /\ extends fetches s (snd (getSmartPlug hub depth id s))
  /\ extends fetches s (snd (getSmartPlugState hub depth id s))
  /\ extends fetches s (snd (getSmartPlugMode hub depth id s))
  /\ extends fetches s (snd (getWiserHubName hub depth s))
  /\ extends fetches s (snd (getMACAddress s)).
Proof.
  repeat match goal with |- _ /\ _ => split end; apply run_fetches.
  - apply holds_getHubData; exact frame_fetches.
  - apply holds_getRooms_, holds_refreshData; exact frame_fetches.
  - apply holds_getRoom; exact frame_fetches.
  - apply holds_getSystem; exact frame_fetches.
  - apply holds_getHotwater; exact frame_fetches.
  - apply holds_getHeatingChannels; exact frame_fetches.
  - apply holds_getDevices; exact frame_fetches.
  - apply holds_getDevice; exact frame_fetches.
  - apply holds_getDeviceRoom; exact frame_fetches.
  - apply holds_getHeatingRelayStatus; exact frame_fetches.
  - apply holds_getHotwaterRelayStatus; exact frame_fetches.
  - apply holds_getRoomStatData; exact frame_fetches.
  - apply holds_getRoomSchedule; exact frame_fetches.
  - apply holds_getSmartPlugs; exact frame_fetches.
  - apply holds_getSmartPlug; exact frame_fetches.
  - apply holds_getSmartPlugState; exact frame_fetches.
  - apply holds_getSmartPlugMode; exact frame_fetches.
  - apply holds_getWiserHubName; exact frame_fetches.
  - apply holds_getMACAddress; exact frame_fetches.
Qed.

(** ** Documents that are not fetched again *)

Lemma run_cached ks kn {A} (m : M A) s :
  holds (cached ks kn) (allowed ks kn) m s ->
  cached ks kn s ->
  cached ks kn (snd (m s)) /\ extends (allowed ks kn) s (snd (m s)).
Proof. intros H C. exact (H C). Qed.

(** X4.  From a state in which the schedule cache is set, no refresh and
    no read method sends a GET of schedules/, and none unsets the cache:
    what the hub changes in its schedules later is not seen by them.  The
    same holds, independently, for the network cache and network/.  (A
    cache that is still unset, after a fetch that failed or brought
    [null], is fetched by the next refresh, and [updateScheduleData] and
    [updateNetworkData] themselves always fetch.) *)
Theorem set_caches_are_not_fetched_again
    (hub : Hub) (depth : nat) (id : Json) (ks kn : bool) (s : State)
    (C : cached ks kn s) :
  let keeps {A} (m : M A) :=
    cached ks kn (snd (m s)) /\ extends (allowed ks kn) s (snd (m s)) in
  keeps (refreshData hub depth)
  /\ keeps (checkHubData hub depth)
  /\ keeps (getHubData hub depth)
  /\ keeps (getRooms hub depth)
  /\ keeps (getRoom hub depth id)
  /\ keeps (getSystem hub depth)
  /\ keeps (getHotwater hub depth)
  /\ keeps (getHeatingChannels hub depth)
  /\ keeps (getDevices hub depth)
  /\ keeps (getDevice hub depth id)
  /\ keeps (getDeviceRoom hub depth id)
  /\ keeps (getHeatingRelayStatus hub depth)
  /\ keeps (getHotwaterRelayStatus hub depth)
  /\ keeps (getRoomStatData hub depth id)
  /\ keeps (getRoomSchedule hub depth id)
  /\ keeps (getSmartPlugs hub depth)
  /\ keeps (getSmartPlug hub depth id)
  /\ keeps (getSmartPlugState hub depth id)
  /\ keeps (getSmartPlugMode hub depth id)
  /\ keeps (getWiserHubName hub depth).
Proof.
  cbv zeta beta.
  repeat match goal with |- (_ /\ _) /\ _ => split end;
    (apply run_cached; [| exact C]).
  - apply holds_refreshData; apply frame_cached.
  - apply holds_checkHubData; apply frame_cached.
  - apply holds_getHubData; apply frame_cached.
  - apply holds_getRooms_;
      first [apply frame_cached | intros t; apply holds_refreshData; apply frame_cached].
  - apply holds_getRoom; apply frame_cached.
  - apply holds_getSystem; apply frame_cached.
  - apply holds_getHotwater; apply frame_cached.
  - apply holds_getHeatingChannels; apply frame_cached.
  - apply holds_getDevices; apply frame_cached.
  - apply holds_getDevice; apply frame_cached.
  - apply holds_getDeviceRoom; apply frame_cached.
  - apply holds_getHeatingRelayStatus; apply frame_cached.
  - apply holds_getHotwaterRelayStatus; apply frame_cached.
  - apply holds_getRoomStatData; apply frame_cached.
  - apply holds_getRoomSchedule; apply frame_cached.
  - apply holds_getSmartPlugs; apply frame_cached.
  - apply holds_getSmartPlug; apply frame_cached.
  - apply holds_getSmartPlugState; apply frame_cached.
  - apply holds_getSmartPlugMode; apply frame_cached.
  - apply holds_getWiserHubName; apply frame_cached.
Qed.

Lemma set_caches_are_not_fetched_again_witness :
  ~ In (get_request "schedules/")
       (issued (loaded JNull) (snd (getRoom (serving one_room one_room) 2 (JInt 1)
                                      (loaded JNull)))).
Proof.
  destruct (set_caches_are_not_fetched_again (serving one_room one_room) 2 (JInt 1)
              true true (loaded JNull)
              (conj (fun _ => eq_refl) (fun _ => eq_refl)))
    as (_ & _ & _ & _ & [_ E] & _).
  intros I. destruct (in_issued _ _ _ _ E I) as (_ & N & _).
  apply N; reflexivity.
Defined.

(** ** Reading a populated cache *)

Lemma only_logged_refl s : only_logged s s.
Proof. repeat split. exists []. rewrite app_nil_r. reflexivity. Qed.

Lemma only_logged_trans s1 s2 s3 :
  only_logged s1 s2 -> only_logged s2 s3 -> only_logged s1 s3.
Proof.
  intros (A1 & B1 & C1 & D1 & E1 & r1 & L1) (A2 & B2 & C2 & D2 & E2 & r2 & L2).
  repeat split; try congruence.
  exists (r1 ++ r2). rewrite L2, L1, app_assoc. reflexivity.
Qed.

Lemma offline_ret {A} (a : A) : offline (ret a).
Proof. intros s _. apply only_logged_refl. Qed.

Lemma offline_raise {A} e : offline (@raise A e).
Proof. intros s _. apply only_logged_refl. Qed.

Lemma offline_bind {A B} (m : M A) (f : A -> M B) :
  offline m -> (forall a, offline (f a)) -> offline (bind m f).
Proof.
  intros Hm Hf s N. pose proof (Hm s N) as L1.
  unfold bind. destruct (m s) as [[a | e] s1]; cbn [snd] in *; [| exact L1].
  eapply only_logged_trans; [exact L1 |]. apply Hf.
  destruct L1 as [E _]. rewrite E. exact N.
Qed.

Lemma offline_get_state {B} (f : State -> M B) :
  (forall s0, offline (f s0)) -> offline (bind get_state f).
Proof. intros H s N. exact (H s s N). Qed.

Lemma offline_try_except {A} (body handler : M A) :
  offline body -> offline handler -> offline (try_except body handler).
Proof.
  intros Hb Hh s N. pose proof (Hb s N) as L1.
  unfold try_except. destruct (body s) as [[a | e] s1]; cbn [snd] in *; [exact L1 |].
  eapply only_logged_trans; [exact L1 |]. apply Hh.
  destruct L1 as [E _]. rewrite E. exact N.
Qed.

Lemma offline_log lvl m : offline (_LOGGER lvl m).
Proof. intros s _. repeat split. eexists. reflexivity. Qed.

Lemma offline_py_get v k : offline (py_get v k).
Proof. destruct v; first [apply offline_ret | apply offline_raise]. Qed.

Lemma offline_py_iter v : offline (py_iter v).
Proof. destruct v; first [apply offline_ret | apply offline_raise]. Qed.

Lemma offline_py_getitem v k : offline (py_getitem v k).
Proof.
  destruct v; try apply offline_raise. cbn.
  destruct (assoc k fields); [apply offline_ret | apply offline_raise].
Qed.

Lemma offline_py_item0 v : offline (py_item0 v).
Proof.
  destruct v as [| | | | str | [| x l] |]; cbn [py_item0];
    try destruct str; first [apply offline_ret | apply offline_raise].
Qed.

Lemma offline_checkHubData hub depth : offline (checkHubData hub depth).
Proof.
  intros s N. rewrite (checkHubData_populated hub depth s N). apply only_logged_refl.
Qed.

Lemma offline_first_with key wanted items : offline (first_with key wanted items).
Proof.
  induction items as [| x rest IH]; cbn [first_with]; [apply offline_ret |].
  apply offline_bind; [apply offline_py_get | intros v].
  destruct (py_eq v wanted); [apply offline_ret | exact IH].
Qed.

(** One step of a proof that a method is [offline]. *)
Ltac offline_step :=
  lazymatch goal with
  | |- offline (bind get_state _) => apply offline_get_state; intros ?
  | |- offline (bind _ _) => apply offline_bind; [| intros ?]
  | |- offline (ret _) => apply offline_ret
  | |- offline (raise _) => apply offline_raise
  | |- offline (try_except _ _) => apply offline_try_except
  | |- offline (_LOGGER _ _) => apply offline_log
  | |- offline (py_get _ _) => apply offline_py_get
  | |- offline (py_iter _) => apply offline_py_iter
  | |- offline (py_getitem _ _) => apply offline_py_getitem
  | |- offline (py_item0 _) => apply offline_py_item0
  | |- offline (checkHubData _ _) => apply offline_checkHubData
  | |- offline (first_with _ _ _) => apply offline_first_with
  | |- offline (if ?b then _ else _) => destruct b
  | |- offline (match ?x with _ => _ end) => destruct x
  end.

Ltac offline := repeat offline_step.

Lemma offline_getHubData hub depth : offline (getHubData hub depth).
Proof. unfold getHubData. offline. Qed.

Lemma offline_getRoom hub depth roomId : offline (getRoom hub depth roomId).
Proof. unfold getRoom. offline. Qed.

Lemma offline_getDevice hub depth deviceId : offline (getDevice hub depth deviceId).
Proof. unfold getDevice. offline. Qed.

Lemma offline_relay_loop channels : forall status, offline (relay_loop channels status).
Proof.
  induction channels as [| c rest IH]; intros status; cbn [relay_loop]; offline.
  apply IH.
Qed.

Lemma offline_plug_state_loop smartPlugId plugs :
  offline (plug_state_loop smartPlugId plugs).
Proof.
  induction plugs as [| p rest IH]; cbn [plug_state_loop]; offline. exact IH.
Qed.

Lemma offline_plug_mode_loop smartPlugId plugs :
  offline (plug_mode_loop smartPlugId plugs).
Proof.
  induction plugs as [| p rest IH]; cbn [plug_mode_loop]; offline. exact IH.
Qed.

(** X5.  Once the domain cache is populated, no read method but
    [getDeviceRoom] sends a request or changes a cache or the device index:
    all it can do to the object is log. *)
Theorem reads_of_populated_cache_are_offline (hub : Hub) (depth : nat) (id : Json) :
  offline (getHubData hub depth)
  /\ offline (getRooms hub depth)
  /\ offline (getRoom hub depth id)
  /\ offline (getSystem hub depth)
  /\ offline (getHotwater hub depth)
  /\ offline (getHeatingChannels hub depth)
  /\ offline (getDevices hub depth)
  /\ offline (getDevice hub depth id)
  /\ offline (getHeatingRelayStatus hub depth)
  /\ offline (getHotwaterRelayStatus hub depth)
  /\ offline (getRoomStatData hub depth id)
  /\ offline (getRoomSchedule hub depth id)
  /\ offline (getSmartPlugs hub depth)
  /\ offline (getSmartPlug hub depth id)
  /\ offline (getSmartPlugState hub depth id)
  /\ offline (getSmartPlugMode hub depth id)
  /\ offline (getWiserHubName hub depth)
  /\ offline getMACAddress.
Proof.
  repeat match goal with |- _ /\ _ => split end.
  - apply offline_getHubData.
  - unfold getRooms, getRooms_. fold (checkHubData hub depth). offline.
  - apply offline_getRoom.
  - unfold getSystem. offline.
  - unfold getHotwater. offline.
  - unfold getHeatingChannels. offline.
  - unfold getDevices. offline.
  - apply offline_getDevice.
  - unfold getHeatingRelayStatus, getHeatingChannels. offline. apply offline_relay_loop.
  - unfold getHotwaterRelayStatus. offline.
  - unfold getRoomStatData. offline.
  - unfold getRoomSchedule. offline; apply offline_getRoom.
  - unfold getSmartPlugs. offline. apply offline_getHubData.
  - unfold getSmartPlug. offline; apply offline_getHubData.
  - unfold getSmartPlugState. offline;
      first [apply offline_getHubData | apply offline_plug_state_loop].
  - unfold getSmartPlugMode. offline;
      first [apply offline_getHubData | apply offline_plug_mode_loop].
  - unfold getWiserHubName. offline. apply offline_getDevice.
  - unfold getMACAddress. offline.
Qed.

Lemma reads_of_populated_cache_are_offline_witness :
  only_logged (loaded one_room) (snd (getDevice unreachable 0 (JInt 2) (loaded one_room))).
Proof.
  destruct (reads_of_populated_cache_are_offline unreachable 0 (JInt 2))
    as (_ & _ & _ & _ & _ & _ & _ & H & _).
  apply H. discriminate.
Defined.

(** ** Reading an empty cache *)

(** What runs behind the guard, on an empty cache, runs after a refresh. *)
Lemma guarded_refresh {B} hub depth (k : unit -> M B) s :
  (forall a s1, reading (k a) s1) ->
  wiserHubData s = JNull ->
  let s' := snd (bind (checkHubData hub (S depth)) k s) in
  (exists first rest, issued s s' = first :: rest)
  /\ (exists records, recorded s s' = refresh_started :: records).
Proof.
  intros Hk N. cbv zeta.
  unfold checkHubData, checkHubData_.
  forward. rewrite N. cbn [is_None]. forward.
  match goal with
  | |- context [bind (refreshData hub (S depth)) ?k' s] =>
      assert (Hk' : forall a s1, reading (k' a) s1) by (intros; frame; apply Hk);
      pose proof (bind_extends (refreshData hub (S depth)) k' s Hk') as E
  end.
  assert (E0 : extends is_get s (snd (refreshData hub (S depth) s))).
  { eapply run_extends; [| apply surjective_pairing]. frame. }
  destruct (refreshData_starts hub depth s) as [(first & rest & Hi) (records & Hr)].
  split.
  - destruct (issued_cons _ _ _ _ _ Hi E0 E) as [rest' X]. eauto.
  - destruct (recorded_cons _ _ _ _ _ Hr E0 E) as [rest' X]. eauto.
Qed.

(** X6.  On an empty domain cache every read method that starts with the
    guard starts a refresh, as long as call depth is left: the first thing
    it logs is "Updating Wiser Hub Data", and at least one request goes
    out, whatever the hub then answers. *)
Theorem reads_of_empty_cache_refresh
    (hub : Hub) (depth : nat) (id : Json) (s : State) (N : wiserHubData s = JNull) :
  let refreshes (s' : State) :=
    (exists first rest, issued s s' = first :: rest)
    /\ (exists records, recorded s s' = refresh_started :: records) in
  refreshes (snd (getHubData hub (S depth) s))
  /\ refreshes (snd (getRooms hub (S depth) s))
  /\ refreshes (snd (getRoom hub (S depth) id s))
  /\ refreshes (snd (getSystem hub (S depth) s))
  /\ refreshes (snd (getHotwater hub (S depth) s))
  /\ refreshes (snd (getHeatingChannels hub (S depth) s))
  /\ refreshes (snd (getDevices hub (S depth) s))
  /\ refreshes (snd (getDevice hub (S depth) id s))
  /\ refreshes (snd (getDeviceRoom hub (S depth) id s))
  /\ refreshes (snd (getHotwaterRelayStatus hub (S depth) s))
  /\ refreshes (snd (getRoomStatData hub (S depth) id s))
  /\ refreshes (snd (getRoomSchedule hub (S depth) id s))
  /\ refreshes (snd (getSmartPlugs hub (S depth) s))
  /\ refreshes (snd (getSmartPlug hub (S depth) id s))
  /\ refreshes (snd (getSmartPlugState hub (S depth) id s))
  /\ refreshes (snd (getSmartPlugMode hub (S depth) id s)).
Proof.
  cbv zeta beta.
  unfold getHubData, getRooms, getRooms_, getRoom, getSystem, getHotwater,
    getHeatingChannels, getDevices, getDevice, getDeviceRoom,
    getHotwaterRelayStatus, getRoomStatData, getRoomSchedule, getSmartPlugs,
    getSmartPlug, getSmartPlugState, getSmartPlugMode.
  fold (checkHubData hub (S depth)).
  repeat match goal with |- (_ /\ _) /\ _ => split end;
    match goal with
    | |- context [snd (bind (checkHubData hub (S depth)) ?k s)] =>
        apply (guarded_refresh hub depth k s); [| exact N]
    end;
    intros; frame.
  all: first [ apply holds_getHubData | apply holds_py_item0
             | apply holds_plug_state_loop | apply holds_plug_mode_loop
             | apply holds_try_except; intros; frame ].
  all: apply frame_cached.
Qed.

Lemma reads_of_empty_cache_refresh_witness :
  exists records,
    recorded init (snd (getSystem unreachable 1 init)) = refresh_started :: records.
Proof.
  apply (reads_of_empty_cache_refresh unreachable 0 JNull init eq_refl).
Defined.

(** ** Reads of one key *)

(** X7.  On a populated cache that is an object, the reads of one key
    return what the document has under it and [None] when the key is
    missing, never an exception, and change nothing.  When the document is
    not an object, [getHotwater] still returns [None], since it catches
    whatever its read raises, while [getSystem] raises [AttributeError]. *)
Theorem reads_of_one_key (hub : Hub) (depth : nat) (s : State) :
  (forall fields,
     wiserHubData s = JObj fields ->
     getHubData hub depth s = (Return (JObj fields), s)
     /\ getRooms hub depth s = (Return (dict_get fields "Room"), s)
     /\ getSystem hub depth s = (Return (dict_get fields "System"), s)
     /\ getHotwater hub depth s = (Return (dict_get fields "HotWater"), s)
     /\ getHeatingChannels hub depth s = (Return (dict_get fields "HeatingChannel"), s)
     /\ getDevices hub depth s = (Return (dict_get fields "Device"), s)
     /\ getSmartPlugs hub depth s = (Return (dict_get fields "SmartPlug"), s))
  /\ (forall items,
        wiserHubData s = JArr items ->
        getHotwater hub depth s = (Return JNull, s)
        /\ getSystem hub depth s = (Raise (AttributeError "get"), s)).
Proof.
  split.
  - intros fields D.
    assert (N : wiserHubData s <> JNull) by (rewrite D; discriminate).
    pose proof (checkHubData_populated hub depth s N) as C.
    pose proof (getHubData_populated hub depth s N) as G. rewrite D in G.
    repeat match goal with |- _ /\ _ => split end.
    + exact G.
    + apply getRooms_populated. exact D.
    + unfold getSystem. rewrite (bind_return _ _ _ _ _ C), bind_get_state, D. reflexivity.
    + unfold getHotwater, try_except. rewrite (bind_return _ _ _ _ _ C).
      rewrite bind_get_state, D. reflexivity.
    + unfold getHeatingChannels.
      rewrite (bind_return _ _ _ _ _ C), bind_get_state, D. reflexivity.
    + unfold getDevices. rewrite (bind_return _ _ _ _ _ C), bind_get_state, D. reflexivity.
    + unfold getSmartPlugs. rewrite (bind_return _ _ _ _ _ C), (bind_return _ _ _ _ _ G).
      reflexivity.
  - intros items D.
    assert (N : wiserHubData s <> JNull) by (rewrite D; discriminate).
    pose proof (checkHubData_populated hub depth s N) as C.
    split.
    + unfold getHotwater, try_except. rewrite (bind_return _ _ _ _ _ C).
      rewrite bind_get_state, D. reflexivity.
    + unfold getSystem. rewrite (bind_return _ _ _ _ _ C), bind_get_state, D. reflexivity.
Qed.

Lemma reads_of_one_key_witness :
  getSystem unreachable 0 (loaded one_room) = (Return JNull, loaded one_room)
  /\ getHotwater unreachable 0 (loaded (JArr [])) = (Return JNull, loaded (JArr [])).
Proof.
  split.
  - apply (proj1 (reads_of_one_key unreachable 0 (loaded one_room))
             [("Room", JArr [JObj [("id", JInt 1); ("ScheduledSetPoint", JInt 30)]])]
             eq_refl).
  - apply (proj2 (reads_of_one_key unreachable 0 (loaded (JArr []))) [] eq_refl).
Defined.

(** ** The hub's name and address *)

(** X8.  [getMACAddress] never raises and never changes the object, not
    even on an object that has fetched nothing.  It answers the Station's
    MacAddress, [None] if the Station has none, when the network document is
    an object with an object under Station, and "NO_MAC_FOUND" in every
    other case. *)
Theorem getMACAddress_never_raises (s : State) :
  getMACAddress s =
  (Return match station s with
          | Some fields => dict_get fields "MacAddress"
          | None => JStr "NO_MAC_FOUND"
          end,
   s).
Proof.
  unfold getMACAddress, try_except, station. rewrite bind_get_state.
  destruct (wiserNetworkData s) as [| | | | | |network]; try reflexivity.
  cbn [py_get]. rewrite bind_ret.
  destruct (dict_get network "Station"); reflexivity.
Qed.

Lemma first_with_absent wanted items s :
  forallb (other_id wanted) items = true ->
  first_with "id" wanted (List.map JObj items) s = (Return None, s).
Proof.
  induction items as [| x rest IH]; intros O; [reflexivity |].
  cbn [forallb] in O. apply andb_true_iff in O. destruct O as [Ox O].
  unfold other_id in Ox. apply negb_true_iff in Ox.
  cbn [List.map first_with py_get]. rewrite bind_ret, Ox. apply IH. exact O.
Qed.

Lemma getDevice_found hub depth deviceId s fields before device after :
  wiserHubData s = JObj fields ->
  dict_get fields "Device" = JArr (List.map JObj before ++ JObj device :: after) ->
  forallb (other_id deviceId) before = true ->
  py_eq (dict_get device "id") deviceId = true ->
  getDevice hub depth deviceId s = (Return (JObj device), s).
Proof.
  intros Hd Hr Hb Hi.
  assert (Hn : wiserHubData s <> JNull) by (rewrite Hd; discriminate).
  unfold getDevice.
  rewrite (bind_return _ _ _ _ _ (checkHubData_populated hub depth s Hn)).
  forward. rewrite Hd. cbn [py_get]. forward. rewrite Hr. cbn [is_None].
  forward. rewrite Hd. cbn [py_get]. forward. rewrite Hr. cbn [py_iter].
  forward. rewrite (bind_return _ _ _ _ _ (first_with_found _ _ _ _ _ Hb Hi)).
  reflexivity.
Qed.

Lemma getDevice_absent hub depth deviceId s fields devices :
  wiserHubData s = JObj fields ->
  dict_get fields "Device" = JArr (List.map JObj devices) ->
  forallb (other_id deviceId) devices = true ->
  getDevice hub depth deviceId s
  = (Raise (WiserNotFound (mkFmt "Device {} not found " [FVal deviceId])), s).
Proof.
  intros Hd Hr Hb.
  assert (Hn : wiserHubData s <> JNull) by (rewrite Hd; discriminate).
  unfold getDevice.
  rewrite (bind_return _ _ _ _ _ (checkHubData_populated hub depth s Hn)).
  forward. rewrite Hd. cbn [py_get]. forward. rewrite Hr. cbn [is_None].
  forward. rewrite Hd. cbn [py_get]. forward. rewrite Hr. cbn [py_iter].
  forward. rewrite (bind_return _ _ _ _ _ (first_with_absent _ _ _ Hb)).
  reflexivity.
Qed.

Lemma getWiserHubName_fallback hub depth s :
  station s = None ->
  getWiserHubName hub depth s
  = bind (getDevice hub depth (JInt 0)) (fun device => py_get device "ModelIdentifier") s.
Proof.
  unfold getWiserHubName, try_except, station. rewrite bind_get_state.
  destruct (wiserNetworkData s) as [| | | | | |network]; try reflexivity.
  cbn [py_get]. rewrite bind_ret.
  destruct (dict_get network "Station"); try reflexivity. discriminate.
Qed.

(** X9.  [getWiserHubName] answers the Station's MdnsHostname ([None] if
    the Station has none) without looking at the domain cache, when the
    network document is an object with an object under Station.  In every
    other case it is [getDevice(0).get("ModelIdentifier")]: on a populated
    cache it returns the ModelIdentifier of the first device whose id is 0,
    and when the devices have no such id the [WiserNotFound] of [getDevice]
    reaches the caller, the [except] being around the first read only. *)
Theorem getWiserHubName_falls_back_on_device_0 (hub : Hub) (depth : nat) (s : State) :
  (forall fields,
     station s = Some fields ->
     getWiserHubName hub depth s = (Return (dict_get fields "MdnsHostname"), s))
  /\ (station s = None ->
      getWiserHubName hub depth s
      = bind (getDevice hub depth (JInt 0))
             (fun device => py_get device "ModelIdentifier") s)
  /\ (forall fields before device after,
        station s = None ->
        wiserHubData s = JObj fields ->
        dict_get fields "Device" = JArr (List.map JObj before ++ JObj device :: after) ->
        forallb (other_id (JInt 0)) before = true ->
        py_eq (dict_get device "id") (JInt 0) = true ->
        getWiserHubName hub depth s = (Return (dict_get device "ModelIdentifier"), s))
  /\ (forall fields devices,
        station s = None ->
        wiserHubData s = JObj fields ->
        dict_get fields "Device" = JArr (List.map JObj devices) ->
        forallb (other_id (JInt 0)) devices = true ->
        getWiserHubName hub depth s
        = (Raise (WiserNotFound (mkFmt "Device {} not found " [FVal (JInt 0)])), s)).
Proof.
  repeat match goal with |- _ /\ _ => split end.
  - intros fields St. unfold getWiserHubName, try_except. unfold station in St.
    rewrite bind_get_state.
    destruct (wiserNetworkData s) as [| | | | | |network]; try discriminate.
    cbn [py_get]. rewrite bind_ret.
    destruct (dict_get network "Station"); try discriminate.
    injection St as <-. reflexivity.
  - apply getWiserHubName_fallback.
  - intros fields before device after St Hd Hr Hb Hi.
    rewrite (getWiserHubName_fallback hub depth s St).
    rewrite (bind_return _ _ _ _ _
               (getDevice_found _ depth _ _ _ _ _ _ Hd Hr Hb Hi)).
    reflexivity.
  - intros fields devices St Hd Hr Hb.
    rewrite (getWiserHubName_fallback hub depth s St).
    rewrite (bind_raise _ _ _ _ _ (getDevice_absent _ depth _ _ _ _ Hd Hr Hb)).
    reflexivity.
Qed.

Lemma getWiserHubName_falls_back_on_device_0_witness :
  getWiserHubName unreachable 0 (loaded one_device)
  = (Return (JStr "WT714R1S0902"), loaded one_device)
  /\ getWiserHubName unreachable 0 (loaded one_room)
     = (Raise (WiserNoRoomsFound (plain "getRoom called but no rooms found")),
        snd (getWiserHubName unreachable 0 (loaded one_room))).
Proof.
  split.
  - apply (proj1 (proj2 (proj2 (getWiserHubName_falls_back_on_device_0 unreachable 0
                                  (loaded one_device))))
             [("Device", JArr [JObj [("id", JInt 0);
                                     ("ModelIdentifier", JStr "WT714R1S0902")]])]
             [] [("id", JInt 0); ("ModelIdentifier", JStr "WT714R1S0902")] []);
      reflexivity.
  - rewrite (proj1 (proj2 (getWiserHubName_falls_back_on_device_0 unreachable 0
                             (loaded one_room))) eq_refl).
    reflexivity.
Defined.

(** ** Looking an object up by its id *)

(** The loop of a look-up leaves the object alone; what it returns is an
    object of the list that has the wanted value under [key]. *)
Lemma first_with_inv key wanted items : forall s r s',
  first_with key wanted items s = (r, s') ->
  s' = s
  /\ forall x, r = Return (Some x) ->
       In x items
       /\ exists item, x = JObj item /\ py_eq (dict_get item key) wanted = true.
Proof.
  induction items as [| y rest IH]; intros s r s' H; cbn [first_with] in H.
  - injection H as <- <-. split; [reflexivity | discriminate].
  - destruct y; cbn [py_get] in H;
      try (injection H as <- <-; split; [reflexivity | discriminate]).
    rewrite bind_ret in H.
    destruct (py_eq (dict_get fields key) wanted) eqn:E.
    + injection H as <- <-. split; [reflexivity |].
      intros x X. injection X as <-. split; [left; reflexivity | eauto].
    + destruct (IH _ _ _ H) as [-> K]. split; [reflexivity |].
      intros x X. destruct (K x X) as [I J]. split; [right; exact I | exact J].
Qed.

(** Only a list holds objects: iterating a dict gives its keys and
    iterating a string its characters, which have no [get]. *)
Lemma iterated_object v items item s s' :
  py_iter v s = (Return items, s') -> In (JObj item) items -> v = JArr items.
Proof.
  intros H I. destruct (py_iter_inv _ _ _ _ H) as [_ [E | [(f & _ & E) | (str & _ & E)]]].
  - exact E.
  - subst items. apply in_map_iff in I. destruct I as (kv & K & _). discriminate.
  - subst items. unfold chars in I. apply in_map_iff in I.
    destruct I as (c & K & _). discriminate.
Qed.

Lemma checkHubData_returned hub depth s s' :
  checkHubData hub depth s = (Return tt, s') -> wiserHubData s' <> JNull.
Proof.
  unfold checkHubData, checkHubData_. intros H.
  apply bind_inv in H. destruct H as (a & s1 & _ & H).
  apply bind_inv in H. destruct H as (u & s2 & _ & H).
  rewrite bind_get_state in H.
  destruct (is_None (wiserHubData s2)) eqn:N; [discriminate |].
  injection H as <-. intros K. rewrite K in N. discriminate.
Qed.

Lemma getRoom_returned hub depth roomId s room s' :
  getRoom hub depth roomId s = (Return room, s') -> found_in "Room" roomId room s'.
Proof.
  unfold getRoom. intros H.
  apply bind_inv in H. destruct H as ([] & s1 & _ & H).
  rewrite bind_get_state in H.
  apply bind_inv in H. destruct H as (rooms & s2 & G & H).
  apply py_get_inv in G. destruct G as (-> & fields & D & ->).
  destruct (is_None (dict_get fields "Room")).
  { rewrite bind_log in H. discriminate. }
  apply bind_inv in H. destruct H as (items & s2 & It & H).
  pose proof (proj1 (py_iter_inv _ _ _ _ It)) as ->.
  apply bind_inv in H. destruct H as (found & s2 & Fw & H).
  destruct (first_with_inv _ _ _ _ _ _ Fw) as [-> K].
  destruct found as [x |]; [| discriminate]. injection H as <- <-.
  destruct (K x eq_refl) as [I (item & -> & E)].
  exists fields, items, item. repeat split; auto.
  eapply iterated_object; eauto.
Qed.

Lemma py_getitem_returned v k x s s' :
  py_getitem v k s = (Return x, s') ->
  s' = s /\ exists fields, v = JObj fields /\ x = dict_get fields k.
Proof.
  intros H. destruct (py_getitem_inv _ _ _ _ _ H) as (fields & E & A & ->).
  split; [reflexivity |]. exists fields. split; [exact E |].
  unfold dict_get. rewrite A. reflexivity.
Qed.

Lemma getHubData_returned hub depth s data s' :
  getHubData hub depth s = (Return data, s') ->
  data = wiserHubData s' /\ wiserHubData s' <> JNull.
Proof.
  unfold getHubData. intros H.
  apply bind_inv in H. destruct H as ([] & s1 & C & H).
  rewrite bind_get_state in H. injection H as <- <-.
  split; [reflexivity | eapply checkHubData_returned; exact C].
Qed.

Lemma getDevice_returned hub depth deviceId s device s' :
  getDevice hub depth deviceId s = (Return device, s') ->
  found_in "Device" deviceId device s'.
Proof.
  unfold getDevice. intros H.
  apply bind_inv in H. destruct H as ([] & s1 & _ & H).
  rewrite bind_get_state in H.
  apply bind_inv in H. destruct H as (devices & s2 & G & H).
  apply py_get_inv in G. destruct G as (-> & fields & D & ->).
  destruct (is_None (dict_get fields "Device")).
  { rewrite bind_log in H. discriminate. }
  rewrite bind_get_state, D in H. cbn [py_get] in H. rewrite bind_ret in H.
  apply bind_inv in H. destruct H as (items & s2 & It & H).
  pose proof (proj1 (py_iter_inv _ _ _ _ It)) as ->.
  apply bind_inv in H. destruct H as (found & s2 & Fw & H).
  destruct (first_with_inv _ _ _ _ _ _ Fw) as [-> K].
  destruct found as [x |]; [| discriminate]. injection H as <- <-.
  destruct (K x eq_refl) as [I (item & -> & E)].
  exists fields, items, item. repeat split; auto.
  eapply iterated_object; eauto.
Qed.

Lemma getRoomStatData_returned hub depth deviceId s roomStat s' :
  getRoomStatData hub depth deviceId s = (Return roomStat, s') ->
  found_in "RoomStat" deviceId roomStat s'.
Proof.
  unfold getRoomStatData. intros H.
  apply bind_inv in H. destruct H as ([] & s1 & _ & H).
  rewrite bind_get_state in H.
  apply bind_inv in H. destruct H as (stats & s2 & G & H).
  pose proof G as G'.
  apply py_getitem_returned in G. destruct G as (-> & fields & D & ->).
  destruct (is_None (dict_get fields "RoomStat")).
  { rewrite bind_log in H. discriminate. }
  rewrite bind_get_state in H. rewrite (bind_return _ _ _ _ _ G') in H.
  apply bind_inv in H. destruct H as (items & s2 & It & H).
  pose proof (proj1 (py_iter_inv _ _ _ _ It)) as ->.
  apply bind_inv in H. destruct H as (found & s2 & Fw & H).
  destruct (first_with_inv _ _ _ _ _ _ Fw) as [-> K].
  destruct found as [x |]; [| discriminate]. injection H as <- <-.
  destruct (K x eq_refl) as [I (item & -> & E)].
  exists fields, items, item. repeat split; auto.
  eapply iterated_object; eauto.
Qed.

Lemma getSmartPlug_returned hub depth smartPlugId s plug s' :
  getSmartPlug hub depth smartPlugId s = (Return plug, s') ->
  found_in "SmartPlug" smartPlugId plug s'.
Proof.
  unfold getSmartPlug. intros H.
  apply bind_inv in H. destruct H as ([] & s1 & _ & H).
  apply bind_inv in H. destruct H as (data & s2 & Hd & H).
  destruct (getHubData_returned _ _ _ _ _ Hd) as [-> N].
  apply bind_inv in H. destruct H as (plugs & s3 & G & H).
  apply py_get_inv in G. destruct G as (-> & fields & D & ->).
  apply bind_inv in H. destruct H as (returned & s3 & L & H).
  destruct returned as [x |]; [| discriminate]. injection H as <- <-.
  destruct (is_None (dict_get fields "SmartPlug")); [discriminate |].
  cbn [negb] in L.
  rewrite (bind_return _ _ _ _ _ (getHubData_populated hub depth s2 N)) in L.
  rewrite D in L. cbn [py_get] in L. rewrite bind_ret in L.
  apply bind_inv in L. destruct L as (items & s4 & It & L).
  pose proof (proj1 (py_iter_inv _ _ _ _ It)) as ->.
  destruct (first_with_inv _ _ _ _ _ _ L) as [-> K].
  destruct (K x eq_refl) as [I (item & -> & E)].
  exists fields, items, item. repeat split; auto.
  eapply iterated_object; eauto.
Qed.

(** X10.  What [getRoom], [getDevice], [getRoomStatData] and [getSmartPlug]
    return is never [None]: it is an object of the list that the domain
    cache holds under Room, Device, RoomStat and SmartPlug, and its id
    equals the one asked for. *)
Theorem lookups_return_a_matching_object
    (hub : Hub) (depth : nat) (id : Json) (s : State) (x : Json) (s' : State) :
  (getRoom hub depth id s = (Return x, s') -> found_in "Room" id x s')
  /\ (getDevice hub depth id s = (Return x, s') -> found_in "Device" id x s')
  /\ (getRoomStatData hub depth id s = (Return x, s') -> found_in "RoomStat" id x s')
  /\ (getSmartPlug hub depth id s = (Return x, s') -> found_in "SmartPlug" id x s').
Proof.
  repeat split.
  - apply getRoom_returned.
  - apply getDevice_returned.
  - apply getRoomStatData_returned.
  - apply getSmartPlug_returned.
Qed.

Lemma lookups_return_a_matching_object_witness :
  found_in "Room" (JInt 1)
    (JObj [("id", JInt 1); ("ScheduledSetPoint", JInt 30)]) (loaded one_room).
Proof.
  apply (proj1 (lookups_return_a_matching_object unreachable 0 (JInt 1)
                  (loaded one_room) _ (loaded one_room))).
  reflexivity.
Defined.

(** ** Look-ups that fail *)

(** X11.  How the look-ups fail on a populated cache.  Without a list
    under its key [getRoom] and [getDevice] raise [WiserNoRoomsFound] after
    a warning, [getSmartPlug] raises [WiserNotFound], and [getRoomStatData]
    raises [KeyError] when the key RoomStat is missing and [WiserNotFound]
    when it holds [None].  With a list of objects none of which has the id,
    all four raise [WiserNotFound].  Nothing is sent. *)
Theorem lookups_that_fail
    (hub : Hub) (depth : nat) (id : Json) (s : State) (fields : list (string * Json))
    (D : wiserHubData s = JObj fields) :
  (dict_get fields "Room" = JNull ->
   fst (getRoom hub depth id s)
   = Raise (WiserNoRoomsFound (plain "No rooms found in Wiser payload")))
  /\ (dict_get fields "Device" = JNull ->
      fst (getDevice hub depth id s)
      = Raise (WiserNoRoomsFound (plain "getRoom called but no rooms found")))
  /\ (dict_get fields "SmartPlug" = JNull ->
      fst (getSmartPlug hub depth id s)
      = Raise (WiserNotFound (mkFmt "Unable to find smartPlug {}" [FVal id])))
  /\ (assoc "RoomStat" fields = None ->
      getRoomStatData hub depth id s = (Raise (KeyError (JStr "RoomStat")), s))
  /\ (assoc "RoomStat" fields = Some JNull ->
      fst (getRoomStatData hub depth id s)
      = Raise (WiserNotFound (mkFmt "deviceID {} not found " [FVal id])))
  /\ (forall items,
        forallb (other_id id) items = true ->
        (dict_get fields "Room" = JArr (List.map JObj items) ->
         getRoom hub depth id s
         = (Raise (WiserNotFound (mkFmt "Room {} not found" [FVal id])), s))
        /\ (dict_get fields "Device" = JArr (List.map JObj items) ->
            getDevice hub depth id s
            = (Raise (WiserNotFound (mkFmt "Device {} not found " [FVal id])), s))
        /\ (dict_get fields "SmartPlug" = JArr (List.map JObj items) ->
            getSmartPlug hub depth id s
            = (Raise (WiserNotFound (mkFmt "Unable to find smartPlug {}" [FVal id])), s))
        /\ (dict_get fields "RoomStat" = JArr (List.map JObj items) ->
            assoc "RoomStat" fields <> None ->
            getRoomStatData hub depth id s
            = (Raise (WiserNotFound
                        (mkFmt "getRoomStatData for deviceID {} not found due"
                               [FVal id])), s))).
Proof.
  assert (N : wiserHubData s <> JNull) by (rewrite D; discriminate).
  pose proof (checkHubData_populated hub depth s N) as C.
  pose proof (getHubData_populated hub depth s N) as G. rewrite D in G.
  repeat match goal with |- _ /\ _ => split end.
  - intros Z. unfold getRoom.
    rewrite (bind_return _ _ _ _ _ C), bind_get_state, D. cbn [py_get].
    rewrite bind_ret, Z. reflexivity.
  - intros Z. unfold getDevice.
    rewrite (bind_return _ _ _ _ _ C), bind_get_state, D. cbn [py_get].
    rewrite bind_ret, Z. reflexivity.
  - intros Z. unfold getSmartPlug.
    rewrite (bind_return _ _ _ _ _ C), (bind_return _ _ _ _ _ G). cbn [py_get].
    rewrite bind_ret, Z. reflexivity.
  - intros Z. unfold getRoomStatData.
    rewrite (bind_return _ _ _ _ _ C), bind_get_state, D. cbn [py_getitem].
    rewrite Z. reflexivity.
  - intros Z. unfold getRoomStatData.
    rewrite (bind_return _ _ _ _ _ C), bind_get_state, D. cbn [py_getitem].
    rewrite Z. reflexivity.
  - intros items O. repeat match goal with |- _ /\ _ => split end.
    + intros L. unfold getRoom.
      rewrite (bind_return _ _ _ _ _ C), bind_get_state, D. cbn [py_get].
      rewrite bind_ret, L. cbn [is_None py_iter]. rewrite bind_ret.
      rewrite (bind_return _ _ _ _ _ (first_with_absent _ _ _ O)). reflexivity.
    + intros L. unfold getDevice.
      rewrite (bind_return _ _ _ _ _ C), bind_get_state, D. cbn [py_get].
      rewrite bind_ret, L. cbn [is_None]. rewrite bind_get_state, D. cbn [py_get].
      rewrite bind_ret, L. cbn [py_iter]. rewrite bind_ret.
      rewrite (bind_return _ _ _ _ _ (first_with_absent _ _ _ O)). reflexivity.
    + intros L. unfold getSmartPlug.
      rewrite (bind_return _ _ _ _ _ C), (bind_return _ _ _ _ _ G). cbn [py_get].
      rewrite bind_ret, L. cbn [is_None negb]. rewrite bind_assoc.
      rewrite (bind_return _ _ _ _ _ G). cbn [py_get]. forward. rewrite L.
      cbn [py_iter]. forward.
      rewrite (bind_return _ _ _ _ _ (first_with_absent _ _ _ O)). reflexivity.
    + intros L A. unfold getRoomStatData. unfold dict_get in L.
      destruct (assoc "RoomStat" fields) as [v |] eqn:AE; [| contradiction]. subst v.
      rewrite (bind_return _ _ _ _ _ C), bind_get_state, D. cbn [py_getitem].
      rewrite AE, bind_ret. cbn [is_None]. rewrite bind_get_state, D. cbn [py_getitem].
      rewrite AE, bind_ret. cbn [py_iter]. rewrite bind_ret.
      rewrite (bind_return _ _ _ _ _ (first_with_absent _ _ _ O)). reflexivity.
Qed.

Lemma lookups_that_fail_witness :
  getRoomStatData unreachable 0 (JInt 1) (loaded one_room)
  = (Raise (KeyError (JStr "RoomStat")), loaded one_room)
  /\ getRoom unreachable 0 (JInt 2) (loaded one_room)
     = (Raise (WiserNotFound (mkFmt "Room {} not found" [FVal (JInt 2)])),
        loaded one_room).
Proof.
  pose proof (lookups_that_fail unreachable 0 (JInt 1) (loaded one_room)
                [("Room", JArr [JObj [("id", JInt 1); ("ScheduledSetPoint", JInt 30)]])]
                eq_refl) as (_ & _ & _ & K & _).
  pose proof (lookups_that_fail unreachable 0 (JInt 2) (loaded one_room)
                [("Room", JArr [JObj [("id", JInt 1); ("ScheduledSetPoint", JInt 30)]])]
                eq_refl) as (_ & _ & _ & _ & _ & R).
  split.
  - apply K. reflexivity.
  - apply (proj1 (R [[("id", JInt 1); ("ScheduledSetPoint", JInt 30)]] eq_refl)).
    reflexivity.
Defined.

(** ** The smart plug reads agree *)

Lemma bind_ext {A B} (m : M A) (f g : A -> M B) s :
  (forall a s1, f a s1 = g a s1) -> bind m f s = bind m g s.
Proof.
  intros H. unfold bind. destruct (m s) as [[a | e] s1]; [apply H | reflexivity].
Qed.

Lemma bind_ret_r {A} (m : M A) s : bind m (fun a => ret a) s = m s.
Proof. unfold bind, ret. destruct (m s) as [[a | e] s1]; reflexivity. Qed.

Lemma plug_mode_loop_first_with smartPlugId plugs : forall s,
  bind (plug_mode_loop smartPlugId plugs) (found_or_raise smartPlugId) s
  = bind (bind (first_with "id" smartPlugId plugs) (found_or_raise smartPlugId))
         (fun plug => py_get plug "Mode") s.
Proof.
  induction plugs as [| p rest IH]; intros s; cbn [plug_mode_loop first_with].
  - reflexivity.
  - rewrite !bind_assoc. apply bind_ext. intros pid s1. cbv beta.
    destruct (py_eq pid smartPlugId).
    + rewrite bind_assoc. rewrite !bind_ret. cbn [found_or_raise].
      rewrite bind_ret. apply (bind_ret_r (py_get p "Mode")).
    + rewrite <- bind_assoc. apply IH.
Qed.

Lemma plug_state_loop_first_with smartPlugId plugs : forall s,
  bind (plug_state_loop smartPlugId plugs) (found_or_raise smartPlugId) s
  = bind (bind (first_with "id" smartPlugId plugs) (found_or_raise smartPlugId))
         (scheduled_state smartPlugId) s.
Proof.
  induction plugs as [| p rest IH]; intros s; cbn [plug_state_loop first_with].
  - reflexivity.
  - rewrite !bind_assoc. apply bind_ext. intros pid s1. cbv beta.
    destruct (py_eq pid smartPlugId).
    + rewrite !bind_ret. cbn [found_or_raise]. rewrite bind_ret.
      unfold scheduled_state. rewrite !bind_assoc.
      apply bind_ext. intros output s2. cbv beta.
      destruct (is_None output); [reflexivity |].
      rewrite bind_assoc.
      rewrite (bind_ext _ _ (fun a => ret a)); [apply bind_ret_r |].
      intros a s3. reflexivity.
    + rewrite <- bind_assoc. apply IH.
Qed.

(** X12.  The three reads of a smart plug agree on the plug they mean:
    [getSmartPlugMode(id)] is [getSmartPlug(id).get("Mode")], and
    [getSmartPlugState(id)] is the ScheduledState of [getSmartPlug(id)], or
    [WiserNotFound] when that plug has no OutputState; with the same
    requests, the same log and the same exception when the look-up fails. *)
Theorem smart_plug_reads_agree (hub : Hub) (depth : nat) (smartPlugId : Json) (s : State) :
  getSmartPlugMode hub depth smartPlugId s
  = bind (getSmartPlug hub depth smartPlugId) (fun plug => py_get plug "Mode") s
  /\ getSmartPlugState hub depth smartPlugId s
     = bind (getSmartPlug hub depth smartPlugId) (scheduled_state smartPlugId) s.
Proof.
  unfold getSmartPlugMode, getSmartPlugState, getSmartPlug.
  fold (found_or_raise smartPlugId).
  split.
  - rewrite !bind_assoc. apply bind_ext. intros [] s1. cbv beta.
    rewrite !bind_assoc. apply bind_ext. intros data s2. cbv beta.
    rewrite !bind_assoc. apply bind_ext. intros plugs s3. cbv beta.
    destruct (is_None plugs); cbn [negb].
    + rewrite !bind_ret. reflexivity.
    + rewrite !bind_assoc. apply bind_ext. intros data' s4. cbv beta.
      rewrite !bind_assoc. apply bind_ext. intros plugs' s5. cbv beta.
      rewrite !bind_assoc. apply bind_ext. intros items s6. cbv beta.
      rewrite <- bind_assoc. apply plug_mode_loop_first_with.
  - rewrite !bind_assoc. apply bind_ext. intros [] s1. cbv beta.
    rewrite !bind_assoc. apply bind_ext. intros data s2. cbv beta.
    rewrite !bind_assoc. apply bind_ext. intros plugs s3. cbv beta.
    destruct (is_None plugs); cbn [negb].
    + rewrite !bind_ret. reflexivity.
    + rewrite !bind_assoc. apply bind_ext. intros data' s4. cbv beta.
      rewrite !bind_assoc. apply bind_ext. intros plugs' s5. cbv beta.
      rewrite !bind_assoc. apply bind_ext. intros items s6. cbv beta.
      rewrite <- bind_assoc. apply plug_state_loop_first_with.
Qed.

(** ** Hot water *)

Lemma py_item0_truthy v s r s' :
  py_truthy v = true -> py_item0 v s = (Return r, s') -> exists x, r = Item x.
Proof.
  destruct v as [| | | | str | [| x l] |]; cbn; intros T H; try discriminate.
  - destruct str; [discriminate |]. injection H as <- _. eauto.
  - injection H as <- _. eauto.
Qed.

(** X13.  [getHotwaterRelayStatus] never fails with [IndexError]: it takes
    the first item only of something that is not empty.  On a populated
    cache it answers [False] when the document has nothing, or nothing
    true, under HotWater (no key, [None], an empty list), and the
    WaterHeatingState of the first heater when HotWater is a list that
    starts with an object; it changes nothing. *)
Theorem getHotwaterRelayStatus_first_heater (hub : Hub) (depth : nat) (s : State) :
  fst (getHotwaterRelayStatus hub depth s) <> Return IndexError
  /\ (forall fields,
        wiserHubData s = JObj fields ->
        py_truthy (dict_get fields "HotWater") = false ->
        getHotwaterRelayStatus hub depth s = (Return (Item (JBool false)), s))
  /\ (forall fields heater rest,
        wiserHubData s = JObj fields ->
        dict_get fields "HotWater" = JArr (JObj heater :: rest) ->
        getHotwaterRelayStatus hub depth s
        = (Return (Item (dict_get heater "WaterHeatingState")), s)).
Proof.
  split; [| split].
  - intros H. unfold getHotwaterRelayStatus in H.
    destruct (bind _ _ s) as [r s'] eqn:R in H. cbn [fst] in H. subst r.
    apply bind_inv in R. destruct R as ([] & s1 & _ & R).
    rewrite bind_get_state in R.
    apply bind_inv in R. destruct R as (hotWater & s2 & G & R).
    apply py_get_inv in G. destruct G as (-> & fields & D & ->).
    destruct (py_truthy (dict_get fields "HotWater")) eqn:T; cbn [negb] in R;
      [| discriminate].
    rewrite bind_get_state, D in R. cbn [py_get] in R. rewrite bind_ret in R.
    apply bind_inv in R. destruct R as (first & s2 & It & R).
    destruct (py_item0_truthy _ _ _ _ T It) as [x ->].
    apply bind_inv in R. destruct R as (state & s3 & _ & R). discriminate.
  - intros fields D T.
    assert (N : wiserHubData s <> JNull) by (rewrite D; discriminate).
    unfold getHotwaterRelayStatus.
    rewrite (bind_return _ _ _ _ _ (checkHubData_populated hub depth s N)).
    forward. rewrite D. cbn [py_get]. forward. rewrite T. reflexivity.
  - intros fields heater rest D E.
    assert (N : wiserHubData s <> JNull) by (rewrite D; discriminate).
    unfold getHotwaterRelayStatus.
    rewrite (bind_return _ _ _ _ _ (checkHubData_populated hub depth s N)).
    forward. rewrite D. cbn [py_get]. forward. rewrite E. cbn [py_truthy negb].
    forward. rewrite D. cbn [py_get]. forward. rewrite E. reflexivity.
Qed.

Lemma getHotwaterRelayStatus_first_heater_witness :
  getHotwaterRelayStatus unreachable 0 (loaded (JObj [("HotWater", JArr [])]))
  = (Return (Item (JBool false)), loaded (JObj [("HotWater", JArr [])]))
  /\ getHotwaterRelayStatus unreachable 0
       (loaded (JObj [("HotWater", JArr [JObj [("WaterHeatingState", JStr "On")]])]))
     = (Return (Item (JStr "On")),
        loaded (JObj [("HotWater", JArr [JObj [("WaterHeatingState", JStr "On")]])])).
Proof.
  split.
  - apply (proj1 (proj2 (getHotwaterRelayStatus_first_heater unreachable 0 _))
             [("HotWater", JArr [])]); reflexivity.
  - apply (proj2 (proj2 (getHotwaterRelayStatus_first_heater unreachable 0 _))
             [("HotWater", JArr [JObj [("WaterHeatingState", JStr "On")]])]
             [("WaterHeatingState", JStr "On")] []); reflexivity.
Defined.

(** ** Room schedules *)

Lemma getRoom_offline hub depth roomId s r s' :
  wiserHubData s <> JNull ->
  getRoom hub depth roomId s = (r, s') ->
  wiserHubData s' = wiserHubData s /\ sent s' = sent s.
Proof.
  intros N H. pose proof (offline_getRoom hub depth roomId s N) as L.
  rewrite H in L. destruct L as (A & _ & _ & _ & B & _). auto.
Qed.

(** X14.  A schedule that [getRoomSchedule] returns is an object of the
    list that the domain cache holds under Schedule, and its id equals the
    ScheduleId of a room of the cache that has the id asked for: the method
    never returns [None]. *)
Theorem getRoomSchedule_returns_the_schedule_of_the_room
    (hub : Hub) (depth : nat) (roomId : Json) (s : State) (schedule : Json) (s' : State) :
  getRoomSchedule hub depth roomId s = (Return schedule, s') ->
  exists room,
    found_in "Room" roomId (JObj room) s'
    /\ dict_get room "ScheduleId" <> JNull
    /\ found_in "Schedule" (dict_get room "ScheduleId") schedule s'.
Proof.
  unfold getRoomSchedule. intros H.
  apply bind_inv in H. destruct H as ([] & s1 & C & H).
  pose proof (checkHubData_returned _ _ _ _ C) as N1.
  apply bind_inv in H. destruct H as (room0 & s2 & R0 & H).
  destruct (getRoom_offline _ _ _ _ _ _ N1 R0) as [D2 _].
  destruct (is_None room0); [discriminate |].
  apply bind_inv in H. destruct H as (room & s3 & R & H).
  pose proof (getRoom_returned _ _ _ _ _ _ R) as Fr.
  apply bind_inv in H. destruct H as (scheduleId & s4 & G & H).
  apply py_get_inv in G. destruct G as (-> & item & -> & ->).
  destruct (is_None (dict_get item "ScheduleId")) eqn:Z; cbn [negb] in H;
    [discriminate |].
  rewrite bind_get_state in H.
  apply bind_inv in H. destruct H as (schedules & s4 & G & H).
  apply py_get_inv in G. destruct G as (-> & fields & D & ->).
  apply bind_inv in H. destruct H as (items & s4 & It & H).
  pose proof (proj1 (py_iter_inv _ _ _ _ It)) as ->.
  apply bind_inv in H. destruct H as (found & s4 & Fw & H).
  destruct (first_with_inv _ _ _ _ _ _ Fw) as [-> K].
  destruct found as [x |]; [| discriminate]. injection H as <- <-.
  destruct (K x eq_refl) as [I (sched & -> & E)].
  exists item. split; [exact Fr | split].
  - intros J. rewrite J in Z. discriminate.
  - exists fields, items, sched. repeat split; auto.
    eapply iterated_object; eauto.
Qed.

Lemma getRoomSchedule_returns_the_schedule_of_the_room_witness :
  exists room,
    found_in "Room" (JInt 1) (JObj room) (loaded scheduled_home)
    /\ dict_get room "ScheduleId" <> JNull
    /\ found_in "Schedule" (dict_get room "ScheduleId") (JObj schedule5)
         (loaded scheduled_home).
Proof.
  apply (getRoomSchedule_returns_the_schedule_of_the_room unreachable 0 (JInt 1)
           (loaded scheduled_home)).
  reflexivity.
Defined.

(** X15.  How [getRoomSchedule] fails on a populated cache that has the
    room.  A room without ScheduleId gives [WiserNotFound]; so does a
    ScheduleId that no schedule of the list has.  A cache without the
    Schedule key, which is what [updateHubData] leaves when it is called
    without [refreshData], gives the [TypeError] of a loop over [None].
    Nothing is sent, nothing is changed. *)
Theorem getRoomSchedule_failures
    (hub : Hub) (depth : nat) (roomId : Json) (s : State)
    (fields : list (string * Json)) (before : list (list (string * Json)))
    (room : list (string * Json)) (after : list Json)
    (Hd : wiserHubData s = JObj fields)
    (Hr : dict_get fields "Room" = JArr (List.map JObj before ++ JObj room :: after))
    (Hb : forallb (other_id roomId) before = true)
    (Hi : py_eq (dict_get room "id") roomId = true) :
  let not_found :=
    Raise (WiserNotFound
             (mkFmt "getRoomSchedule for room {} not found " [FVal roomId])) in
  (dict_get room "ScheduleId" = JNull ->
   getRoomSchedule hub depth roomId s = (not_found, s))
  /\ (dict_get room "ScheduleId" <> JNull ->
      dict_get fields "Schedule" = JNull ->
      getRoomSchedule hub depth roomId s = (Raise (TypeError "not iterable"), s))
  /\ (forall schedules,
        dict_get room "ScheduleId" <> JNull ->
        dict_get fields "Schedule" = JArr (List.map JObj schedules) ->
        forallb (other_id (dict_get room "ScheduleId")) schedules = true ->
        getRoomSchedule hub depth roomId s = (not_found, s)).
Proof.
  assert (N : wiserHubData s <> JNull) by (rewrite Hd; discriminate).
  assert (G : getRoom hub depth roomId s = (Return (JObj room), s))
    by (eapply getRoom_found; eauto).
  cbv zeta. unfold getRoomSchedule.
  rewrite (bind_return _ _ _ _ _ (checkHubData_populated hub depth s N)).
  rewrite (bind_return _ _ _ _ _ G). cbn [is_None].
  rewrite (bind_return _ _ _ _ _ G). cbn [py_get]. rewrite bind_ret.
  split; [| split].
  - intros Z. rewrite Z. reflexivity.
  - intros Z S.
    destruct (is_None (dict_get room "ScheduleId")) eqn:E;
      [apply is_None_true in E; contradiction |].
    cbn [negb]. rewrite bind_get_state, Hd. cbn [py_get]. rewrite bind_ret, S.
    reflexivity.
  - intros schedules Z S O.
    destruct (is_None (dict_get room "ScheduleId")) eqn:E;
      [apply is_None_true in E; contradiction |].
    cbn [negb]. rewrite bind_get_state, Hd. cbn [py_get]. rewrite bind_ret, S.
    cbn [py_iter]. rewrite bind_ret.
    assert (Fw : first_with "id" (dict_get room "ScheduleId")
                   (List.map JObj schedules) s = (Return None, s)).
    { clear S. induction schedules as [| x rest IH]; [reflexivity |].
      cbn [forallb] in O. apply andb_true_iff in O. destruct O as [Ox O].
      unfold other_id in Ox. apply negb_true_iff in Ox.
      cbn [List.map first_with py_get]. rewrite bind_ret, Ox. apply IH. exact O. }
    rewrite (bind_return _ _ _ _ _ Fw). reflexivity.
Qed.

Lemma getRoomSchedule_failures_witness :
  getRoomSchedule unreachable 0 (JInt 1) (loaded one_room)
  = (Raise (WiserNotFound
              (mkFmt "getRoomSchedule for room {} not found " [FVal (JInt 1)])),
     loaded one_room).
Proof.
  apply (proj1 (getRoomSchedule_failures unreachable 0 (JInt 1) (loaded one_room)
                  [("Room", JArr [JObj [("id", JInt 1); ("ScheduledSetPoint", JInt 30)]])]
                  [] [("id", JInt 1); ("ScheduledSetPoint", JInt 30)] []
                  eq_refl eq_refl eq_refl eq_refl)).
  reflexivity.
Defined.

(** ** The device index after a refresh *)

Lemma py_eq_refl k : hashable k = true -> py_eq k k = true.
Proof.
  destruct k as [| [] | z | q | str | |]; cbn; intros H; try discriminate;
    try reflexivity.
  - apply Qeq_bool_iff. reflexivity.
  - apply Qeq_bool_iff. reflexivity.
  - apply String.eqb_refl.
Qed.

Lemma find_store_same k v d : py_eq k k = true -> find k (store k v d) = Some v.
Proof.
  intros E. induction d as [| [k0 v0] rest IH]; cbn.
  - rewrite E. reflexivity.
  - destruct (py_eq k0 k) eqn:K; cbn; rewrite K; [reflexivity | exact IH].
Qed.

Lemma map_store_stored k v s s' :
  map_store k v s = (Return tt, s') -> stored k s'.
Proof.
  unfold map_store. destruct (hashable k) eqn:H; [| discriminate].
  rewrite bind_get_state. intros R. injection R as <-.
  split; [exact H |]. exists v. cbn. apply find_store_same, py_eq_refl, H.
Qed.

(** What runs after a key is stored keeps it. *)
Lemma stored_kept {A} (m : M A) k s r s' :
  holds (indexed k) anything m s -> m s = (r, s') -> stored k s -> stored k s'.
Proof.
  intros H R [Hh Hi]. split; [exact Hh |].
  destruct (H Hi) as [K _]. rewrite R in K. exact K.
Qed.

Lemma valves_stored room valves : forall s s' v,
  for_each valves (fun valveId => entry <- room_entry room ;; map_store valveId entry) s
  = (Return tt, s') ->
  In v valves -> stored v s'.
Proof.
  induction valves as [| x rest IH]; intros s s' v R I; [destruct I |].
  cbn [for_each] in R.
  apply bind_inv in R. destruct R as ([] & s1 & R1 & R).
  destruct I as [<- | I]; [| eapply IH; eauto].
  apply bind_inv in R1. destruct R1 as (entry & s0 & _ & R1).
  apply map_store_stored in R1.
  eapply stored_kept; [| exact R | exact R1].
  apply holds_for_each. intros y t. frame.
Qed.

Lemma index_room_stored room s s' :
  index_room (JObj room) s = (Return tt, s') ->
  (dict_get room "RoomStatId" <> JNull -> stored (dict_get room "RoomStatId") s')
  /\ (forall valves v,
        dict_get room "SmartValveIds" = JArr valves -> In v valves -> stored v s').
Proof.
  unfold index_room. cbn [py_get]. rewrite bind_ret. intros R.
  apply bind_inv in R. destruct R as ([] & s1 & R1 & R).
  rewrite bind_ret in R.
  apply bind_inv in R. destruct R as ([] & s2 & R2 & R).
  assert (Last : forall k, stored k s2 -> stored k s').
  { intros k K. eapply stored_kept; [| exact R | exact K]. frame. }
  split.
  - intros N. apply Last.
    destruct (is_None (dict_get room "RoomStatId")) eqn:Z;
      [apply is_None_true in Z; contradiction |].
    cbn [negb] in R1.
    apply bind_inv in R1. destruct R1 as (entry & s0 & _ & R1).
    apply map_store_stored in R1.
    eapply stored_kept; [| exact R2 | exact R1].
    frame. apply holds_for_each. intros y t. frame.
  - intros valves v V I. apply Last. rewrite V in R2. cbn [is_None negb py_iter] in R2.
    rewrite bind_ret in R2. eapply valves_stored; eauto.
Qed.

Lemma rooms_stored rooms room : forall s s',
  for_each rooms index_room s = (Return tt, s') ->
  In (JObj room) rooms ->
  (dict_get room "RoomStatId" <> JNull -> stored (dict_get room "RoomStatId") s')
  /\ (forall valves v,
        dict_get room "SmartValveIds" = JArr valves -> In v valves -> stored v s').
Proof.
  induction rooms as [| x rest IH]; intros s s' R I; [destruct I |].
  cbn [for_each] in R.
  apply bind_inv in R. destruct R as ([] & s1 & R1 & R).
  destruct I as [-> | I]; [| eapply IH; eauto].
  destruct (index_room_stored _ _ _ R1) as [A B].
  assert (Rest : forall k, stored k s1 -> stored k s').
  { intros k K. eapply stored_kept; [| exact R | exact K].
    apply holds_for_each. intros y t. apply holds_index_room. }
  split.
  - intros N. apply Rest, A, N.
  - intros valves v V Iv. apply Rest. eapply B; eauto.
Qed.
Lemma find_known hub k entry s :
  wiserHubData s <> JNull -> hashable k = true ->
  find k (device2roomMap s) = Some entry ->
  forall depth,
    fst (getDeviceRoom hub depth k s) = Return entry
    /\ sent (snd (getDeviceRoom hub depth k s)) = sent s.
Proof.
  intros N H F depth. unfold getDeviceRoom.
  rewrite (bind_return _ _ _ _ _ (checkHubData_populated hub depth s N)).
  forward. cbn [snd _LOGGER device2roomMap].
  destruct (device2roomMap s) as [| e rest] eqn:E; [discriminate |].
  forward. cbn [device2roomMap]. rewrite H, F. split; reflexivity.
Qed.

Lemma stored_known hub k s :
  wiserHubData s <> JNull -> stored k s -> known_device hub k s.
Proof.
  intros N [H [entry F]]. exists entry. apply find_known; assumption.
Qed.

(** The rooms that a refresh has gone through are those of the document it
    leaves in the cache, and the index it leaves is the one the loop made. *)
Lemma refreshData_loop hub depth s data s' :
  refreshData hub (S depth) s = (Return data, s') ->
  exists fields,
    wiserHubData s' = JObj fields
    /\ forall items,
         dict_get fields "Room" = JArr items ->
         exists sR sF,
           for_each items index_room sR = (Return tt, sF)
           /\ device2roomMap s' = device2roomMap sF.
Proof.
  intros H.
  destruct (refreshData_anatomy _ _ _ _ _ H)
    as (s3 & s4 & r & doc & fields4 & schedules & heating
        & _ & _ & _ & _ & _ & _ & _ & _ & _ & _ & _ & _ & -> & D' & L).
  exists (dict_set "Schedule" heating fields4). split; [exact D' |].
  intros items Hr. rewrite dict_get_dict_set_other in Hr by reflexivity.
  destruct (L _ Hr) as (sF & Fe & M & _). eauto.
Qed.

Lemma refreshData_indexed hub depth s data s' :
  refreshData hub (S depth) s = (Return data, s') ->
  exists fields,
    wiserHubData s' = JObj fields
    /\ forall rooms room,
         dict_get fields "Room" = JArr rooms -> In (JObj room) rooms ->
         (dict_get room "RoomStatId" <> JNull -> stored (dict_get room "RoomStatId") s')
         /\ (forall valves v,
               dict_get room "SmartValveIds" = JArr valves -> In v valves ->
               stored v s').
Proof.
  intros H. destruct (refreshData_loop _ _ _ _ _ H) as (fields & D & L).
  exists fields. split; [exact D |]. intros rooms room Hr I.
  destruct (L rooms Hr) as (sR & sF & Fe & M).
  destruct (rooms_stored _ _ _ _ Fe I) as [A B].
  assert (K : forall k, stored k sF -> stored k s').
  { intros k [Hh Hi]. split; [exact Hh |]. unfold indexed in *. rewrite M. exact Hi. }
  split.
  - intros N. apply K, A, N.
  - intros valves v V Iv. apply K. eapply B; eauto.
Qed.

(** X16.  After a refresh that returned, the device index answers for
    every device of the rooms that the cache now holds: for the RoomStatId
    of each room that has one, and for each of its SmartValveIds,
    [getDeviceRoom] returns an entry without sending a request. *)
Theorem refreshData_indexes_every_device
    (hub : Hub) (depth : nat) (s : State) (data : Json) (s' : State)
    (R : refreshData hub (S depth) s = (Return data, s'))
    (fields : list (string * Json)) (rooms : list Json) (room : list (string * Json))
    (D : wiserHubData s' = JObj fields)
    (Hr : dict_get fields "Room" = JArr rooms)
    (I : In (JObj room) rooms) :
  (dict_get room "RoomStatId" <> JNull ->
   known_device hub (dict_get room "RoomStatId") s')
  /\ (forall valves v,
        dict_get room "SmartValveIds" = JArr valves -> In v valves ->
        known_device hub v s').
Proof.
  destruct (refreshData_indexed _ _ _ _ _ R) as (fields' & D' & K).
  rewrite D in D'. injection D' as <-.
  destruct (K rooms room Hr I) as [A B].
  assert (N : wiserHubData s' <> JNull) by (rewrite D; discriminate).
  split.
  - intros Z. apply stored_known; auto.
  - intros valves v V Iv. apply stored_known; [exact N |]. eapply B; eauto.
Qed.

Lemma refreshData_indexes_every_device_witness :
  let s' := snd (refreshData (serving two_rooms JNull) 2 init) in
  known_device (serving two_rooms JNull) (JInt 11) s'
  /\ known_device (serving two_rooms JNull) (JInt 22) s'.
Proof.
  cbv zeta.
  set (hall := [("id", JInt 1); ("Name", JStr "Hall"); ("RoomStatId", JInt 11)]).
  set (bath := [("id", JInt 2); ("Name", JStr "Bath");
                ("SmartValveIds", JArr [JInt 21; JInt 22])]).
  assert (R : refreshData (serving two_rooms JNull) 2 init
              = (Return (JObj [("Room", JArr [JObj hall; JObj bath]);
                               ("Schedule", JArr [])]),
                 snd (refreshData (serving two_rooms JNull) 2 init)))
    by (vm_compute; reflexivity).
  split.
  - apply (proj1 (refreshData_indexes_every_device _ 1 init _ _ R
                    [("Room", JArr [JObj hall; JObj bath]); ("Schedule", JArr [])]
                    [JObj hall; JObj bath] hall
                    eq_refl eq_refl (or_introl eq_refl))).
    discriminate.
  - apply (proj2 (refreshData_indexes_every_device _ 1 init _ _ R
                    [("Room", JArr [JObj hall; JObj bath]); ("Schedule", JArr [])]
                    [JObj hall; JObj bath] bath
                    eq_refl eq_refl (or_intror (or_introl eq_refl)))
             [JInt 21; JInt 22] (JInt 22) eq_refl (or_intror (or_introl eq_refl))).
Defined.

(** ** Which room a device is filed under *)

(** X17.  After a refresh that returned, [getDeviceRoom] answers for a
    device with the id and the name of the last room, in the order of the
    cached Room list, that lists the device as its RoomStatId or among its
    SmartValveIds: an entry left by an earlier refresh, or by a room earlier
    in the list, does not stand in the way.  No request is sent. *)
Theorem refreshData_files_a_device_under_its_last_room
    (hub : Hub) (depth : nat) (s : State) (data : Json) (s' : State)
    (R : refreshData hub (S depth) s = (Return data, s'))
    (fields : list (string * Json)) (rooms : list (list (string * Json)))
    (D : wiserHubData s' = JObj fields)
    (Hr : dict_get fields "Room" = JArr (List.map JObj rooms))
    (k : Json) (room : list (string * Json))
    (Hk : hashable k = true)
    (O : owner rooms k = Some room) :
  forall depth',
    fst (getDeviceRoom hub depth' k s') = Return (entry_of room)
    /\ sent (snd (getDeviceRoom hub depth' k s')) = sent s'.
Proof.
  destruct (refreshData_loop _ _ _ _ _ R) as (fields' & D' & L).
  rewrite D in D'. injection D' as <-.
  destruct (L _ Hr) as (sR & sF & Fe & M).
  apply find_known; [rewrite D; discriminate | exact Hk |].
  rewrite M, (rooms_find _ _ _ Fe k Hk), O. reflexivity.
Qed.

Lemma refreshData_files_a_device_under_its_last_room_witness :
  let s' := snd (refreshData (serving shared_valve JNull) 2 init) in
  fst (getDeviceRoom (serving shared_valve JNull) 0 (JInt 21) s')
  = Return (JObj [("roomId", JInt 2); ("roomName", JStr "Bath")]).
Proof.
  cbv zeta.
  set (hall := [("id", JInt 1); ("Name", JStr "Hall"); ("SmartValveIds", JArr [JInt 21])]).
  set (bath := [("id", JInt 2); ("Name", JStr "Bath");
                ("SmartValveIds", JArr [JInt 21; JInt 22])]).
  assert (R : refreshData (serving shared_valve JNull) 2 init
              = (Return (JObj [("Room", JArr [JObj hall; JObj bath]);
                               ("Schedule", JArr [])]),
                 snd (refreshData (serving shared_valve JNull) 2 init)))
    by (vm_compute; reflexivity).
  apply (refreshData_files_a_device_under_its_last_room _ 1 init _ _ R
           [("Room", JArr [JObj hall; JObj bath]); ("Schedule", JArr [])]
           [hall; bath] eq_refl eq_refl (JInt 21) bath eq_refl eq_refl 0%nat).
Defined.

(** ** An empty device index *)

Lemma recorded_logged P s s' : extends P s s' -> logged s' = logged s ++ recorded s s'.
Proof.
  intros [_ [r L]]. rewrite (recorded_app _ _ _ L). exact L.
Qed.

(** X18.  With an empty device index [getDeviceRoom] refreshes even when
    the domain cache is populated: after its debug record the first thing
    logged is "Updating Wiser Hub Data", and at least one request goes
    out.  A home whose rooms have no devices pays a refresh for every
    call. *)
Theorem getDeviceRoom_refreshes_on_an_empty_index
    (hub : Hub) (depth : nat) (deviceId : Json) (s : State)
    (N : wiserHubData s <> JNull) (E : device2roomMap s = []) :
  let s' := snd (getDeviceRoom hub (S depth) deviceId s) in
  (exists first rest, issued s s' = first :: rest)
  /\ (exists records,
        recorded s s'
        = (DEBUG, mkFmt " getDeviceRoom called, valve2roomMap is {} " [FMap []])
          :: refresh_started :: records).
Proof.
  cbv zeta. unfold getDeviceRoom.
  rewrite (bind_return _ _ _ _ _ (checkHubData_populated hub (S depth) s N)).
  forward. rewrite E. cbn [snd _LOGGER device2roomMap].
  set (s1 := mkState _ _ _ _ _ _).
  rewrite bind_assoc.
  match goal with
  | |- context [bind (refreshData hub (S depth)) ?k s1] =>
      assert (Hk : forall a t, reading (k a) t) by (intros; frame);
      pose proof (bind_extends (refreshData hub (S depth)) k s1 Hk) as X
  end.
  assert (X0 : extends is_get s1 (snd (refreshData hub (S depth) s1))).
  { eapply run_extends; [| apply surjective_pairing]. frame. }
  destruct (refreshData_starts hub depth s1) as [(first & rest & Hi) (records & Hr)].
  destruct (issued_cons _ _ _ _ _ Hi X0 X) as [rest' Xi].
  destruct (recorded_cons _ _ _ _ _ Hr X0 X) as [records' Xr].
  split.
  - exists first, rest'. exact Xi.
  - exists records'. apply recorded_app.
    rewrite (recorded_logged is_get s1 _ (extends_trans _ _ _ _ X0 X)), Xr.
    cbn [logged s1]. rewrite <- app_assoc. reflexivity.
Qed.

Lemma getDeviceRoom_refreshes_on_an_empty_index_witness :
  exists first rest,
    issued (loaded one_room) (snd (getDeviceRoom unreachable 1 (JInt 5) (loaded one_room)))
    = first :: rest.
Proof.
  apply (getDeviceRoom_refreshes_on_an_empty_index unreachable 0 (JInt 5)
           (loaded one_room) ltac:(discriminate) eq_refl).
Defined.

(** ** Writing to the hub *)

Lemma sent_only_log reqs s s' lvl m :
  sent_only reqs s s' -> sent_only reqs s (snd (_LOGGER lvl m s')).
Proof.
  intros (A & B & C & D & E & r & L). repeat split; cbn; auto.
  exists (r ++ [(lvl, m)]). rewrite L, app_assoc. reflexivity.
Qed.

Lemma sent_only_refl s : sent_only [] s s.
Proof.
  repeat split; try (rewrite app_nil_r; reflexivity).
  exists []. rewrite app_nil_r. reflexivity.
Qed.

(** A method that has only logged so far, and ends by sending one PATCH
    and testing the response for 200.  The response it tests is one that the
    session's hook has let through. *)
Lemma patch_and_test hub u data (refused : Response -> Exn)
    (k : Response -> M unit) s0 s :
  sent_only [] s0 s ->
  (forall r s1, status_code r = 200 ->
                fst (k r s1) = Return tt /\ sent_only [] s1 (snd (k r s1))) ->
  (forall r s1, status_code r <> 200 -> transport (Delivered r) = Return r ->
                fst (k r s1) = Raise (refused r) /\ sent_only [] s1 (snd (k r s1))) ->
  let run := bind (_http_patch hub u data) k s in
  fst run = answer (hub (sent s0 ++ [patch u data])) refused
  /\ sent_only [patch u data] s0 (snd run).
Proof.
  intros (A & B & C & D & E & rec & L) K200 Kn. cbv zeta.
  unfold bind, _http_patch. rewrite request_outcome.
  rewrite app_nil_r in E. rewrite E. unfold answer, patch.
  set (after := mkState _ _ _ _ _ _).
  assert (Sa : sent_only [mkRequest PATCH u (Some data)] s0 after).
  { subst after. repeat split; cbn; eauto. }
  destruct (transport (hub (sent s0 ++ [mkRequest PATCH u (Some data)]))) as [r | e]
    eqn:T.
  - assert (Tr' : transport (Delivered r) = Return r).
    { destruct (hub (sent s0 ++ [mkRequest PATCH u (Some data)])) as [r' | | |];
        try discriminate.
      cbn [transport] in *.
      destruct ((400 <=? status_code r') && (status_code r' <? 600)) eqn:Hook;
        [discriminate |].
      injection T as <-. rewrite Hook. reflexivity. }
    assert (Tr : forall s2, sent_only [] after s2 ->
                   sent_only [mkRequest PATCH u (Some data)] s0 s2).
    { intros s2 (A2 & B2 & C2 & D2 & E2 & r2 & L2).
      destruct Sa as (A1 & B1 & C1 & D1 & E1 & r1 & L1).
      repeat split; try congruence.
      - rewrite E2, app_nil_r. exact E1.
      - exists (r1 ++ r2). rewrite L2, L1, app_assoc. reflexivity. }
    destruct (status_code r =? 200) eqn:S.
    + apply Z.eqb_eq in S. destruct (K200 r after S) as [F X]. split; auto.
    + apply Z.eqb_neq in S. destruct (Kn r after S Tr') as [F X]. split; auto.
  - split; [reflexivity | exact Sa].
Qed.

Lemma sent_only_logged s lvl m : sent_only [] s (snd (_LOGGER lvl m s)).
Proof. apply sent_only_log, sent_only_refl. Qed.

(** What the range check lets through of the ints: the set point is ten
    times the temperature. *)
Lemma checkTempRange_setpoint (z : Z) :
  _checkTempRange (Int z) = true ->
  _toWiserTemp (Int z) = Return (10 * z) /\ valid_setpoint (10 * z).
Proof.
  intros H. split; [unfold _toWiserTemp, times, int_of; f_equal; lia |].
  apply checkTempRange_iff in H. cbn [value] in H.
  unfold off_or_in_range, valid_setpoint, Qeq, Qle, inject_Z in *.
  cbn [Qnum Qden] in H. lia.
Qed.

(** X20.  [setRoomTemperature] checks the temperature before anything
    else.  One that the range check refuses raises [ValueError] with
    nothing sent.  One that passes is turned into the set point
    [int(temperature * 10)]: if that conversion raises, as it does for NaN,
    which passes the range check, its exception reaches the caller with
    nothing sent; otherwise exactly one request goes out, a PATCH of the
    room with a manual override at that set point, and the call returns if
    the answer is 200, raises [WiserRESTException] with the text of any
    other response, and lets the exception of requests through if there is
    one.  For an int temperature the set point is ten times the
    temperature: -200, or from 50 to 300.  The caches and the index stay
    as they are. *)
Theorem setRoomTemperature_checks_then_patches
    (hub : Hub) (roomId : Json) (temperature : Number) (s : State) :
  let run := setRoomTemperature hub roomId temperature s in
  let req setPoint :=
    patch (mkFmt "domain/Room/{}" [FVal roomId])
          (JObj [("RequestOverride",
                  JObj [("Type", JStr "Manual"); ("SetPoint", JInt setPoint)])]) in
  (_checkTempRange temperature = false ->
   (exists m, fst run = Raise (ValueError m)) /\ sent_only [] s (snd run))
  /\ (forall e,
        _checkTempRange temperature = true -> _toWiserTemp temperature = Raise e ->
        fst run = Raise e /\ sent_only [] s (snd run))
  /\ (forall setPoint,
        _checkTempRange temperature = true ->
        _toWiserTemp temperature = Return setPoint ->
        sent_only [req setPoint] s (snd run)
        /\ fst run =
           answer (hub (sent s ++ [req setPoint]))
                  (fun r => WiserRESTException
                              (AMsg (mkFmt "Error setting temperature, error {} "
                                           [FVal (JStr (text r))]))))
  /\ (forall z,
        temperature = Int z -> _checkTempRange temperature = true ->
        _toWiserTemp temperature = Return (10 * z) /\ valid_setpoint (10 * z))
  /\ (_checkTempRange (Float nan) = true
      /\ _toWiserTemp (Float nan)
         = Raise (ValueError (plain "cannot convert float NaN to integer"))).
Proof.
  cbv zeta. unfold setRoomTemperature. rewrite bind_log.
  repeat match goal with |- _ /\ _ => split end.
  - intros C. rewrite C. cbn [negb].
    split; [eexists; reflexivity | apply sent_only_logged].
  - intros e C T. rewrite C. cbn [negb]. unfold bind at 1, lift. rewrite T.
    split; [reflexivity | apply sent_only_logged].
  - intros setPoint C T. rewrite C. cbn [negb]. unfold bind at 1, lift. rewrite T.
    match goal with
    | |- context [bind (_http_patch hub ?u ?d) ?k ?s1] =>
        destruct (patch_and_test hub u d
                    (fun r => WiserRESTException
                                (AMsg (mkFmt "Error setting temperature, error {} "
                                             [FVal (JStr (text r))])))
                    k s s1) as [F S]
    end.
    + apply sent_only_logged.
    + intros r s1 E. apply Z.eqb_eq in E. rewrite E. cbn [negb].
      split; [reflexivity | apply sent_only_logged].
    + intros r s1 E _. apply Z.eqb_neq in E. rewrite E. cbn [negb].
      rewrite bind_log. split; [reflexivity | apply sent_only_logged].
    + split; assumption.
  - intros z -> C. apply checkTempRange_setpoint. exact C.
  - vm_compute. reflexivity.
  - vm_compute. reflexivity.
Qed.

Lemma setRoomTemperature_checks_then_patches_witness :
  (exists m, fst (setRoomTemperature unreachable (JInt 1) (Int 31) init)
             = Raise (ValueError m))
  /\ sent (snd (setRoomTemperature unreachable (JInt 1) (Int 31) init)) = sent init ++ []
  /\ sent (snd (setRoomTemperature (answering 200) (JInt 1) (Float 20.5) init))
     = sent init ++ [patch (room_url (JInt 1)) (temperature_override 205)]
  /\ sent (snd (setRoomTemperature (answering 200) (JInt 1) (Float nan) init))
     = sent init ++ [].
Proof.
  destruct (proj1 (setRoomTemperature_checks_then_patches unreachable (JInt 1)
                     (Int 31) init) eq_refl) as [A B].
  destruct (proj1 (proj2 (proj2 (setRoomTemperature_checks_then_patches (answering 200)
                                   (JInt 1) (Float 20.5) init))) 205 eq_refl eq_refl)
    as (C & _).
  destruct (proj1 (proj2 (setRoomTemperature_checks_then_patches (answering 200)
                            (JInt 1) (Float nan) init))
              (ValueError (plain "cannot convert float NaN to integer")) eq_refl eq_refl)
    as (_ & D).
  split; [exact A | split; [| split]].
  - exact (proj1 (proj2 (proj2 (proj2 (proj2 B))))).
  - exact (proj1 (proj2 (proj2 (proj2 (proj2 C))))).
  - exact (proj1 (proj2 (proj2 (proj2 (proj2 D))))).
Defined.

(** X21.  [setSystemSwitch] sends exactly one request, whatever the hub
    answers: a PATCH of System whose body has the switch as its one key.  It
    returns if the answer is 200 and raises [WiserRESTException] with the
    switch, the status and the text of any other response.  The caches and
    the index stay as they are. *)
Theorem setSystemSwitch_sends_one_patch
    (hub : Hub) (switch : string) (mode : Json) (s : State) :
  let run := setSystemSwitch hub switch mode s in
  let req := patch (plain "System") (JObj [(switch, mode)]) in
  sent_only [req] s (snd run)
  /\ fst run =
     answer (hub (sent s ++ [req]))
            (fun r => WiserRESTException
                        (AMsg (mkFmt "Error setting {} , error {} {}"
                                     [FVal (JStr switch); FVal (JInt (status_code r));
                                      FVal (JStr (text r))]))).
Proof.
  cbv zeta. unfold setSystemSwitch. rewrite bind_log.
  match goal with
  | |- context [bind (_http_patch hub ?u ?d) ?k ?s1] =>
      destruct (patch_and_test hub u d
                  (fun r => WiserRESTException
                              (AMsg (mkFmt "Error setting {} , error {} {}"
                                           [FVal (JStr switch);
                                            FVal (JInt (status_code r));
                                            FVal (JStr (text r))])))
                  k s s1) as [F S]
  end.
  - apply sent_only_logged.
  - intros r s1 E. apply Z.eqb_eq in E. rewrite E. cbn [negb].
    split; [reflexivity | apply sent_only_refl].
  - intros r s1 E _. apply Z.eqb_neq in E. rewrite E. cbn [negb].
    rewrite bind_log. split; [reflexivity | apply sent_only_logged].
  - split; assumption.
Qed.

(** X22.  [setHomeAwayMode] takes "HOME" and "AWAY" as they are written,
    in capitals, and nothing else.  HOME sends the override of type 0
    whatever the temperature is, even [None] or one out of range.  AWAY
    needs a temperature that passes the range check, and sends the override
    of type 2 with the set point [int(temperature * 10)], which for an int
    is ten times the temperature: -200, or from 50 to 300.  If that
    conversion raises, as it does for NaN, which passes the range check,
    its exception reaches the caller with nothing sent.  In both modes the
    one PATCH of System/RequestOverride is all that is sent, and a response
    other than 200 is reported as a [ValueError].  A refused call raises
    [ValueError] and sends nothing. *)
Theorem setHomeAwayMode_checks_then_patches
    (hub : Hub) (mode : string) (temperature : option Number) (s : State) :
  let run := setHomeAwayMode hub mode temperature s in
  let refused r :=
    ValueError (mkFmt "Error setting Home/Away , error {} {}"
                      [FVal (JInt (status_code r)); FVal (JStr (text r))]) in
  let sends data :=
    sent_only [patch (plain "System/RequestOverride") data] s (snd run)
    /\ fst run =
       answer (hub (sent s ++ [patch (plain "System/RequestOverride") data])) refused in
  (mode = "HOME" -> sends home_override)
  /\ (forall t setPoint,
        mode = "AWAY" -> temperature = Some t -> _checkTempRange t = true ->
        _toWiserTemp t = Return setPoint -> sends (away_override setPoint))
  /\ (forall t e,
        mode = "AWAY" -> temperature = Some t -> _checkTempRange t = true ->
        _toWiserTemp t = Raise e ->
        fst run = Raise e /\ sent_only [] s (snd run))
  /\ (forall z,
        mode = "AWAY" -> temperature = Some (Int z) -> _checkTempRange (Int z) = true ->
        valid_setpoint (10 * z) /\ sends (away_override (10 * z)))
  /\ ((mode <> "HOME" /\ mode <> "AWAY")
      \/ (mode = "AWAY" /\ temperature = None)
      \/ (mode = "AWAY" /\ exists t, temperature = Some t /\ _checkTempRange t = false) ->
      (exists m, fst run = Raise (ValueError m)) /\ sent_only [] s (snd run)).
Proof.
  cbv zeta. unfold setHomeAwayMode. rewrite bind_log.
  set (s1 := snd (_LOGGER _ _ s)).
  assert (S1 : sent_only [] s s1) by apply sent_only_logged.
  assert (Tail : forall data s2,
            sent_only [] s s2 ->
            let run :=
              bind (_http_patch hub (plain "System/RequestOverride") data)
                (fun response =>
                   if negb (status_code response =? 200) then
                     bind (_LOGGER DEBUG
                             (mkFmt "Set Home/Away Response code = {}"
                                    [FVal (JInt (status_code response))]))
                       (fun _ =>
                          raise (ValueError
                                   (mkFmt "Error setting Home/Away , error {} {}"
                                          [FVal (JInt (status_code response));
                                           FVal (JStr (text response))])))
                   else ret tt) s2 in
            sent_only [patch (plain "System/RequestOverride") data] s (snd run)
            /\ fst run =
               answer (hub (sent s ++ [patch (plain "System/RequestOverride") data]))
                 (fun r => ValueError
                             (mkFmt "Error setting Home/Away , error {} {}"
                                    [FVal (JInt (status_code r)); FVal (JStr (text r))]))).
  { intros data s2 S2. cbv zeta.
    match goal with
    | |- context [bind (_http_patch hub ?u ?d) ?k ?s3] =>
        destruct (patch_and_test hub u d
                    (fun r => ValueError
                                (mkFmt "Error setting Home/Away , error {} {}"
                                       [FVal (JInt (status_code r));
                                        FVal (JStr (text r))]))
                    k s s3) as [F S]
    end.
    - exact S2.
    - intros r s3 E. apply Z.eqb_eq in E. rewrite E. cbn [negb].
      split; [reflexivity | apply sent_only_refl].
    - intros r s3 E _. apply Z.eqb_neq in E. rewrite E. cbn [negb].
      rewrite bind_log. split; [reflexivity | apply sent_only_logged].
    - split; assumption. }
  match goal with
  | |- _ /\ (?P /\ _) => assert (Away : P)
  end.
  { intros t setPoint -> -> C T.
    cbn [str_in existsb String.eqb Ascii.eqb Bool.eqb orb negb].
    rewrite C. cbn [negb temperature_number].
    forward. unfold bind at 1, lift. rewrite T. forward.
    apply Tail. do 2 apply sent_only_log. exact S1. }
  repeat match goal with |- _ /\ _ => split end.
  - intros ->. cbn [str_in existsb String.eqb Ascii.eqb Bool.eqb orb negb].
    forward. apply Tail. do 2 apply sent_only_log. exact S1.
  - intros t setPoint Hm Ht C T. apply (Away t setPoint Hm Ht C T).
  - intros t e -> -> C T.
    cbn [str_in existsb String.eqb Ascii.eqb Bool.eqb orb negb].
    rewrite C. cbn [negb temperature_number].
    forward. unfold bind at 1, lift. rewrite T.
    split; [reflexivity | apply sent_only_log; exact S1].
  - intros z Hm Ht C. destruct (checkTempRange_setpoint z C) as [T V].
    split; [exact V | apply (Away (Int z) (10 * z) Hm Ht C T)].
  - intros [[Nh Na] | [[-> ->] | [-> (t & -> & C)]]].
    + apply String.eqb_neq in Nh, Na. unfold str_in. cbn [existsb].
      rewrite Nh, Na. cbn [orb negb].
      split; [eexists; reflexivity | exact S1].
    + cbn [str_in existsb String.eqb Ascii.eqb Bool.eqb orb negb].
      split; [eexists; reflexivity | exact S1].
    + cbn [str_in existsb String.eqb Ascii.eqb Bool.eqb orb negb].
      rewrite C. cbn [negb].
      split; [eexists; reflexivity | exact S1].
Qed.

Lemma setHomeAwayMode_checks_then_patches_witness :
  sent (snd (setHomeAwayMode (answering 200) "HOME" None init))
  = sent init ++ [patch (plain "System/RequestOverride") home_override]
  /\ sent (snd (setHomeAwayMode (answering 200) "AWAY" (Some (Int 16)) init))
     = sent init ++ [patch (plain "System/RequestOverride") (away_override 160)]
  /\ fst (setHomeAwayMode (answering 200) "AWAY" (Some (Float nan)) init)
     = Raise (ValueError (plain "cannot convert float NaN to integer"))
  /\ exists m, fst (setHomeAwayMode (answering 200) "home" (Some (Int 16)) init)
               = Raise (ValueError m).
Proof.
  pose proof (setHomeAwayMode_checks_then_patches (answering 200) "HOME" None init) as H.
  pose proof (setHomeAwayMode_checks_then_patches (answering 200) "AWAY"
                (Some (Int 16)) init) as A.
  pose proof (setHomeAwayMode_checks_then_patches (answering 200) "AWAY"
                (Some (Float nan)) init) as N.
  pose proof (setHomeAwayMode_checks_then_patches (answering 200) "home"
                (Some (Int 16)) init) as L.
  cbv zeta in H, A, N, L.
  destruct H as [H _]. destruct A as (_ & _ & _ & A & _).
  destruct N as (_ & _ & N & _). destruct L as (_ & _ & _ & _ & L).
  destruct (H eq_refl) as [Hs _].
  destruct (A 16 eq_refl eq_refl eq_refl) as [_ [As _]].
  destruct (N (Float nan) (ValueError (plain "cannot convert float NaN to integer"))
              eq_refl eq_refl eq_refl eq_refl) as [Nr _].
  destruct L as [Lr _]; [left; split; discriminate |].
  split; [exact (proj1 (proj2 (proj2 (proj2 (proj2 Hs))))) | split; [| split]].
  - exact (proj1 (proj2 (proj2 (proj2 (proj2 As))))).
  - exact Nr.
  - exact Lr.
Defined.

(** ** Words *)

Lemma ascii_case_facts (c : ascii) :
  ascii_lower (ascii_upper c) = ascii_lower c
  /\ ascii_lower (ascii_lower c) = ascii_lower c
  /\ ascii_upper (ascii_lower c) = ascii_upper c
  /\ is_letter (ascii_lower c) = is_letter c.
Proof.
  destruct c as [[] [] [] [] [] [] [] []]; vm_compute; repeat split.
Qed.

Lemma title_from_lower b s : title_from b (lower s) = title_from b s.
Proof.
  revert b. induction s as [| c s IH]; intros b; cbn [lower title_from]; [reflexivity |].
  destruct (ascii_case_facts c) as (_ & L & U & A).
  rewrite A, IH. destruct b; [rewrite L | rewrite U]; reflexivity.
Qed.

Lemma lower_title_from b s : lower (title_from b s) = lower s.
Proof.
  revert b. induction s as [| c s IH]; intros b; cbn [lower title_from]; [reflexivity |].
  destruct (ascii_case_facts c) as (LU & L & _ & _).
  rewrite IH. destruct b; [rewrite L | rewrite LU]; reflexivity.
Qed.

(** A word in title case is what [title] gives exactly on the strings
    that are that word up to the case of their letters. *)
Lemma title_iff s w : title w = w -> (title s = w <-> lower s = lower w).
Proof.
  intros W. unfold title in *. split; intros H.
  - rewrite <- H. symmetry. apply lower_title_from.
  - rewrite <- (title_from_lower false s), H, title_from_lower. exact W.
Qed.

(** ** Smart plug setters *)

Lemma transport_not_404 r : transport (Delivered r) = Return r -> status_code r <> 404.
Proof.
  cbn [transport].
  destruct ((400 <=? status_code r) && (status_code r <? 600)) eqn:B;
    [discriminate |].
  intros _ E. rewrite E in B. discriminate.
Qed.

(** The end of both setters: the PATCH and what is made of the response. *)
Lemma plug_patch hub smartPlugId data s0 s :
  sent_only [] s0 s ->
  let run :=
    bind (_http_patch hub (plug_url smartPlugId) data)
         (fun response => plug_response smartPlugId response) s in
  fst run = answer (hub (sent s0 ++ [patch (plug_url smartPlugId) data])) plug_refused
  /\ sent_only [patch (plug_url smartPlugId) data] s0 (snd run).
Proof.
  intros S. apply patch_and_test; [exact S | |].
  - intros r s1 E. unfold plug_response. apply Z.eqb_eq in E. rewrite E.
    split; [reflexivity | apply sent_only_refl].
  - intros r s1 E T. unfold plug_response.
    pose proof (transport_not_404 r T) as N.
    apply Z.eqb_neq in E, N. rewrite E, N. cbn [negb]. rewrite bind_log.
    split; [reflexivity | apply sent_only_logged].
Qed.

Lemma answer_not_WiserNotFound w :
  not_WiserNotFound (answer w plug_refused).
Proof.
  unfold answer, transport.
  destruct w as [r | | |]; try exact Logic.I.
  destruct ((400 <=? status_code r) && (status_code r <? 600)); [exact Logic.I |].
  destruct (status_code r =? 200); exact Logic.I.
Qed.

Lemma str_in_title s w1 w2 :
  title w1 = w1 -> title w2 = w2 ->
  str_in (title s) [w1; w2] = true <-> (lower s = lower w1 \/ lower s = lower w2).
Proof.
  intros T1 T2. unfold str_in. cbn [existsb]. rewrite orb_false_r, orb_true_iff.
  rewrite !String.eqb_eq.
  rewrite (title_iff s w1 T1), (title_iff s w2 T2). reflexivity.
Qed.

(** X23.  [setSmartPlugState] and [setSmartPlugMode] take their word in
    any mix of capitals and small letters: the state is accepted exactly
    when it is "on" or "off" up to case, the mode exactly when it is "auto"
    or "manual" up to case.  What is sent is the word in title case, in one
    PATCH of the plug, and nothing else; a response other than 200 is
    reported as [WiserRESTException].  Anything else, and the state [None],
    raises [ValueError] with nothing sent. *)
Theorem smart_plug_setters_normalise_case
    (hub : Hub) (smartPlugId : Json) (word : string) (s : State) :
  let state_run := setSmartPlugState hub smartPlugId (Some word) s in
  let mode_run := setSmartPlugMode hub smartPlugId word s in
  let sends run key words :=
    str_in (title word) words = true
    /\ sent_only [patch (plug_url smartPlugId) (JObj [(key, JStr (title word))])] s
         (snd run)
    /\ fst run =
       answer (hub (sent s ++ [patch (plug_url smartPlugId)
                                     (JObj [(key, JStr (title word))])]))
              plug_refused in
  let refuses run :=
    (exists m, fst run = Raise (ValueError m)) /\ sent_only [] s (snd run) in
  (if String.eqb (lower word) "on" || String.eqb (lower word) "off"
   then sends state_run "RequestOutput" ["On"; "Off"] else refuses state_run)
  /\ (if String.eqb (lower word) "auto" || String.eqb (lower word) "manual"
      then sends mode_run "Mode" ["Auto"; "Manual"] else refuses mode_run)
  /\ refuses (setSmartPlugState hub smartPlugId None s).
Proof.
  cbv zeta.
  assert (St : str_in (title word) ["On"; "Off"] = true <->
               (lower word = "on" \/ lower word = "off"))
    by (apply (str_in_title word "On" "Off"); reflexivity).
  assert (Mo : str_in (title word) ["Auto"; "Manual"] = true <->
               (lower word = "auto" \/ lower word = "manual"))
    by (apply (str_in_title word "Auto" "Manual"); reflexivity).
  split; [| split].
  - unfold setSmartPlugState.
    destruct (String.eqb (lower word) "on" || String.eqb (lower word) "off") eqn:B.
    + apply orb_true_iff in B. rewrite !String.eqb_eq in B.
      pose proof (proj2 St B) as I. rewrite I. cbn [negb]. rewrite bind_log.
      split; [reflexivity |].
      destruct (plug_patch hub smartPlugId
                    (JObj [("RequestOutput", JStr (title word))]) s
                    (snd (_LOGGER DEBUG
                            (mkFmt "Setting smartplug status patchdata {} "
                                   [FVal (JObj [("RequestOutput", JStr (title word))])])
                            s))) as [F S]; [apply sent_only_logged |].
      split; assumption.
    + assert (I : str_in (title word) ["On"; "Off"] = false).
      { apply not_true_is_false. intros I. apply St in I.
        apply orb_false_iff in B. rewrite !String.eqb_neq in B.
        destruct I, B; contradiction. }
      rewrite I. cbn [negb]. rewrite bind_log.
      split; [eexists; reflexivity | apply sent_only_logged].
  - unfold setSmartPlugMode.
    destruct (String.eqb (lower word) "auto" || String.eqb (lower word) "manual") eqn:B.
    + apply orb_true_iff in B. rewrite !String.eqb_eq in B.
      pose proof (proj2 Mo B) as I. rewrite I. cbn [negb]. rewrite bind_log.
      split; [reflexivity |].
      destruct (plug_patch hub smartPlugId
                    (JObj [("Mode", JStr (title word))]) s
                    (snd (_LOGGER DEBUG
                            (mkFmt "Setting smartplug status patchdata {} "
                                   [FVal (JObj [("Mode", JStr (title word))])])
                            s))) as [F S]; [apply sent_only_logged |].
      split; assumption.
    + assert (I : str_in (title word) ["Auto"; "Manual"] = false).
      { apply not_true_is_false. intros I. apply Mo in I.
        apply orb_false_iff in B. rewrite !String.eqb_neq in B.
        destruct I, B; contradiction. }
      rewrite I. cbn [negb]. rewrite bind_log.
      split; [eexists; reflexivity | apply sent_only_logged].
  - unfold setSmartPlugState. rewrite bind_log.
    split; [eexists; reflexivity | apply sent_only_logged].
Qed.

(** X24.  The smart plug setters never raise [WiserNotFound], whatever
    the hub answers: a 404 does not reach their test for it, since the
    session's hook has raised [HTTPError] on it before. *)
Theorem smart_plug_setters_never_raise_WiserNotFound
    (hub : Hub) (smartPlugId : Json) (state : option string) (mode : string) (s : State) :
  not_WiserNotFound (fst (setSmartPlugState hub smartPlugId state s))
  /\ not_WiserNotFound (fst (setSmartPlugMode hub smartPlugId mode s)).
Proof.
  split.
  - unfold setSmartPlugState. destruct state as [word |]; [| exact Logic.I].
    destruct (str_in (title word) ["On"; "Off"]); cbn [negb];
      rewrite bind_log; [| exact Logic.I].
    match goal with
    | |- context [bind (_http_patch hub _ ?d) _ ?s1] =>
        destruct (plug_patch hub smartPlugId d s s1) as [F _];
          [apply sent_only_logged |]
    end.
    cbv zeta in F. rewrite F. apply answer_not_WiserNotFound.
  - unfold setSmartPlugMode.
    destruct (str_in (title mode) ["Auto"; "Manual"]); cbn [negb];
      rewrite bind_log; [| exact Logic.I].
    match goal with
    | |- context [bind (_http_patch hub _ ?d) _ ?s1] =>
        destruct (plug_patch hub smartPlugId d s s1) as [F _];
          [apply sent_only_logged |]
    end.
    cbv zeta in F. rewrite F. apply answer_not_WiserNotFound.
Qed.

(** ** HTTP errors *)

Lemma http_patch_error {B} (r : Response) u data (k : Response -> M B) s :
  400 <= status_code r < 600 ->
  fst (bind (_http_patch (replying r) u data) k s) = Raise (Requests (HTTPError r)).
Proof.
  intros E. unfold bind, _http_patch. rewrite request_outcome.
  unfold replying, transport.
  replace ((400 <=? status_code r) && (status_code r <? 600)) with true; [reflexivity |].
  symmetry. apply andb_true_iff. split; [apply Z.leb_le | apply Z.ltb_lt]; lia.
Qed.

(** X25.  When the hub answers with a status from 400 to 599, the methods
    that write to it raise none of the exceptions they make themselves out
    of a status that is not 200: the caller gets the [HTTPError] of requests
    as it is, raised by the session's hook inside the PATCH. *)
Theorem writes_pass_http_errors_on
    (r : Response) (E : 400 <= status_code r < 600)
    (depth : nat) (id value : Json) (switch : string) (temperature : option Number)
    (s : State) :
  let raw := Raise (Requests (HTTPError r)) in
  fst (setSystemSwitch (replying r) switch value s) = raw
  /\ fst (setRoomTemperature (replying r) id (Int 20) s) = raw
  /\ fst (setHomeAwayMode (replying r) "HOME" temperature s) = raw
  /\ fst (setSmartPlugState (replying r) id (Some "on") s) = raw
  /\ fst (setSmartPlugMode (replying r) id "manual" s) = raw
  /\ fst (setRoomMode (replying r) depth id "auto" (Int 20) value s) = raw
  /\ fst (setRoomMode (replying r) depth id "boost" (Int 20) value s) = raw.
Proof.
  cbv zeta. repeat match goal with |- _ /\ _ => split end.
  - unfold setSystemSwitch. forward. apply http_patch_error, E.
  - unfold setRoomTemperature. forward.
    change (_checkTempRange (Int 20)) with true. cbn [negb].
    change (_toWiserTemp (Int 20)) with (@Return Z 200). forward.
    apply http_patch_error, E.
  - unfold setHomeAwayMode. forward.
    cbn [str_in existsb String.eqb Ascii.eqb Bool.eqb orb negb].
    forward. apply http_patch_error, E.
  - unfold setSmartPlugState.
    change (str_in (title "on") ["On"; "Off"]) with true. cbn [negb].
    forward. apply http_patch_error, E.
  - unfold setSmartPlugMode.
    change (str_in (title "manual") ["Auto"; "Manual"]) with true. cbn [negb].
    forward. apply http_patch_error, E.
  - unfold setRoomMode, mode_patchData, cancel_current_boost.
    change (lower "auto") with "auto".
    cbn [String.eqb Ascii.eqb Bool.eqb negb]. forward. apply http_patch_error, E.
  - unfold setRoomMode, mode_patchData, cancel_current_boost, set_new_mode.
    change (lower "boost") with "boost".
    cbn [String.eqb Ascii.eqb Bool.eqb negb].
    change (num_lt (Int 20) TEMP_MINIMUM || num_lt TEMP_MAXIMUM (Int 20)) with false.
    change (_toWiserTemp (Int 20)) with (@Return Z 200).
    forward. apply http_patch_error, E.
Qed.

Lemma writes_pass_http_errors_on_witness :
  fst (setSmartPlugState (replying (mkResponse 404 "" None)) (JInt 7) (Some "on") init)
  = Raise (Requests (HTTPError (mkResponse 404 "" None))).
Proof.
  apply (writes_pass_http_errors_on (mkResponse 404 "" None) ltac:(cbn; lia)
           0 (JInt 7) JNull "" None init).
Defined.

(** ** Setting the schedule of a room *)

(** X26.  On a populated cache that has the room, [setRoomSchedule] sends
    the schedule data as they are in one PATCH of schedules/Heating/ with
    the room's ScheduleId, and nothing else; a response other than 200 is
    reported as [WiserRESTException].  For a room without ScheduleId it
    raises [WiserNotFound] and sends nothing. *)
Theorem setRoomSchedule_patches_the_schedule_of_the_room
    (hub : Hub) (depth : nat) (roomId scheduleData : Json) (s : State)
    (fields : list (string * Json)) (before : list (list (string * Json)))
    (room : list (string * Json)) (after : list Json)
    (Hd : wiserHubData s = JObj fields)
    (Hr : dict_get fields "Room" = JArr (List.map JObj before ++ JObj room :: after))
    (Hb : forallb (other_id roomId) before = true)
    (Hi : py_eq (dict_get room "id") roomId = true) :
  let run := setRoomSchedule hub depth roomId scheduleData s in
  let req := patch (schedule_url (dict_get room "ScheduleId")) scheduleData in
  (dict_get room "ScheduleId" = JNull ->
   run = (Raise (WiserNotFound (plain "No schedule found that matches roomId")), s))
  /\ (dict_get room "ScheduleId" <> JNull ->
      sent_only [req] s (snd run)
      /\ fst run =
         answer (hub (sent s ++ [req]))
                (fun r => WiserRESTException
                            (AMsg (mkFmt "Error setting schedule for room {} , error {} {}"
                                         [FVal roomId; FVal (JInt (status_code r));
                                          FVal (JStr (text r))])))).
Proof.
  assert (G : getRoom hub depth roomId s = (Return (JObj room), s))
    by (eapply getRoom_found; eauto).
  cbv zeta. unfold setRoomSchedule.
  rewrite (bind_return _ _ _ _ _ G). cbn [py_get]. rewrite bind_ret.
  split.
  - intros Z. rewrite Z. reflexivity.
  - intros Z.
    destruct (is_None (dict_get room "ScheduleId")) eqn:N;
      [apply is_None_true in N; contradiction |].
    cbn [negb].
    match goal with
    | |- context [bind (_http_patch hub ?u ?d) ?k s] =>
        destruct (patch_and_test hub u d
                    (fun r => WiserRESTException
                                (AMsg (mkFmt "Error setting schedule for room {} , error {} {}"
                                             [FVal roomId; FVal (JInt (status_code r));
                                              FVal (JStr (text r))])))
                    k s s) as [F S]
    end.
    + apply sent_only_refl.
    + intros r s1 E. apply Z.eqb_eq in E. rewrite E. cbn [negb].
      split; [reflexivity | apply sent_only_refl].
    + intros r s1 E _. apply Z.eqb_neq in E. rewrite E. cbn [negb].
      rewrite bind_log. split; [reflexivity | apply sent_only_logged].
    + split; assumption.
Qed.

Lemma setRoomSchedule_patches_the_schedule_of_the_room_witness :
  sent (snd (setRoomSchedule (answering 200) 0 (JInt 1) (JObj schedule5)
               (loaded scheduled_home)))
  = sent (loaded scheduled_home) ++ [patch (schedule_url (JInt 5)) (JObj schedule5)].
Proof.
  destruct (proj2 (setRoomSchedule_patches_the_schedule_of_the_room
                     (answering 200) 0 (JInt 1) (JObj schedule5) (loaded scheduled_home)
                     [("Room", JArr [JObj scheduled_room]);
                      ("Schedule", JArr [JObj [("id", JInt 4)]; JObj schedule5])]
                     [] scheduled_room [] eq_refl eq_refl eq_refl eq_refl)
              ltac:(discriminate)) as [S _].
  exact (proj1 (proj2 (proj2 (proj2 (proj2 S))))).
Defined.

(** ** Hot water mode *)

(** X27.  [setHotwaterMode] checks the mode before it looks at the cache:
    a mode that is not "on", "off" or "auto" up to case raises [ValueError],
    whose message shows the mode in lower case, with nothing fetched, sent
    or changed.  On a populated cache whose
    HotWater list starts with an object, a valid mode sends its entry of the
    mode mapping in one PATCH that has the heater's id in the URL, and the
    call returns [True] on 200 and raises [WiserRESTException] on another
    response.  A document without HotWater gives the [TypeError] of
    [None[0]], and an empty HotWater list gives [IndexError]. *)
Theorem setHotwaterMode_checks_the_mode_first
    (hub : Hub) (depth : nat) (mode : string) (s : State) :
  let run := setHotwaterMode hub depth mode s in
  (str_in (lower mode) ["on"; "off"; "auto"] = false ->
   run = (Raise (ValueError
                   (mkFmt "Hot Water can be either 'on', 'off' or 'auto' - not '%s'"
                          [FLower mode])), s))
  /\ (str_in (lower mode) ["on"; "off"; "auto"] = true ->
      forall fields,
        wiserHubData s = JObj fields ->
        (dict_get fields "HotWater" = JNull -> run = (Raise (TypeError "subscript"), s))
        /\ (dict_get fields "HotWater" = JArr [] -> run = (Return IndexError, s))
        /\ (forall heater rest,
              dict_get fields "HotWater" = JArr (JObj heater :: rest) ->
              let req := patch (hotwater_url (dict_get heater "id"))
                               (dict_get modeMapping (lower mode)) in
              sent_only [req] s (snd run)
              /\ fst run =
                 match answer (hub (sent s ++ [req]))
                         (fun r => WiserRESTException
                                     (AMsg (mkFmt "Error setting hot water mode to {}, error {} {}"
                                                  [FVal (JStr (lower mode));
                                                   FVal (JInt (status_code r));
                                                   FVal (JStr (text r))])))
                 with
                 | Return _ => Return (Item true)
                 | Raise e => Raise e
                 end)).
Proof.
  cbv zeta. unfold setHotwaterMode. split; intros V; rewrite V; cbn [negb].
  - reflexivity.
  - intros fields D. rewrite bind_get_state, D. cbn [is_None].
    rewrite bind_ret, bind_get_state, D. cbn [py_get]. rewrite bind_ret.
    split; [| split].
    + intros H. rewrite H. reflexivity.
    + intros H. rewrite H. reflexivity.
    + intros heater rest H. rewrite H. cbn [py_item0]. rewrite bind_ret.
      cbn [py_get]. rewrite bind_ret, bind_log. unfold bind, _http_patch. rewrite request_outcome.
      cbn [sent _LOGGER snd]. unfold answer, patch.
      destruct (transport _) as [r | e].
      * destruct (status_code r =? 200); cbn [negb].
        -- split; [| reflexivity].
           repeat split. eexists. cbn [logged]. reflexivity.
        -- split; [| reflexivity].
           repeat split. eexists. cbn [logged _LOGGER snd]. rewrite <- app_assoc.
           reflexivity.
      * split; [| reflexivity].
        repeat split. eexists. cbn [logged]. reflexivity.
Qed.

Lemma setHotwaterMode_checks_the_mode_first_witness :
  setHotwaterMode unreachable 1 "Warm" init
  = (Raise (ValueError
              (mkFmt "Hot Water can be either 'on', 'off' or 'auto' - not '%s'"
                     [FLower "Warm"])), init)
  /\ setHotwaterMode unreachable 1 "ON" (loaded (JObj [("HotWater", JArr [])]))
     = (Return IndexError, loaded (JObj [("HotWater", JArr [])])).
Proof.
  split.
  - apply (proj1 (setHotwaterMode_checks_the_mode_first unreachable 1 "Warm" init)).
    reflexivity.
  - apply (proj2 (setHotwaterMode_checks_the_mode_first unreachable 1 "ON"
                    (loaded (JObj [("HotWater", JArr [])])))
             eq_refl [("HotWater", JArr [])] eq_refl).
    reflexivity.
Defined.

(** ** Room mode: what is validated and what is sent *)

Lemma setRoomMode_after_patchData hub depth roomId mode bt btt s data :
  lower mode <> "boost" ->
  (forall s1, mode_patchData hub depth roomId mode bt btt s1 = (Return data, s1)) ->
  accepted (hub (sent s ++ [cancel_request roomId])) = true ->
  sent (snd (setRoomMode hub depth roomId mode bt btt s))
  = sent s ++ [cancel_request roomId; patch_request roomId data].
Proof.
  intros NB P A. unfold setRoomMode. rewrite bind_log.
  set (s0 := snd (_LOGGER _ _ s)).
  assert (S0 : sent s0 = sent s) by reflexivity.
  rewrite (bind_return _ _ _ _ _ (P s0)).
  pose proof (cancel_current_boost_sent hub roomId mode s0 NB) as C.
  rewrite <- S0 in A.
  pose proof (cancel_current_boost_accepted hub roomId mode s0 NB A) as R.
  destruct (cancel_current_boost hub roomId mode s0) as [x s1] eqn:K.
  cbn [fst snd] in *. subst x.
  rewrite (bind_return _ _ _ _ _ K).
  rewrite set_new_mode_sent, C, S0, <- app_assoc. reflexivity.
Qed.

(** X28.  What [setRoomMode] checks and what it sends.  A mode that is
    none of auto, boost, manual and off up to case, and a boost
    temperature below 5 or above 30, raise [ValueError] with nothing sent.
    A boost temperature that passes is turned into the set point
    [int(boost_temp * 10)]: if that conversion raises, as it does for NaN,
    which is neither below 5 nor above 30, its exception reaches the
    caller with nothing sent; otherwise one PATCH goes out, a manual
    override for the given minutes at that set point, which for an int is
    ten times the temperature, from 50 to 300.  When the hub accepts the
    cancel-boost patch, auto sends the mode Auto after it and off sends a
    manual override at -200. *)
Theorem setRoomMode_validates_then_sends
    (hub : Hub) (depth : nat) (roomId : Json) (mode : string)
    (boost_temp : Number) (boost_temp_time : Json) (s : State) :
  let run := setRoomMode hub depth roomId mode boost_temp boost_temp_time s in
  let out_of_range :=
    num_lt boost_temp (Int 5) || num_lt (Int 30) boost_temp in
  let refused :=
    (exists m, fst run = Raise (ValueError m)) /\ sent (snd run) = sent s in
  let to_room data :=
    mkRequest PATCH (mkFmt "domain/Room/{}" [FVal roomId]) (Some data) in
  let boost setPoint :=
    JObj [("RequestOverride",
           JObj [("Type", JStr "Manual"); ("DurationMinutes", boost_temp_time);
                 ("SetPoint", JInt setPoint); ("Originator", JStr "App")])] in
  let manual setPoint :=
    JObj [("Mode", JStr "Manual");
          ("RequestOverride",
           JObj [("Type", JStr "Manual"); ("SetPoint", JInt setPoint)])] in
  (lower mode <> "auto" -> lower mode <> "boost" -> lower mode <> "manual" ->
   lower mode <> "off" -> refused)
  /\ (lower mode = "boost" -> out_of_range = true -> refused)
  /\ (forall e,
        lower mode = "boost" -> out_of_range = false ->
        _toWiserTemp boost_temp = Raise e ->
        fst run = Raise e /\ sent (snd run) = sent s)
  /\ (forall setPoint,
        lower mode = "boost" -> out_of_range = false ->
        _toWiserTemp boost_temp = Return setPoint ->
        sent (snd run) = sent s ++ [to_room (boost setPoint)])
  /\ (forall z,
        lower mode = "boost" -> boost_temp = Int z -> out_of_range = false ->
        50 <= 10 * z <= 300
        /\ sent (snd run) = sent s ++ [to_room (boost (10 * z))])
  /\ (lower mode = "auto" ->
      accepted (hub (sent s ++ [to_room cancelBoostPostData])) = true ->
      sent (snd run)
      = sent s ++ [to_room cancelBoostPostData; to_room (JObj [("Mode", JStr "Auto")])])
  /\ (lower mode = "off" ->
      accepted (hub (sent s ++ [to_room cancelBoostPostData])) = true ->
      sent (snd run)
      = sent s ++ [to_room cancelBoostPostData; to_room (manual (-200))]).
Proof.
  cbv zeta.
  match goal with
  | |- _ /\ (_ /\ (_ /\ (?P /\ _))) => assert (Boost : P)
  end.
  { intros setPoint B O T. unfold setRoomMode, mode_patchData.
    rewrite bind_log, B.
    change (num_lt boost_temp TEMP_MINIMUM || num_lt TEMP_MAXIMUM boost_temp)
      with (num_lt boost_temp (Int 5) || num_lt (Int 30) boost_temp).
    rewrite O, T.
    cbn [String.eqb Ascii.eqb Bool.eqb]. forward.
    rewrite (bind_return _ _ _ _ _
               (cancel_current_boost_skipped hub roomId mode _ B)).
    rewrite set_new_mode_sent. reflexivity. }
  repeat match goal with |- _ /\ _ => split end.
  - intros Na Nb Nm No. apply String.eqb_neq in Na, Nb, Nm, No.
    unfold setRoomMode, mode_patchData. rewrite bind_log, Na, Nb, Nm, No.
    split; [eexists; reflexivity | reflexivity].
  - intros B O. unfold setRoomMode, mode_patchData. rewrite bind_log, B.
    change (num_lt boost_temp TEMP_MINIMUM || num_lt TEMP_MAXIMUM boost_temp)
      with (num_lt boost_temp (Int 5) || num_lt (Int 30) boost_temp).
    rewrite O.
    split; [eexists; reflexivity | reflexivity].
  - intros e B O T. unfold setRoomMode, mode_patchData. rewrite bind_log, B.
    change (num_lt boost_temp TEMP_MINIMUM || num_lt TEMP_MAXIMUM boost_temp)
      with (num_lt boost_temp (Int 5) || num_lt (Int 30) boost_temp).
    rewrite O, T.
    cbn [String.eqb Ascii.eqb Bool.eqb]. split; reflexivity.
  - exact Boost.
  - intros z B -> O.
    assert (V : _checkTempRange (Int z) = true).
    { unfold _checkTempRange.
      change (num_lt (Int z) TEMP_MINIMUM || num_lt TEMP_MAXIMUM (Int z))
        with (num_lt (Int z) (Int 5) || num_lt (Int 30) (Int z)).
      rewrite O, andb_false_r. reflexivity. }
    destruct (checkTempRange_setpoint z V) as [T [K | K]].
    + exfalso. assert (z = -20) by lia. subst z. discriminate O.
    + split; [exact K | apply (Boost (10 * z) B O T)].
  - intros E A. apply setRoomMode_after_patchData; [rewrite E; discriminate | | exact A].
    intros s1. unfold mode_patchData. rewrite E. reflexivity.
  - intros E A.
    apply setRoomMode_after_patchData; [rewrite E; discriminate | | exact A].
    intros s1. unfold mode_patchData. rewrite E. reflexivity.
Qed.

Lemma setRoomMode_validates_then_sends_witness :
  sent (snd (setRoomMode (answering 200) 0 (JInt 1) "Boost" (Int 21) (JInt 30) init))
  = sent init ++ [patch_request (JInt 1) (boost_override (JInt 30) 210)]
  /\ sent (snd (setRoomMode (answering 200) 0 (JInt 1) "OFF" (Int 20) (JInt 30) init))
     = sent init ++ [cancel_request (JInt 1);
                     patch_request (JInt 1) (manual_override (-200))]
  /\ fst (setRoomMode (answering 200) 0 (JInt 1) "boost" (Float nan) (JInt 30) init)
     = Raise (ValueError (plain "cannot convert float NaN to integer"))
  /\ exists m, fst (setRoomMode (answering 200) 0 (JInt 1) "eco" (Int 20) (JInt 30) init)
               = Raise (ValueError m).
Proof.
  pose proof (setRoomMode_validates_then_sends (answering 200) 0 (JInt 1) "Boost"
                (Int 21) (JInt 30) init) as B.
  pose proof (setRoomMode_validates_then_sends (answering 200) 0 (JInt 1) "OFF"
                (Int 20) (JInt 30) init) as O.
  pose proof (setRoomMode_validates_then_sends (answering 200) 0 (JInt 1) "boost"
                (Float nan) (JInt 30) init) as N.
  pose proof (setRoomMode_validates_then_sends (answering 200) 0 (JInt 1) "eco"
                (Int 20) (JInt 30) init) as U.
  cbv zeta in B, O, N, U.
  destruct B as (_ & _ & _ & _ & B & _). destruct O as (_ & _ & _ & _ & _ & _ & O).
  destruct N as (_ & _ & N & _). destruct U as (U & _).
  split; [exact (proj2 (B 21 eq_refl eq_refl eq_refl)) | split; [| split]].
  - exact (O eq_refl eq_refl).
  - exact (proj1 (N (ValueError (plain "cannot convert float NaN to integer"))
                    eq_refl eq_refl eq_refl)).
  - apply U; discriminate.
Defined.
